(** * Azure provisioning scripts: a shallow embedding and its properties

    The two scripts under [scripts/azure] are straight-line interactive
    programs: they read a defaults file, prompt the operator, shell out to
    the [az] command-line tool and print a credential bundle.  They are
    embedded here as computations in a small monad that carries

    - the operator's remaining input lines and the trace of everything the
      process did to the outside (prints, prompts, external commands);
    - the three ways a Python computation can end: a value, [sys.exit]
      ([SystemExit], which [except Exception] does not catch) and an
      ordinary exception.

    The outside world (the defaults file, the [az] tool, the standard
    library's JSON decoder) is an environment the scripts are parametric in. *)

From Stdlib Require Import ZArith Lia Bool Ascii.
From stdpp Require Import base option list strings gmap.

Local Open Scope Z_scope.
#[local] Set Warnings "-register-all".


(** ** Python strings

    A [str] is a [string]; each character stands for the code point of the
    same number (so the text that the operator types and that the tool prints
    ranges over code points below 256).  Literal messages of the scripts are
    kept as they are written in the source. *)
Module Str.

Definition code (c : ascii) : N := N_of_ascii c.

(** [str.isspace] on one character: the code points below 256 that Python
    classifies as whitespace. *)
Definition isspace (c : ascii) : bool :=
  let n := code c in
  ((9 <=? n) && (n <=? 13) || (28 <=? n) && (n <=? 32)
   || (n =? 133) || (n =? 160))%N.

(** Line boundaries of [str.splitlines] other than a carriage return. *)
Definition islinebreak (c : ascii) : bool :=
  let n := code c in
  ((n =? 10) || (n =? 11) || (n =? 12)
   || (n =? 28) || (n =? 29) || (n =? 30) || (n =? 133))%N.

Definition is_cr (c : ascii) : bool := (code c =? 13)%N.
Definition is_lf (c : ascii) : bool := (code c =? 10)%N.

Definition is_empty (s : string) : bool :=
  match s with EmptyString => true | String _ _ => false end.

Fixpoint lstrip (s : string) : string :=
  match s with
  | EmptyString => EmptyString
  | String c s' => if isspace c then lstrip s' else s
  end.

Fixpoint rstrip (s : string) : string :=
  match s with
  | EmptyString => EmptyString
  | String c s' =>
      let r := rstrip s' in
      if is_empty r && isspace c then EmptyString else String c r
  end.

(** [s.strip()] *)
Definition strip (s : string) : string := rstrip (lstrip s).

Fixpoint all_space (s : string) : bool :=
  match s with
  | EmptyString => true
  | String c s' => isspace c && all_space s'
  end.

Definition starts_with_space (s : string) : bool :=
  match s with EmptyString => false | String c _ => isspace c end.

Fixpoint ends_with_space (s : string) : bool :=
  match s with
  | EmptyString => false
  | String c EmptyString => isspace c
  | String _ s' => ends_with_space s'
  end.

(** [s.lower()] on code points below 256. *)
Definition lower_char (c : ascii) : ascii :=
  let n := code c in
  if ((65 <=? n) && (n <=? 90)
      || (192 <=? n) && (n <=? 222) && negb (n =? 215))%N
  then ascii_of_N (n + 32) else c.

Fixpoint lower (s : string) : string :=
  match s with
  | EmptyString => EmptyString
  | String c s' => String (lower_char c) (lower s')
  end.

(** [sep.join(parts)] for parts that are all [str]. *)
Fixpoint join (sep : string) (parts : list string) : string :=
  match parts with
  | [] => ""
  | [p] => p
  | p :: ps => p +:+ sep +:+ join sep ps
  end.

(** [s.splitlines()]: [line] is the text of the line being read. *)
Fixpoint splitlines_from (line s : string) : list string :=
  match s with
  | EmptyString => if is_empty line then [] else [line]
  | String c rest =>
      if is_cr c then
        match rest with
        | String c2 rest2 =>
            if is_lf c2 then line :: splitlines_from "" rest2
            else line :: splitlines_from "" rest
        | EmptyString => [line]
        end
      else if islinebreak c then line :: splitlines_from "" rest
      else splitlines_from (line +:+ String c "") rest
  end.

Definition splitlines (s : string) : list string := splitlines_from "" s.

(** No character of [s] is whitespace. *)
Fixpoint spaceless (s : string) : bool :=
  match s with
  | EmptyString => true
  | String c s' => negb (isspace c) && spaceless s'
  end.

(** No character of [s] is a line boundary of [splitlines]. *)
Fixpoint breakless (s : string) : bool :=
  match s with
  | EmptyString => true
  | String c s' => negb (is_cr c) && negb (islinebreak c) && breakless s'
  end.

(** A line feed, written [\n] in the source's literals. *)
Definition nl : string := String "010"%char "".

End Str.

(** ** Python values and the process model *)
Module Py.

(** The values the scripts hold in variables: what [json.loads] can
    return, with [None]. *)
Inductive value : Type :=
| VNone
| VBool (b : bool)
| VInt (n : Z)
| VFloat (bits : Z)
| VStr (s : string)
| VList (items : list value)
| VDict (items : list (string * value)).

(** A [str | None] result as a value. *)
Definition of_output (o : option string) : value :=
  match o with Some s => VStr s | None => VNone end.

(** [not x] for [x : str | None]. *)
Definition falsy (o : option string) : bool :=
  match o with Some s => Str.is_empty s | None => true end.

(** The pieces of a printed line: literal text, a value formatted by an
    f-string, and [json.dumps(v, indent=n)]. *)
Inductive piece : Type :=
| Text (s : string)
| Show (v : value)
| Dumps (v : value) (indent : nat).

(** What the process does to the outside, in order. *)
Inductive event : Type :=
| EvPrint (line : list piece)          (* print(...) *)
| EvInput (shown : string)             (* input(shown) *)
| EvRun (argv : list string)           (* subprocess.run(argv, ...) *)
| EvSystem (cmdline : string).         (* os.system(cmdline) *)

(** [subprocess.CompletedProcess] with captured text streams. *)
Record completed := Completed {
  returncode : Z;
  stdout : string;
  stderr : string }.

(** The defaults file: missing; present but not loadable by [toml.load];
    or present with the given content. *)
Inductive file_state : Type :=
| FileAbsent
| FileInvalid
| FileParsed (content : gmap string string).

(** The outside world.  The tool's answers may depend on everything that
    happened before (the trace at the time of the call). *)
Record env := Env {
  toml_installed : bool;
  defaults_file : file_state;
  json_loads : string -> option value;
  run_answer : list event -> list string -> completed;
  system_answer : list event -> string -> Z }.

Record state := State {
  stdin : list string;
  trace : list event }.

Definition initial (lines : list string) : state :=
  {| stdin := lines; trace := [] |}.

Definition emit (e : event) (s : state) : state :=
  {| stdin := stdin s; trace := trace s ++ [e] |}.

Inductive exn : Type :=
| EOFError | TypeError | KeyError | JSONDecodeError | TomlError.

Inductive outcome (A : Type) : Type :=
| Ret (a : A)
| Exit (code : Z)      (* SystemExit *)
| Raise (e : exn).     (* an instance of Exception *)
Arguments Ret {A} a.
Arguments Exit {A} code.
Arguments Raise {A} e.

Definition M (A : Type) : Type := state -> outcome A * state.

Definition ret {A} (a : A) : M A := fun s => (Ret a, s).

Definition bind {A B} (m : M A) (k : A -> M B) : M B :=
  fun s =>
    match m s with
    | (Ret a, s') => k a s'
    | (Exit c, s') => (Exit c, s')
    | (Raise e, s') => (Raise e, s')
    end.

Definition sys_exit {A} (code : Z) : M A := fun s => (Exit code, s).
Definition raise {A} (e : exn) : M A := fun s => (Raise e, s).

(** [try: body  except Exception: handler] *)
Definition try_except {A} (body handler : M A) : M A :=
  fun s =>
    match body s with
    | (Raise _, s') => handler s'
    | r => r
    end.

Definition print (line : list piece) : M unit :=
  fun s => (Ret tt, emit (EvPrint line) s).

(** [input(shown)]: one line without its newline, [EOFError] at end of
    input. *)
Definition input (shown : string) : M string :=
  fun s =>
    match stdin s with
    | [] => (Raise EOFError, emit (EvInput shown) s)
    | l :: rest =>
        (Ret l, {| stdin := rest; trace := trace s ++ [EvInput shown] |})
    end.

(** The elements of an argument vector as strings; anything that is not a
    [str] is a [TypeError] where the vector is used. *)
Fixpoint strs (cmd : list value) : option (list string) :=
  match cmd with
  | [] => Some []
  | VStr s :: rest =>
      match strs rest with Some l => Some (s :: l) | None => None end
  | _ :: _ => None
  end.

(** [d[key]] on the items of a dictionary (the keys of a [dict] are
    distinct). *)
Fixpoint lookup_item (key : string) (items : list (string * value))
  : option value :=
  match items with
  | [] => None
  | (k, v) :: rest => if String.eqb k key then Some v else lookup_item key rest
  end.

Definition subscript (d : value) (key : string) : M value :=
  match d with
  | VDict items =>
      match lookup_item key items with
      | Some v => ret v
      | None => raise KeyError
      end
  | _ => raise TypeError
  end.

(** [for x in xs: body(x)] *)
Fixpoint for_each {A} (xs : list A) (body : A -> M unit) : M unit :=
  match xs with
  | [] => ret tt
  | x :: rest => bind (body x) (fun _ => for_each rest body)
  end.

Section World.
Variable E : env.

(** [subprocess.run(full_cmd, capture_output=True, text=True)], for a call
    that starts the program and gets its completed process back.  The
    errors of [subprocess.run] itself (the program is not installed, an
    argument holds a NUL, the output is not text) are outside the model. *)
Definition subprocess_run (full_cmd : list value) : M completed :=
  match strs full_cmd with
  | None => raise TypeError
  | Some argv => fun s => (Ret (run_answer E (trace s) argv), emit (EvRun argv) s)
  end.

(** [os.system(cmdline)], for a command line that the shell is given: a
    line that holds a NUL, which [os.system] refuses, is outside the
    model. *)
Definition os_system (cmdline : string) : M Z :=
  fun s => (Ret (system_answer E (trace s) cmdline), emit (EvSystem cmdline) s).

(** [json.loads(text)] *)
Definition loads (text : string) : M value :=
  match json_loads E text with
  | Some v => ret v
  | None => raise JSONDecodeError
  end.
End World.

(** The exit status of the process for an outcome of the program: an
    uncaught exception ends it with status 1. *)
Definition exit_code {A} (o : outcome A) : Z :=
  match o with
  | Ret _ => 0
  | Exit code => code
  | Raise _ => 1
  end.

(** [" ".join(full_cmd)] *)
Definition join_cmd (full_cmd : list value) : M string :=
  match strs full_cmd with
  | None => raise TypeError
  | Some argv => ret (Str.join " " argv)
  end.

End Py.

Declare Scope py_scope.
Delimit Scope py_scope with py.
Notation "x <- m ;; k" := (Py.bind m (fun x => k))
  (at level 100, m at next level, right associativity) : py_scope.
Notation "m ;; k" := (Py.bind m (fun _ => k))
  (at level 100, right associativity) : py_scope.
(** A Python list of command-line arguments. *)
Notation "$[ x ; .. ; y ]" :=
  (@cons Py.value (x : Py.value) .. (@cons Py.value (y : Py.value) (@nil Py.value)) ..)
  (at level 0) : py_scope.

(** ** [scripts/azure/keyvault_sp_restricted.py] *)
Module KeyVault.
Import Py.
Local Open Scope py_scope.
Local Coercion VStr : string >-> value.

Definition DEFAULTS_FILE : string := "defaults.toml".

(** What an f-string shows for a [str | None]. *)
Definition fmt (o : option string) : string :=
  match o with Some s => s | None => "None" end.

(** The values [main] collects from the defaults and the operator
    (lines 165-191). *)
Record settings := Settings {
  repo_name : string;
  sp_name : string;
  tenant_id : string;
  subscription_id : string;
  resource_group : string;
  keyvault_name : string;
  scope_choice : string;
  secret_prefix : option string }.

Definition vault_scope (i : settings) : string :=
  "/subscriptions/" +:+ subscription_id i +:+ "/resourceGroups/"
    +:+ resource_group i +:+ "/providers/Microsoft.KeyVault/vaults/"
    +:+ keyvault_name i.

Definition secret_scope (i : settings) (name : string) : string :=
  vault_scope i +:+ "/secrets/" +:+ name.

Section Script.
Variable E : env.

Definition load_defaults : M (gmap string string) :=
  match defaults_file E with
  | FileAbsent =>
      print [Text ("Defaults file " +:+ DEFAULTS_FILE +:+ " not found!")] ;;
      sys_exit 1
  | FileInvalid => raise TomlError
  | FileParsed content => ret content
  end.

Definition prompt (msg default : string) : M string :=
  line <- input (msg +:+ " [" +:+ default +:+ "]: ") ;;
  let val := Str.strip line in
  ret (if Str.is_empty val then default else val).

Definition az (cmd : list value) (capture_output : bool)
  : M (option string) :=
  let full_cmd := VStr "az" :: cmd in
  if capture_output then
    result <- subprocess_run E full_cmd ;;
    if negb (returncode result =? 0) then
      shown <- join_cmd full_cmd ;;
      print [Text ("Command failed: " +:+ shown)] ;;
      print [Text (stderr result)] ;;
      sys_exit 1
    else ret (Some (Str.strip (stdout result)))
  else
    cmdline <- join_cmd full_cmd ;;
    r <- os_system E cmdline ;;
    if negb (r =? 0) then sys_exit 1 else ret None.

Definition not_found : bool * value * value * value :=
  (false, VNone, VNone, VNone).

(** Returns (found, client_id, object_id, tenant_id). *)
Definition get_sp (sp_name : string) : M (bool * value * value * value) :=
  try_except
    (out <- az $["ad"; "sp"; "show"; "--id"; sp_name] true ;;
     match out with
     | None => ret not_found
     | Some text =>
         if Str.is_empty text then ret not_found
         else
           data <- loads E text ;;
           client_id <- subscript data "appId" ;;
           object_id <- subscript data "id" ;;
           tenant_id <- az $["ad"; "sp"; "show"; "--id"; client_id;
                            "--query"; "appOwnerOrganizationId";
                            "-o"; "tsv"] true ;;
           ret (true, client_id, object_id, of_output tenant_id)
     end)
    (ret not_found).

(** Returns (client_id, client_secret, tenant_id, object_id). *)
Definition create_sp (sp_name : string) : M (value * value * value * value) :=
  out <- az $["ad"; "sp"; "create-for-rbac"; "--name"; sp_name;
             "--skip-assignment"; "--query";
             "{clientId: appId, clientSecret: password, tenantId: tenant}";
             "-o"; "json"] true ;;
  match out with
  | Some (String _ _ as text) =>
      d <- loads E text ;;
      client_id <- subscript d "clientId" ;;
      client_secret <- subscript d "clientSecret" ;;
      tenant_id <- subscript d "tenantId" ;;
      object_id <- az $["ad"; "sp"; "show"; "--id"; client_id;
                       "--query"; "id"; "-o"; "tsv"] true ;;
      ret (client_id, client_secret, tenant_id, of_output object_id)
  | _ =>
      print [Text "❌ Failed to create Service Principal"] ;;
      sys_exit 1
  end.

Definition reset_sp_secret (client_id : value) : M (option string) :=
  az $["ad"; "sp"; "credential"; "reset"; "--id"; client_id;
      "--query"; "password"; "-o"; "tsv"] true.

Definition assign_rbac (object_id : value) (role scope : string) : M unit :=
  az $["role"; "assignment"; "create"; "--assignee"; object_id;
      "--role"; role; "--scope"; scope] false ;;
  ret tt.

Definition get_secret_names (vault_name : string) (prefix : option string)
  : M (list string) :=
  out <- az $["keyvault"; "secret"; "list"; "--vault-name"; vault_name;
             "--query";
             ("[?starts_with(name, '" +:+ fmt prefix +:+ "')].name");
             "-o"; "tsv"] true ;;
  match out with
  | Some (String _ _ as text) =>
      ret (List.filter (fun n => negb (Str.is_empty n)) (Str.splitlines text))
  | _ => ret []
  end.

(** [main], lines 165-191: defaults and prompts.  (The [github_org]
    default is read and never used.) *)
Definition read_settings (defaults : gmap string string) : M settings :=
  let org_prefix := default "pfx" (defaults !! "org_prefix") in
  let tenant_id := default "" (defaults !! "azure_tenant_id") in
  let subscription_id := default "" (defaults !! "azure_subscription_id") in
  let resource_group := default "" (defaults !! "azure_resource_group") in
  let keyvault_name := default "" (defaults !! "azure_keyvault_name") in
  repo_name <- prompt "Enter the Git repository name" (org_prefix +:+ "-repo") ;;
  let sp_name := repo_name +:+ "-sp" in
  tenant_id <- prompt "Azure Tenant ID" tenant_id ;;
  subscription_id <- prompt "Azure Subscription ID" subscription_id ;;
  resource_group <- prompt "Azure Resource Group" resource_group ;;
  keyvault_name <- prompt "Azure Key Vault name" keyvault_name ;;
  print [Text (Str.nl +:+ "🔐 Choose Key Vault access scope for repo")] ;;
  print [Text "1. Grant access to all secrets in the Key Vault"] ;;
  print [Text "2. Grant access to secrets matching a prefix"] ;;
  scope_choice <- prompt "Enter 1 or 2" "1" ;;
  if String.eqb scope_choice "2" then
    secret_prefix <- prompt
      "Enter the prefix to match secrets (e.g., dev-github-arc-)"
      (repo_name +:+ "-") ;;
    ret (Settings repo_name sp_name tenant_id subscription_id
           resource_group keyvault_name scope_choice (Some secret_prefix))
  else
    ret (Settings repo_name sp_name tenant_id subscription_id
           resource_group keyvault_name scope_choice None).

(** [main], lines 195-206: reuse the principal that [get_sp] found or
    create one.  Returns (client_id, client_secret, tenant_id,
    object_id) as [main] holds them afterwards. *)
Definition reuse_or_create (i : settings)
    (lookup : bool * value * value * value)
  : M (value * value * value * value) :=
  let '(found, client_id, object_id, real_tenant_id) := lookup in
  if found then
    print [Text ("✅ Service Principal '" +:+ sp_name i
                   +:+ "' exists. Reusing it.")] ;;
    client_secret <- reset_sp_secret client_id ;;
    if falsy client_secret then
      print [Text "❌ Failed to reset SP secret"] ;;
      sys_exit 1
    else
      let tenant_id :=
        if Str.is_empty (tenant_id i) then real_tenant_id
        else VStr (tenant_id i) in
      ret (client_id, of_output client_secret, tenant_id, object_id)
  else
    print [Text ("==> Creating Service Principal: " +:+ sp_name i)] ;;
    created <- create_sp (sp_name i) ;;
    let '(client_id, _, _, _) := created in
    print [Text "✅ Service Principal created: "; Show client_id] ;;
    ret created.

(** [main], lines 209-229: the role assignments. *)
Definition grant_access (i : settings) (object_id : value) : M unit :=
  if String.eqb (scope_choice i) "2" then
    secret_names <- get_secret_names (keyvault_name i) (secret_prefix i) ;;
    match secret_names with
    | [] =>
        print [Text ("❌ No secrets found in Key Vault '" +:+ keyvault_name i
                       +:+ "' with prefix '" +:+ fmt (secret_prefix i)
                       +:+ "'")] ;;
        sys_exit 1
    | _ :: _ =>
        for_each secret_names (fun name =>
          print [Text ("🔐 Assigning access to secret: " +:+ name)] ;;
          assign_rbac object_id "Key Vault Secrets User"
            (secret_scope i name)) ;;
        print [Text ("✅ Assigned access to secrets with prefix '"
                       +:+ fmt (secret_prefix i) +:+ "'")]
    end
  else
    print [Text ("🔓 Granting access to ALL secrets in vault '"
                   +:+ keyvault_name i +:+ "' for SP '" +:+ sp_name i
                   +:+ "'...")] ;;
    assign_rbac object_id "Key Vault Secrets User" (vault_scope i) ;;
    print [Text ("✅ SP '" +:+ sp_name i
                   +:+ "' now has access to ALL secrets in Key Vault '"
                   +:+ keyvault_name i +:+ "'.")].

(** The dictionary that [main] prints at the end. *)
Definition credentials (i : settings) (client_id client_secret tenant_id : value)
  : value :=
  VDict [("clientId", client_id); ("clientSecret", client_secret);
         ("tenantId", tenant_id);
         ("subscriptionId", VStr (subscription_id i))].

(** [main], lines 232-247. *)
Definition report (i : settings) (client_id client_secret tenant_id : value)
  : M unit :=
  print [Text (Str.nl +:+ "================== AZURE CREDENTIALS ==================")] ;;
  print [Dumps (credentials i client_id client_secret tenant_id) 2] ;;
  print [Text "======================================================="] ;;
  print [Text (Str.nl +:+ "Copy these values into your GitHub repo secrets and use in your GHA workflows.")].

Definition main : M unit :=
  defaults <- load_defaults ;;
  i <- read_settings defaults ;;
  lookup <- get_sp (sp_name i) ;;
  sp <- reuse_or_create i lookup ;;
  let '(client_id, client_secret, tenant_id, object_id) := sp in
  grant_access i object_id ;;
  report i client_id client_secret tenant_id.

(** The module run as a program: the guarded [import toml], then
    [main()]. *)
Definition script : M unit :=
  if toml_installed E then main
  else
    print [Text "Please install the toml package: pip install toml"] ;;
    sys_exit 1.
End Script.
End KeyVault.

(** ** [scripts/azure/create_sp_for_swa_rg.py] *)
Module Swa.
Import Py.
Local Open Scope py_scope.
Local Coercion VStr : string >-> value.

Definition DEFAULTS_FILE : string := "defaults.toml".

(** The values [main] collects from the defaults and the operator
    (lines 155-167). *)
Record settings := Settings {
  org_prefix : string;
  sp_name : string;
  tenant_id : string;
  subscription_id : string;
  rg_name : string }.

Definition scope (i : settings) : string :=
  "/subscriptions/" +:+ subscription_id i +:+ "/resourceGroups/" +:+ rg_name i.

Section Script.
Variable E : env.

Definition load_defaults : M (gmap string string) :=
  match defaults_file E with
  | FileAbsent =>
      print [Text ("Defaults file " +:+ DEFAULTS_FILE +:+ " not found.")] ;;
      sys_exit 1
  | FileInvalid => raise TomlError
  | FileParsed content => ret content
  end.

Definition prompt (msg default : string) : M string :=
  line <- input (msg +:+ " [" +:+ default +:+ "]: ") ;;
  let val := Str.strip line in
  ret (if Str.is_empty val then default else val).

(** [capture_output] is accepted and not used. *)
Definition az (cmd : list value) (capture_output check : bool)
  : M (option string) :=
  let full_cmd := VStr "az" :: cmd in
  result <- subprocess_run E full_cmd ;;
  if check && negb (returncode result =? 0) then
    shown <- join_cmd full_cmd ;;
    print [Text ("Command failed: " +:+ shown)] ;;
    print [Text (stderr result)] ;;
    sys_exit 1
  else
    ret (if Str.is_empty (stdout result) then None
         else Some (Str.strip (stdout result))).

Definition not_found : bool * value * value * value :=
  (false, VNone, VNone, VNone).

Definition get_sp (sp_name : string) : M (bool * value * value * value) :=
  out <- az $["ad"; "sp"; "show"; "--id"; "http://" +:+ sp_name] true false ;;
  match out with
  | Some (String _ _ as text) =>
      data <- loads E text ;;
      client_id <- subscript data "appId" ;;
      object_id <- subscript data "id" ;;
      tenant_id <- az $["ad"; "sp"; "show"; "--id"; client_id;
                        "--query"; "appOwnerOrganizationId";
                        "-o"; "tsv"] true true ;;
      ret (true, client_id, object_id, of_output tenant_id)
  | _ => ret not_found
  end.

Definition create_sp (sp_name : string) : M (value * value * value * value) :=
  out <- az $["ad"; "sp"; "create-for-rbac"; "--name"; sp_name;
              "--skip-assignment"; "--query";
              "{clientId: appId, clientSecret: password, tenantId: tenant}";
              "-o"; "json"] true true ;;
  match out with
  | Some (String _ _ as text) =>
      data <- loads E text ;;
      client_id <- subscript data "clientId" ;;
      client_secret <- subscript data "clientSecret" ;;
      tenant_id <- subscript data "tenantId" ;;
      object_id <- az $["ad"; "sp"; "show"; "--id"; client_id;
                        "--query"; "id"; "-o"; "tsv"] true true ;;
      ret (client_id, client_secret, tenant_id, of_output object_id)
  | _ =>
      print [Text "❌ No output returned by az command"] ;;
      sys_exit 1
  end.

Definition reset_sp_secret (client_id : value) : M (option string) :=
  az $["ad"; "sp"; "credential"; "reset"; "--id"; client_id;
       "--query"; "password"; "-o"; "tsv"] true true.

Definition assign_rbac (object_id : value) (role scope : string) : M unit :=
  az $["role"; "assignment"; "create"; "--assignee"; object_id;
       "--role"; role; "--scope"; scope] false true ;;
  ret tt.

Definition create_swa_app (name resource_group location : string) : M unit :=
  print [Text ("🚀 Creating Static Web App '" +:+ name +:+ "' in RG '"
                 +:+ resource_group +:+ "'...")] ;;
  az $["staticwebapp"; "create"; "--name"; name;
       "--resource-group"; resource_group; "--location"; location;
       "--sku"; "Free"; "--source"; "."] true true ;;
  ret tt.

(** [main], lines 155-167.  ([role_scope] is assigned and never used.) *)
Definition read_settings (defaults : gmap string string) : M settings :=
  let org_prefix := default "pfx" (defaults !! "org_prefix") in
  let tenant_id := default "" (defaults !! "azure_tenant_id") in
  let subscription_id := default "" (defaults !! "azure_subscription_id") in
  sp_base_name <- prompt "Service Principal name prefix"
                    (org_prefix +:+ "-swa-deployer") ;;
  let sp_name := sp_base_name +:+ "-sp" in
  tenant_id <- prompt "Azure Tenant ID" tenant_id ;;
  subscription_id <- prompt "Azure Subscription ID" subscription_id ;;
  rg_name <- prompt "Resource Group name" "rg-core" ;;
  ret (Settings org_prefix sp_name tenant_id subscription_id rg_name).

(** [main], lines 171-179.  Returns (client_id, client_secret,
    tenant_id, object_id) as [main] holds them afterwards. *)
Definition reuse_or_create (i : settings)
    (lookup : bool * value * value * value)
  : M (value * value * value * value) :=
  let '(found, client_id, object_id, real_tenant_id) := lookup in
  if found then
    print [Text ("✅ Service Principal '" +:+ sp_name i
                   +:+ "' already exists. Reusing it.")] ;;
    client_secret <- reset_sp_secret client_id ;;
    let tenant_id :=
      if Str.is_empty (tenant_id i) then real_tenant_id
      else VStr (tenant_id i) in
    ret (client_id, of_output client_secret, tenant_id, object_id)
  else
    print [Text ("==> Creating SP '" +:+ sp_name i +:+ "'")] ;;
    created <- create_sp (sp_name i) ;;
    let '(client_id, _, _, _) := created in
    print [Text "✅ SP created: "; Show client_id] ;;
    ret created.

(** [main], lines 181-182. *)
Definition grant_access (i : settings) (object_id : value) : M unit :=
  print [Text ("🔐 Assigning role 'Contributor' to SP at scope: " +:+ scope i)] ;;
  assign_rbac object_id "Contributor" (scope i).

(** [main], lines 184-192. *)
Definition offer_swa (i : settings) : M unit :=
  answer <- prompt "Do you want to create an Azure Static Web App?" "yes" ;;
  let create_swa := Str.lower answer in
  if String.eqb create_swa "yes" || String.eqb create_swa "y" then
    swa_name <- prompt "Static Web App name" (org_prefix i +:+ "-swa") ;;
    swa_location <- prompt "SWA location" "AustraliaEast" ;;
    create_swa_app swa_name (rg_name i) swa_location ;;
    print [Text (Str.nl +:+ "✅ Static Web App created: " +:+ swa_name)] ;;
    print [Text ("SWA_NAME=" +:+ swa_name)] ;;
    print [Text ("SWA_RESOURCE_GROUP=" +:+ rg_name i)] ;;
    print [Text ("SWA_LOCATION=" +:+ swa_location)]
  else ret tt.

(** The dictionary that [main] prints at the end. *)
Definition credentials (i : settings) (client_id client_secret tenant_id : value)
  : value :=
  VDict [("clientId", client_id); ("clientSecret", client_secret);
         ("tenantId", tenant_id);
         ("subscriptionId", VStr (subscription_id i))].

(** [main], lines 194-207. *)
Definition report (i : settings) (client_id client_secret tenant_id : value)
  : M unit :=
  print [Text (Str.nl +:+ "================== AZURE CREDENTIALS ==================")] ;;
  print [Dumps (credentials i client_id client_secret tenant_id) 2] ;;
  print [Text "======================================================="] ;;
  print [Text (Str.nl +:+ "✅ Copy the above JSON into GitHub repo secrets as `AZURE_CREDS`")].

Definition main : M unit :=
  defaults <- load_defaults ;;
  i <- read_settings defaults ;;
  lookup <- get_sp (sp_name i) ;;
  sp <- reuse_or_create i lookup ;;
  let '(client_id, client_secret, tenant_id, object_id) := sp in
  grant_access i object_id ;;
  offer_swa i ;;
  report i client_id client_secret tenant_id.

(** The module run as a program: the guarded [import toml], then
    [main()]. *)
Definition script : M unit :=
  if toml_installed E then main
  else
    print [Text "Install toml module: pip install toml"] ;;
    sys_exit 1.
End Script.
End Swa.

(** ** Observations on traces *)
Module Obs.
Import Py.

Fixpoint has_prefix (words argv : list string) : bool :=
  match words, argv with
  | [], _ => true
  | w :: ws, a :: rest => String.eqb w a && has_prefix ws rest
  | _ :: _, [] => false
  end.

(** [subprocess.run] of [az] followed by the given words. *)
Definition is_run_of (words : list string) (e : event) : bool :=
  match e with
  | EvRun argv => has_prefix ("az" :: words) argv
  | _ => false
  end.

(** [os.system] of a command line that starts with the given text. *)
Definition is_system_of (start : string) (e : event) : bool :=
  match e with
  | EvSystem cmdline => String.prefix start cmdline
  | _ => false
  end.

Definition is_external (e : event) : bool :=
  match e with
  | EvRun _ | EvSystem _ => true
  | _ => false
  end.

Definition is_role_assignment (e : event) : bool :=
  is_run_of ["role"; "assignment"; "create"] e
  || is_system_of "az role assignment create " e.

Definition is_credential_reset (e : event) : bool :=
  is_run_of ["ad"; "sp"; "credential"; "reset"] e.

Definition is_creation (e : event) : bool :=
  is_run_of ["ad"; "sp"; "create-for-rbac"] e.

Definition is_secret_listing (e : event) : bool :=
  is_run_of ["keyvault"; "secret"; "list"] e.

(** The Key Vault script's prompt for a secret prefix. *)
Definition is_prefix_prompt (e : event) : bool :=
  match e with
  | EvInput shown => String.prefix "Enter the prefix to match secrets" shown
  | _ => false
  end.

(** The dictionary that an event prints through [json.dumps], if any. *)
Definition json_of (e : event) : option (list (string * value)) :=
  match e with
  | EvPrint [Dumps (VDict items) _] => Some items
  | _ => None
  end.

(** The dictionaries that were printed through [json.dumps]. *)
Fixpoint printed_json (tr : list event) : list (list (string * value)) :=
  match tr with
  | [] => []
  | e :: rest =>
      match json_of e with
      | Some items => items :: printed_json rest
      | None => printed_json rest
      end
  end.

(** [sep.join] of the command as each script's [az] shows or runs it. *)
Definition cmdline (argv : list string) : string := Str.join " " argv.

Definition lookup_argv (id : string) : list string :=
  ["az"; "ad"; "sp"; "show"; "--id"; id].

Definition tenant_query_argv (client_id : string) : list string :=
  ["az"; "ad"; "sp"; "show"; "--id"; client_id;
   "--query"; "appOwnerOrganizationId"; "-o"; "tsv"].

Definition object_id_query_argv (client_id : string) : list string :=
  ["az"; "ad"; "sp"; "show"; "--id"; client_id; "--query"; "id"; "-o"; "tsv"].

Definition creation_argv (name : string) : list string :=
  ["az"; "ad"; "sp"; "create-for-rbac"; "--name"; name; "--skip-assignment";
   "--query"; "{clientId: appId, clientSecret: password, tenantId: tenant}";
   "-o"; "json"].

Definition reset_argv (client_id : string) : list string :=
  ["az"; "ad"; "sp"; "credential"; "reset"; "--id"; client_id;
   "--query"; "password"; "-o"; "tsv"].

Definition assignment_argv (object_id role scope : string) : list string :=
  ["az"; "role"; "assignment"; "create"; "--assignee"; object_id;
   "--role"; role; "--scope"; scope].

Definition listing_argv (vault_name : string) (prefix : option string)
  : list string :=
  ["az"; "keyvault"; "secret"; "list"; "--vault-name"; vault_name; "--query";
   "[?starts_with(name, '" +:+ KeyVault.fmt prefix +:+ "')].name"; "-o"; "tsv"].

(** The role assignment as the Key Vault script issues it, through the
    shell. *)
Definition shell_assignment (object_id role scope : string) : event :=
  EvSystem (cmdline (assignment_argv object_id role scope)).

(** What [prompt] makes of a line of input. *)
Definition answer (line default : string) : string :=
  if Str.is_empty (Str.strip line) then default else Str.strip line.

(** An event that is neither a credential reset nor a creation call, and
    whose printed dictionary, if it prints one, satisfies [Q]. *)
Definition calm (Q : list (string * value) -> Prop) (e : event) : Prop :=
  is_credential_reset e = false
  /\ is_creation e = false
  /\ forall items, json_of e = Some items -> Q items.

(** A computation that ends the process does so with status 1. *)
Definition exits_with_one {A} (m : M A) : Prop :=
  forall s c s', m s = (Exit c, s') -> c = 1.

(** A run of the external tool: [subprocess.run] of a vector that begins
    with [az]. *)
Definition is_az_run (e : event) : bool :=
  match e with
  | EvRun ("az" :: _) => true
  | _ => false
  end.

Definition is_shell (e : event) : bool :=
  match e with
  | EvSystem _ => true
  | _ => false
  end.

(** What the Key Vault script does: it prints, prompts, passes
    [subprocess.run] a vector whose first word is [az], and gives the shell
    the line of a role assignment for the role [Key Vault Secrets User]:
    the words of [assignment_argv] joined by single spaces. *)
Definition kv_permitted (e : event) : Prop :=
  match e with
  | EvPrint _ | EvInput _ => True
  | EvRun argv => exists words, argv = "az" :: words
  | EvSystem line =>
      exists object_id scope,
        line = cmdline (assignment_argv object_id "Key Vault Secrets User" scope)
  end.

(** What the Static Web App script may do: print, prompt and run [az]. *)
Definition swa_allowed (e : event) : bool :=
  match e with
  | EvPrint _ | EvInput _ => true
  | EvRun _ => is_az_run e
  | EvSystem _ => false
  end.

Definition is_swa_creation (e : event) : bool :=
  is_run_of ["staticwebapp"; "create"] e.

(** The dictionary of credentials with the four keys in the order the
    scripts print them. *)
Definition credential_items (client_id client_secret tenant_id : value)
    (subscription_id : string) : list (string * value) :=
  [("clientId", client_id); ("clientSecret", client_secret);
   ("tenantId", tenant_id); ("subscriptionId", VStr subscription_id)].

(** A computation that prints no dictionary unless it returns, and exactly
    one dictionary of credentials when it does. *)
Definition reports_on_return {A} (m : M A) : Prop :=
  forall s, printed_json (trace s) = [] ->
    match fst (m s) with
    | Ret _ =>
        exists cid secret tenant sub,
          printed_json (trace (snd (m s)))
          = [credential_items cid secret tenant sub]
    | _ => printed_json (trace (snd (m s))) = []
    end.

(** A computation that prints no dictionary. *)
Definition reports_nothing {A} (m : M A) : Prop :=
  forall s, printed_json (trace s) = [] ->
            printed_json (trace (snd (m s))) = [].

(** The computation adds events for which [P] holds, and only adds. *)
Definition emits {A} (P : event -> Prop) (m : M A) : Prop :=
  forall s, exists added,
    trace (snd (m s)) = trace s ++ added /\ Forall P added.

(** The computation first adds the events [first], then events for which
    [P] holds. *)
Definition emits_then {A} (first : list event) (P : event -> Prop) (m : M A)
  : Prop :=
  forall s, exists added,
    trace (snd (m s)) = trace s ++ first ++ added /\ Forall P added.

End Obs.

(** ** Sample worlds *)
Module Sample.
Import Py.

Definition dq (s : string) : string :=
  String "034"%char "" +:+ s +:+ String "034"%char "".

(** [{"appId": "app-1", "id": "obj-1"}] *)
Definition shown_principal : string :=
  "{" +:+ dq "appId" +:+ ": " +:+ dq "app-1" +:+ ", "
      +:+ dq "id" +:+ ": " +:+ dq "obj-1" +:+ "}".

(** [{"clientId": "app-2", "clientSecret": "pw-2", "tenantId": "tenant-2"}] *)
Definition created_principal : string :=
  "{" +:+ dq "clientId" +:+ ": " +:+ dq "app-2" +:+ ", "
      +:+ dq "clientSecret" +:+ ": " +:+ dq "pw-2" +:+ ", "
      +:+ dq "tenantId" +:+ ": " +:+ dq "tenant-2" +:+ "}".

(** The decoder on the two documents the sample tool prints. *)
Definition decode (text : string) : option value :=
  if String.eqb text shown_principal then
    Some (VDict [("appId", VStr "app-1"); ("id", VStr "obj-1")])
  else if String.eqb text created_principal then
    Some (VDict [("clientId", VStr "app-2"); ("clientSecret", VStr "pw-2");
                 ("tenantId", VStr "tenant-2")])
  else None.

Definition ok (out : string) : completed :=
  {| returncode := 0; stdout := out +:+ Str.nl; stderr := "" |}.

Definition failed (code : Z) (err : string) : completed :=
  {| returncode := code; stdout := ""; stderr := err |}.

Definition word (n : nat) (argv : list string) : string := nth n argv "".

(** A tool that knows the principal iff [known], and whose vault holds
    the secrets [dev-a] and [dev-b]. *)
Definition tool (known : bool) (history : list event) (argv : list string)
  : completed :=
  if String.eqb (word 1 argv) "keyvault" then ok ("dev-a" +:+ Str.nl +:+ "dev-b")
  else if String.eqb (word 1 argv) "staticwebapp" then ok "{}"
  else if String.eqb (word 1 argv) "role" then ok "{}"
  else if String.eqb (word 3 argv) "create-for-rbac" then ok created_principal
  else if String.eqb (word 3 argv) "credential" then ok "pw-1"
  else if String.eqb (word 7 argv) "appOwnerOrganizationId" then
    ok "11111111-aaaa"
  else if String.eqb (word 7 argv) "id" then ok "obj-2"
  else if known then ok shown_principal
  else failed 3 "ERROR: Service principal not found.".

Definition shell_ok (history : list event) (cmdline : string) : Z := 0.

Definition world (known : bool) (file : file_state) : env :=
  {| toml_installed := true;
     defaults_file := file;
     json_loads := decode;
     run_answer := tool known;
     system_answer := shell_ok |}.

Definition acme : gmap string string :=
  {[ "org_prefix" := "acme";
     "azure_subscription_id" := "sub-1";
     "azure_resource_group" := "rg-1";
     "azure_keyvault_name" := "kv-1" ]}.

Definition acme_with_tenant : gmap string string :=
  <[ "azure_tenant_id" := "tenant-0" ]> acme.

(** The same tool behind a shell in which every command fails. *)
Definition shell_down (history : list event) (cmdline : string) : Z := 256.

Definition world_shell_down (known : bool) (file : file_state) : env :=
  {| toml_installed := true;
     defaults_file := file;
     json_loads := decode;
     run_answer := tool known;
     system_answer := shell_down |}.

(** The same tool in front of a vault without secrets. *)
Definition tool_empty_vault (history : list event) (argv : list string)
  : completed :=
  if String.eqb (word 1 argv) "keyvault" then ok "" else tool true history argv.

Definition world_empty_vault (file : file_state) : env :=
  {| toml_installed := true;
     defaults_file := file;
     json_loads := decode;
     run_answer := tool_empty_vault;
     system_answer := shell_ok |}.

(** A tool whose lookup prints a document that is not JSON, and whose
    creation call prints nothing. *)
Definition tool_garbled (history : list event) (argv : list string)
  : completed :=
  if String.eqb (word 3 argv) "show" then ok "<html>"
  else if String.eqb (word 3 argv) "create-for-rbac" then ok ""
  else tool true history argv.

Definition world_garbled (file : file_state) : env :=
  {| toml_installed := true;
     defaults_file := file;
     json_loads := decode;
     run_answer := tool_garbled;
     system_answer := shell_ok |}.

(** A tool that knows the principal and whose credential reset prints
    nothing. *)
Definition tool_silent_reset (history : list event) (argv : list string)
  : completed :=
  if String.eqb (word 3 argv) "credential" then ok ""
  else tool true history argv.

Definition world_silent_reset (file : file_state) : env :=
  {| toml_installed := true;
     defaults_file := file;
     json_loads := decode;
     run_answer := tool_silent_reset;
     system_answer := shell_ok |}.

(** A tool that does not know the principal and answers the lookup with
    status 0 and no output. *)
Definition tool_blank_lookup (history : list event) (argv : list string)
  : completed :=
  if String.eqb (word 3 argv) "show" && String.eqb (word 6 argv) "" then ok ""
  else tool false history argv.

Definition world_blank_lookup (file : file_state) : env :=
  {| toml_installed := true;
     defaults_file := file;
     json_loads := decode;
     run_answer := tool_blank_lookup;
     system_answer := shell_ok |}.

(** A tool that is refused the listing of the vault. *)
Definition tool_locked_vault (history : list event) (argv : list string)
  : completed :=
  if String.eqb (word 1 argv) "keyvault" then failed 1 "ERROR: Forbidden"
  else tool true history argv.

Definition world_locked_vault (file : file_state) : env :=
  {| toml_installed := true;
     defaults_file := file;
     json_loads := decode;
     run_answer := tool_locked_vault;
     system_answer := shell_ok |}.

(** The dictionary a run prints when it creates the principal. *)
Definition fresh : list (string * value) :=
  [("clientId", VStr "app-2"); ("clientSecret", VStr "pw-2");
   ("tenantId", VStr "tenant-2"); ("subscriptionId", VStr "sub-1")].

(** The operator accepts every default. *)
Definition accept_all : list string := [""; ""; ""; ""; ""; ""; ""; ""; ""].

(** The operator accepts the defaults and picks scope choice 2. *)
Definition pick_prefix : list string := [""; ""; ""; ""; ""; "2"; "dev-"].

(** The operator accepts the defaults and answers 2 between blanks to the
    scope choice. *)
Definition pick_padded_two : list string := [""; ""; ""; ""; ""; " 2 "; "dev-"].

(** The operator accepts the defaults and answers 3 to the scope choice. *)
Definition pick_three : list string := [""; ""; ""; ""; ""; " 3 "].

(** What the Key Vault script collects from [acme] in these three
    sessions: every default accepted, scope choice 2, scope choice 3. *)
Definition kv_accepted : KeyVault.settings :=
  KeyVault.Settings "acme-repo" "acme-repo-sp" "" "sub-1" "rg-1" "kv-1" "1" None.

Definition kv_prefixed : KeyVault.settings :=
  KeyVault.Settings "acme-repo" "acme-repo-sp" "" "sub-1" "rg-1" "kv-1" "2"
    (Some "dev-").

Definition kv_three : KeyVault.settings :=
  KeyVault.Settings "acme-repo" "acme-repo-sp" "" "sub-1" "rg-1" "kv-1" "3" None.

(** What the scripts collect from [acme_with_tenant] when the operator
    accepts every default. *)
Definition kv_with_tenant : KeyVault.settings :=
  KeyVault.Settings "acme-repo" "acme-repo-sp" "tenant-0" "sub-1" "rg-1" "kv-1"
    "1" None.

Definition swa_accepted : Swa.settings :=
  Swa.Settings "acme" "acme-swa-deployer-sp" "" "sub-1" "rg-core".

(** What the lookup returns for the principal the sample tool knows. *)
Definition known_principal : bool * value * value * value :=
  (true, VStr "app-1", VStr "obj-1", VStr "11111111-aaaa").

(** The dictionary a run prints when it reuses that principal. *)
Definition reused (tenant : string) : list (string * value) :=
  [("clientId", VStr "app-1"); ("clientSecret", VStr "pw-1");
   ("tenantId", VStr tenant); ("subscriptionId", VStr "sub-1")].
End Sample.

(** * Properties *)

Import Py.
Local Open Scope py_scope.

(** ** Trimming *)
Section Trimming.
Import Str.

Lemma lstrip_split s :
  exists l, s = l +:+ lstrip s /\ all_space l = true.
Proof.
  induction s as [|c s [l [Hs Hl]]]; simpl.
  - exists ""; auto.
  - destruct (isspace c) eqn:Hc.
    + exists (String c l). split.
      * change (String c s = String c (l +:+ lstrip s)). f_equal. exact Hs.
      * simpl. rewrite Hc. exact Hl.
    + exists ""; auto.
Qed.

Lemma lstrip_no_leading_space s : starts_with_space (lstrip s) = false.
Proof.
  induction s as [|c s IH]; simpl; auto.
  destruct (isspace c) eqn:Hc; simpl; auto.
Qed.

Lemma lstrip_empty s : is_empty (lstrip s) = all_space s.
Proof.
  induction s as [|c s IH]; simpl; auto.
  destruct (isspace c); simpl; auto.
Qed.

Lemma rstrip_split s :
  exists r, s = rstrip s +:+ r /\ all_space r = true.
Proof.
  induction s as [|c s [r [Hs Hr]]]; simpl.
  - exists ""; auto.
  - destruct (rstrip s) as [|c' t] eqn:Ht.
    + change (s = r) in Hs. subst r.
      destruct (isspace c) eqn:Hc; simpl.
      * exists (String c s). simpl. rewrite Hc. auto.
      * exists s. auto.
    + exists r. split; [|exact Hr].
      change (String c s = String c (String c' t +:+ r)). f_equal. exact Hs.
Qed.

Lemma rstrip_no_trailing_space s : ends_with_space (rstrip s) = false.
Proof.
  induction s as [|c s IH]; simpl; auto.
  destruct (rstrip s) as [|c' t] eqn:Ht; simpl in *.
  - destruct (isspace c) eqn:Hc; simpl; auto.
  - exact IH.
Qed.

Lemma rstrip_empty s : is_empty (rstrip s) = all_space s.
Proof.
  induction s as [|c s IH]; simpl; auto.
  rewrite <- IH.
  destruct (rstrip s); simpl; destruct (isspace c); auto.
Qed.

Lemma rstrip_keeps_head s :
  starts_with_space s = false -> starts_with_space (rstrip s) = false.
Proof.
  destruct s as [|c s]; simpl; auto.
  intros Hc. rewrite Hc, andb_false_r. auto.
Qed.

Lemma all_space_app l s :
  all_space (l +:+ s) = all_space l && all_space s.
Proof.
  induction l as [|c l IH]; simpl; auto.
  rewrite IH, andb_assoc. auto.
Qed.

Lemma strip_empty s : is_empty (strip s) = all_space s.
Proof.
  unfold strip. rewrite rstrip_empty.
  destruct (lstrip_split s) as [l [Hs Hl]].
  rewrite Hs at 2. rewrite all_space_app, Hl. auto.
Qed.

(** [strip] removes a run of whitespace at each end and nothing else, and
    what it leaves neither starts nor ends with whitespace. *)
Lemma strip_spec s :
  (exists l r, s = l +:+ strip s +:+ r
               /\ all_space l = true /\ all_space r = true)
  /\ starts_with_space (strip s) = false
  /\ ends_with_space (strip s) = false.
Proof.
  unfold strip. split; [|split].
  - destruct (lstrip_split s) as [l [Hs Hl]].
    destruct (rstrip_split (lstrip s)) as [r [Hm Hr]].
    exists l, r. rewrite <- Hm. auto.
  - apply rstrip_keeps_head, lstrip_no_leading_space.
  - apply rstrip_no_trailing_space.
Qed.
End Trimming.

(** ** The monad *)
Section Monad.
Context {A B : Type}.
Implicit Types (m : M A) (k : A -> M B).

Lemma bind_ret m k s a s' : m s = (Ret a, s') -> bind m k s = k a s'.
Proof. unfold bind. intros ->. reflexivity. Qed.

Lemma bind_exit m k s c s' : m s = (Exit c, s') -> bind m k s = (Exit c, s').
Proof. unfold bind. intros ->. reflexivity. Qed.

Lemma bind_raise m k s e s' : m s = (Raise e, s') -> bind m k s = (Raise e, s').
Proof. unfold bind. intros ->. reflexivity. Qed.

(** A computation that returns went through its first part returning. *)
Lemma bind_inv m k s b s'' :
  bind m k s = (Ret b, s'') ->
  exists a s', m s = (Ret a, s') /\ k a s' = (Ret b, s'').
Proof.
  unfold bind. destruct (m s) as [[a|c|e] s']; intros H; try discriminate.
  eauto.
Qed.
End Monad.

(** ** The prompt *)

(** C8.  Given a line of operator input, [prompt] (of either script) shows
    the message with the default, consumes that line, and returns the line
    trimmed of surrounding whitespace when the trimmed text is non-empty and
    the default otherwise, which is the case exactly when the line is empty
    or holds whitespace only. *)
Theorem prompt_trimmed_or_default (msg dflt line : string)
    (rest : list string) (tr : list event) :
  let s := {| stdin := line :: rest; trace := tr |} in
  let s' := {| stdin := rest;
               trace := tr ++ [EvInput (msg +:+ " [" +:+ dflt +:+ "]: ")] |} in
  let answer :=
    if Str.is_empty (Str.strip line) then dflt else Str.strip line in
  KeyVault.prompt msg dflt s = (Ret answer, s')
  /\ Swa.prompt msg dflt s = (Ret answer, s')
  /\ Str.is_empty (Str.strip line) = Str.all_space line
  /\ (exists l r, line = l +:+ Str.strip line +:+ r
                  /\ Str.all_space l = true /\ Str.all_space r = true)
  /\ Str.starts_with_space (Str.strip line) = false
  /\ Str.ends_with_space (Str.strip line) = false.
Proof.
  cbv zeta. split; [reflexivity|]. split; [reflexivity|].
  split; [apply strip_empty|]. apply strip_spec.
Qed.

(** ** The defaults file *)

(** C6.  When the defaults file is absent, [main] of either script prints
    that the file was not found and exits with status 1, and this print is
    all the process does: the program as a whole (with its guarded import)
    ends with a non-zero status and its trace holds no external command. *)
Theorem absent_defaults_exit_first (E : env) (lines : list string) :
  defaults_file E = FileAbsent ->
  KeyVault.main E (initial lines)
    = (Exit 1, {| stdin := lines;
                  trace := [EvPrint [Text "Defaults file defaults.toml not found!"]] |})
  /\ Swa.main E (initial lines)
    = (Exit 1, {| stdin := lines;
                  trace := [EvPrint [Text "Defaults file defaults.toml not found."]] |})
  /\ exit_code (fst (KeyVault.script E (initial lines))) <> 0
  /\ List.filter Obs.is_external (trace (snd (KeyVault.script E (initial lines)))) = []
  /\ exit_code (fst (Swa.script E (initial lines))) <> 0
  /\ List.filter Obs.is_external (trace (snd (Swa.script E (initial lines)))) = [].
Proof.
  intros Hfile.
  assert (Hkv : KeyVault.main E (initial lines)
    = (Exit 1, {| stdin := lines;
                  trace := [EvPrint [Text "Defaults file defaults.toml not found!"]] |})).
  { unfold KeyVault.main, KeyVault.load_defaults. rewrite Hfile. reflexivity. }
  assert (Hswa : Swa.main E (initial lines)
    = (Exit 1, {| stdin := lines;
                  trace := [EvPrint [Text "Defaults file defaults.toml not found."]] |})).
  { unfold Swa.main, Swa.load_defaults. rewrite Hfile. reflexivity. }
  unfold KeyVault.script, Swa.script.
  destruct (toml_installed E); rewrite ?Hkv, ?Hswa; simpl; repeat split; discriminate.
Qed.

Lemma absent_defaults_exit_first_witness :
  exit_code (fst (KeyVault.script (Sample.world true FileAbsent)
                    (initial Sample.accept_all))) <> 0.
Proof.
  apply (absent_defaults_exit_first (Sample.world true FileAbsent)
           Sample.accept_all).
  reflexivity.
Defined.

(** ** The command invoker *)

Lemma strs_az cmd argv :
  strs (VStr "az" :: cmd) = Some argv ->
  exists rest, strs cmd = Some rest /\ argv = "az" :: rest.
Proof.
  simpl. destruct (strs cmd) as [rest|]; intros H; inversion H. eauto.
Qed.

(** C3, as the code has it.  When the external command exits non-zero, the
    Key Vault script's invoker in capturing mode and the Static Web App
    script's invoker in checked mode print the failing command line and the
    captured error stream and end the process with status 1.  The Key Vault
    script's invoker in non-capturing mode ends the process with status 1
    and prints nothing; the Static Web App script's invoker in unchecked
    mode does not end the process and returns the command's output. *)
Theorem az_fail_fast_when_checked (E : env) (cmd : list value)
    (argv : list string) (s : state) :
  strs (VStr "az" :: cmd) = Some argv ->
  let result := run_answer E (trace s) argv in
  let reported :=
    {| stdin := stdin s;
       trace := trace s ++ [EvRun argv;
                            EvPrint [Text ("Command failed: " +:+ Obs.cmdline argv)];
                            EvPrint [Text (stderr result)]] |} in
  (returncode result <> 0 ->
     KeyVault.az E cmd true s = (Exit 1, reported)
     /\ forall capture_output, Swa.az E cmd capture_output true s = (Exit 1, reported))
  /\ (system_answer E (trace s) (Obs.cmdline argv) <> 0 ->
        KeyVault.az E cmd false s = (Exit 1, emit (EvSystem (Obs.cmdline argv)) s))
  /\ (forall capture_output,
        Swa.az E cmd capture_output false s
        = (Ret (if Str.is_empty (stdout result) then None
                else Some (Str.strip (stdout result))),
           emit (EvRun argv) s)).
Proof.
  intros Hargv. cbv zeta. unfold Obs.cmdline.
  unfold KeyVault.az, Swa.az, subprocess_run, os_system, join_cmd, bind, ret.
  rewrite Hargv. simpl.
  split; [|split].
  - intros Hrc. apply Z.eqb_neq in Hrc. rewrite Hrc. simpl.
    unfold emit; simpl. rewrite <- !app_assoc. simpl. auto.
  - intros Hrc. apply Z.eqb_neq in Hrc. rewrite Hrc. reflexivity.
  - intros _. reflexivity.
Qed.

Lemma az_fail_fast_when_checked_witness :
  KeyVault.az (Sample.world false (FileParsed Sample.acme))
    [VStr "ad"; VStr "sp"; VStr "show"; VStr "--id"; VStr "acme-repo-sp"]
    true (initial [])
  = (Exit 1,
     {| stdin := [];
        trace := [EvRun (Obs.lookup_argv "acme-repo-sp");
                  EvPrint [Text "Command failed: az ad sp show --id acme-repo-sp"];
                  EvPrint [Text "ERROR: Service principal not found."]] |})
  /\ KeyVault.az (Sample.world_shell_down true (FileParsed Sample.acme))
       [VStr "role"; VStr "assignment"; VStr "create"; VStr "--assignee";
        VStr "obj-1"; VStr "--role"; VStr "Reader"; VStr "--scope"; VStr "/"]
       false (initial [])
     = (Exit 1,
        {| stdin := [];
           trace := [EvSystem "az role assignment create --assignee obj-1 --role Reader --scope /"] |}).
Proof.
  split.
  - refine (proj1 (proj1 (az_fail_fast_when_checked
      (Sample.world false (FileParsed Sample.acme))
      [VStr "ad"; VStr "sp"; VStr "show"; VStr "--id"; VStr "acme-repo-sp"]
      (Obs.lookup_argv "acme-repo-sp") (initial []) _) _)).
    + reflexivity.
    + vm_compute. discriminate.
  - refine (proj1 (proj2 (az_fail_fast_when_checked
      (Sample.world_shell_down true (FileParsed Sample.acme))
      [VStr "role"; VStr "assignment"; VStr "create"; VStr "--assignee";
       VStr "obj-1"; VStr "--role"; VStr "Reader"; VStr "--scope"; VStr "/"]
      (Obs.assignment_argv "obj-1" "Reader" "/") (initial []) _)) _).
    + reflexivity.
    + vm_compute. discriminate.
Defined.

(** C3, as stated, fails: it is not the case that every invocation of an
    invoker whose external command exits non-zero ends the process.  The
    Static Web App script's existence lookup runs unchecked and returns. *)
Lemma az_not_always_fatal :
  ~ (forall (E : env) (cmd : list value) (argv : list string) (s : state)
            (capture_output check : bool),
        strs (VStr "az" :: cmd) = Some argv ->
        returncode (run_answer E (trace s) argv) <> 0 ->
        fst (Swa.az E cmd capture_output check s) = Exit 1
        /\ In (EvPrint [Text ("Command failed: " +:+ Obs.cmdline argv)])
              (trace (snd (Swa.az E cmd capture_output check s)))
        /\ In (EvPrint [Text (stderr (run_answer E (trace s) argv))])
              (trace (snd (Swa.az E cmd capture_output check s)))).
Proof.
  intros H.
  destruct (H (Sample.world false (FileParsed Sample.acme))
              [VStr "ad"; VStr "sp"; VStr "show"; VStr "--id";
               VStr "http://acme-swa-deployer-sp"]
              (Obs.lookup_argv "http://acme-swa-deployer-sp")
              (initial []) true false) as [Hexit _].
  - reflexivity.
  - vm_compute. discriminate.
  - vm_compute in Hexit. discriminate.
Qed.

(** ** The lookup of the Key Vault script *)

(** In the Key Vault script a lookup command that exits non-zero ends the
    process inside [az]: [SystemExit] is not an [Exception], so the handler
    of [get_sp] never sees it. *)
Lemma kv_get_sp_nonzero_exits (E : env) (name : string) (s : state) :
  returncode (run_answer E (trace s) (Obs.lookup_argv name)) <> 0 ->
  fst (KeyVault.get_sp E name s) = Exit 1.
Proof.
  intros Hrc. apply Z.eqb_neq in Hrc.
  unfold KeyVault.get_sp, try_except, bind, KeyVault.az, subprocess_run. simpl.
  unfold Obs.lookup_argv in Hrc. unfold bind. simpl. rewrite Hrc. reflexivity.
Qed.

(** C1 at a world whose tool does not know the principal and says so the
    way [az] does, with a non-zero exit status: the Key Vault script's
    lookup ends the process with status 1 instead of returning, and the run
    issues no creation call.  On the same world the lookup of the Static
    Web App script returns its not-found tuple. *)
Theorem kv_lookup_miss_ends_process :
  let E := Sample.world false (FileParsed Sample.acme) in
  KeyVault.get_sp E "acme-repo-sp" (initial [])
    = (Exit 1,
       {| stdin := [];
          trace := [EvRun (Obs.lookup_argv "acme-repo-sp");
                    EvPrint [Text "Command failed: az ad sp show --id acme-repo-sp"];
                    EvPrint [Text "ERROR: Service principal not found."]] |})
  /\ fst (KeyVault.main E (initial Sample.accept_all)) = Exit 1
  /\ List.filter Obs.is_creation
       (trace (snd (KeyVault.main E (initial Sample.accept_all)))) = []
  /\ Swa.get_sp E "acme-repo-sp" (initial [])
    = (Ret Swa.not_found,
       {| stdin := [];
          trace := [EvRun (Obs.lookup_argv "http://acme-repo-sp")] |}).
Proof. vm_compute. repeat split. Qed.

(** ** What a computation adds to the trace *)
Section Emits.
Import Obs.
Variable P : event -> Prop.

Lemma emits_ret {A} (a : A) : emits P (ret a).
Proof. intros s. exists []. simpl. rewrite app_nil_r. auto. Qed.

Lemma emits_sys_exit {A} c : emits P (@sys_exit A c).
Proof. intros s. exists []. simpl. rewrite app_nil_r. auto. Qed.

Lemma emits_raise {A} e : emits P (@raise A e).
Proof. intros s. exists []. simpl. rewrite app_nil_r. auto. Qed.

Lemma emits_bind {A B} (m : M A) (k : A -> M B) :
  emits P m -> (forall a, emits P (k a)) -> emits P (bind m k).
Proof.
  intros Hm Hk s. unfold bind.
  destruct (Hm s) as [d1 [E1 F1]].
  destruct (m s) as [[a|c|e] s']; simpl in *; eauto.
  destruct (Hk a s') as [d2 [E2 F2]].
  exists (d1 ++ d2). rewrite E2, E1, app_assoc. split; auto.
  apply Forall_app; auto.
Qed.

Lemma emits_try_except {A} (body handler : M A) :
  emits P body -> emits P handler -> emits P (try_except body handler).
Proof.
  intros Hb Hh s. unfold try_except.
  destruct (Hb s) as [d1 [E1 F1]].
  destruct (body s) as [[a|c|e] s']; simpl in *; eauto.
  destruct (Hh s') as [d2 [E2 F2]].
  exists (d1 ++ d2). rewrite E2, E1, app_assoc. split; auto.
  apply Forall_app; auto.
Qed.

Lemma emits_print line : P (EvPrint line) -> emits P (print line).
Proof. intros H s. exists [EvPrint line]. simpl. auto. Qed.

Lemma emits_input shown : P (EvInput shown) -> emits P (input shown).
Proof.
  intros H s. exists [EvInput shown]. unfold input.
  destruct (stdin s); simpl; auto.
Qed.

Lemma emits_subprocess_run E full_cmd :
  (forall argv, strs full_cmd = Some argv -> P (EvRun argv)) ->
  emits P (subprocess_run E full_cmd).
Proof.
  intros H. unfold subprocess_run.
  destruct (strs full_cmd) as [argv|]; [|apply emits_raise].
  intros s. exists [EvRun argv]. simpl. auto.
Qed.

Lemma emits_os_system E cmdline :
  P (EvSystem cmdline) -> emits P (os_system E cmdline).
Proof. intros H s. exists [EvSystem cmdline]. simpl. auto. Qed.

Lemma emits_loads E text : emits P (loads E text).
Proof.
  unfold loads. destruct (json_loads E text);
    [apply emits_ret | apply emits_raise].
Qed.

Lemma emits_subscript d key : emits P (subscript d key).
Proof.
  unfold subscript. destruct d; try apply emits_raise.
  destruct (lookup_item key items); [apply emits_ret | apply emits_raise].
Qed.

Lemma emits_join_cmd full_cmd : emits P (join_cmd full_cmd).
Proof.
  unfold join_cmd. destruct (strs full_cmd);
    [apply emits_ret | apply emits_raise].
Qed.

Lemma emits_for_each {A} (xs : list A) (body : A -> M unit) :
  (forall x, emits P (body x)) -> emits P (for_each xs body).
Proof.
  intros H. induction xs as [|x xs IH]; simpl.
  - apply emits_ret.
  - apply emits_bind; auto.
Qed.
End Emits.

Lemma emits_weaken {A} (P Q : event -> Prop) (m : M A) :
  (forall e, P e -> Q e) -> Obs.emits P m -> Obs.emits Q m.
Proof.
  intros H Hm s. destruct (Hm s) as [d [E1 F]]. exists d. split; auto.
  eapply Forall_impl; eauto.
Qed.

(** Decomposes a goal [emits P m] along the structure of [m]. *)
Ltac emits_step :=
  lazymatch goal with
  | |- Obs.emits _ (bind _ _) => apply emits_bind; [|intros ?]
  | |- Obs.emits _ (ret _) => apply emits_ret
  | |- Obs.emits _ (sys_exit _) => apply emits_sys_exit
  | |- Obs.emits _ (raise _) => apply emits_raise
  | |- Obs.emits _ (loads _ _) => apply emits_loads
  | |- Obs.emits _ (subscript _ _) => apply emits_subscript
  | |- Obs.emits _ (join_cmd _) => apply emits_join_cmd
  | |- Obs.emits _ (print _) => apply emits_print
  | |- Obs.emits _ (input _) => apply emits_input
  | |- Obs.emits _ (os_system _ _) => apply emits_os_system
  | |- Obs.emits _ (subprocess_run _ _) => apply emits_subprocess_run
  | |- Obs.emits _ (try_except _ _) => apply emits_try_except
  | |- Obs.emits _ (for_each _ _) => apply emits_for_each; intros ?
  | |- Obs.emits _ (if ?b then _ else _) => destruct b
  | |- Obs.emits _ (match ?x with _ => _ end) => destruct x
  | |- Obs.emits _ (let '(_, _) := ?x in _) => destruct x
  end.
Ltac emits_go := repeat emits_step.

(** The argument vector of a command whose first words are literal. *)
Lemma strs_str w rest argv :
  strs (VStr w :: rest) = Some argv ->
  exists tail, argv = w :: tail /\ strs rest = Some tail.
Proof.
  simpl. destruct (strs rest) as [tail|]; intros H; inversion H. eauto.
Qed.

Ltac peel_strs H :=
  repeat (let tail := fresh "tail" in
          let Ht := fresh "Ht" in
          apply strs_str in H; destruct H as [tail [Ht H]]; subst).

(** ** The events of each function *)
Section Shapes.
Import Obs.
Variable E : env.
Variable P : event -> Prop.
Hypothesis Htext : forall t, P (EvPrint [Text t]).
Hypothesis Hshown : forall t v, P (EvPrint [Text t; Show v]).
Hypothesis Hinput : forall t, P (EvInput t).
Hypothesis Hshow : forall tail, P (EvRun ("az" :: "ad" :: "sp" :: "show" :: tail)).
Hypothesis Hcreate :
  forall tail, P (EvRun ("az" :: "ad" :: "sp" :: "create-for-rbac" :: tail)).
Hypothesis Hreset :
  forall tail, P (EvRun ("az" :: "ad" :: "sp" :: "credential" :: "reset" :: tail)).
Hypothesis Hlist :
  forall tail, P (EvRun ("az" :: "keyvault" :: "secret" :: "list" :: tail)).
Hypothesis Hrole :
  forall tail, P (EvRun ("az" :: "role" :: "assignment" :: "create" :: tail)).
Hypothesis Hswa :
  forall tail, P (EvRun ("az" :: "staticwebapp" :: "create" :: tail)).
Hypothesis Hsystem : forall c, P (EvSystem c).

Lemma kv_az_emits cmd :
  (forall argv, strs cmd = Some argv -> P (EvRun ("az" :: argv))) ->
  emits P (KeyVault.az E cmd true).
Proof.
  intros Hrun. unfold KeyVault.az. emits_go; auto.
  intros argv H. apply strs_az in H. destruct H as [rest [H ->]]. auto.
Qed.

Lemma swa_az_emits cmd capture_output check :
  (forall argv, strs cmd = Some argv -> P (EvRun ("az" :: argv))) ->
  emits P (Swa.az E cmd capture_output check).
Proof.
  intros Hrun. unfold Swa.az. emits_go; auto.
  intros argv H. apply strs_az in H. destruct H as [rest [H ->]]. auto.
Qed.

Lemma kv_load_defaults_emits : emits P (KeyVault.load_defaults E).
Proof. unfold KeyVault.load_defaults. emits_go; auto. Qed.

Lemma swa_load_defaults_emits : emits P (Swa.load_defaults E).
Proof. unfold Swa.load_defaults. emits_go; auto. Qed.

Lemma kv_prompt_emits msg dflt : emits P (KeyVault.prompt msg dflt).
Proof. unfold KeyVault.prompt. emits_go; auto. Qed.

Lemma swa_prompt_emits msg dflt : emits P (Swa.prompt msg dflt).
Proof. unfold Swa.prompt. emits_go; auto. Qed.

Ltac az_case :=
  first [ apply kv_az_emits | apply swa_az_emits ];
  let argv := fresh "argv" in
  let H := fresh "H" in
  intros argv H; peel_strs H; auto.

Lemma kv_get_sp_emits name : emits P (KeyVault.get_sp E name).
Proof. unfold KeyVault.get_sp. emits_go; auto; az_case. Qed.

Lemma swa_get_sp_emits name : emits P (Swa.get_sp E name).
Proof. unfold Swa.get_sp. emits_go; auto; az_case. Qed.

Lemma kv_create_sp_emits name : emits P (KeyVault.create_sp E name).
Proof. unfold KeyVault.create_sp. emits_go; auto; az_case. Qed.

Lemma swa_create_sp_emits name : emits P (Swa.create_sp E name).
Proof. unfold Swa.create_sp. emits_go; auto; az_case. Qed.

Lemma kv_reset_emits client_id : emits P (KeyVault.reset_sp_secret E client_id).
Proof. unfold KeyVault.reset_sp_secret. az_case. Qed.

Lemma swa_reset_emits client_id : emits P (Swa.reset_sp_secret E client_id).
Proof. unfold Swa.reset_sp_secret. az_case. Qed.

Lemma kv_assign_rbac_emits object_id role scope :
  emits P (KeyVault.assign_rbac E object_id role scope).
Proof.
  unfold KeyVault.assign_rbac, KeyVault.az. emits_go; auto.
Qed.

Lemma swa_assign_rbac_emits object_id role scope :
  emits P (Swa.assign_rbac E object_id role scope).
Proof. unfold Swa.assign_rbac. emits_go; auto. az_case. Qed.

Lemma kv_get_secret_names_emits vault prefix :
  emits P (KeyVault.get_secret_names E vault prefix).
Proof. unfold KeyVault.get_secret_names. emits_go; auto; az_case. Qed.

Lemma kv_read_settings_emits cfg : emits P (KeyVault.read_settings cfg).
Proof.
  unfold KeyVault.read_settings.
  repeat first [ apply kv_prompt_emits | emits_step ]; auto.
Qed.

Lemma swa_read_settings_emits cfg : emits P (Swa.read_settings cfg).
Proof.
  unfold Swa.read_settings.
  repeat first [ apply swa_prompt_emits | emits_step ]; auto.
Qed.

Lemma kv_reuse_or_create_emits i lookup :
  emits P (KeyVault.reuse_or_create E i lookup).
Proof.
  unfold KeyVault.reuse_or_create.
  destruct lookup as [[[found cid] oid] t].
  repeat first [ apply kv_reset_emits | apply kv_create_sp_emits | emits_step ];
    auto.
Qed.

Lemma swa_reuse_or_create_emits i lookup :
  emits P (Swa.reuse_or_create E i lookup).
Proof.
  unfold Swa.reuse_or_create.
  destruct lookup as [[[found cid] oid] t].
  repeat first [ apply swa_reset_emits | apply swa_create_sp_emits | emits_step ];
    auto.
Qed.

Lemma kv_grant_access_emits i object_id :
  emits P (KeyVault.grant_access E i object_id).
Proof.
  unfold KeyVault.grant_access.
  repeat first [ apply kv_get_secret_names_emits | apply kv_assign_rbac_emits
               | emits_step ]; auto.
Qed.

Lemma swa_grant_access_emits i object_id :
  emits P (Swa.grant_access E i object_id).
Proof.
  unfold Swa.grant_access.
  repeat first [ apply swa_assign_rbac_emits | emits_step ]; auto.
Qed.

Lemma swa_offer_swa_emits i : emits P (Swa.offer_swa E i).
Proof.
  unfold Swa.offer_swa, Swa.create_swa_app.
  repeat first [ apply swa_prompt_emits | emits_step ]; auto; az_case.
Qed.

Lemma kv_report_emits i cid secret tenant :
  P (EvPrint [Dumps (KeyVault.credentials i cid secret tenant) 2]) ->
  emits P (KeyVault.report i cid secret tenant).
Proof. intros H. unfold KeyVault.report. emits_go; auto. Qed.

Lemma swa_report_emits i cid secret tenant :
  P (EvPrint [Dumps (Swa.credentials i cid secret tenant) 2]) ->
  emits P (Swa.report i cid secret tenant).
Proof. intros H. unfold Swa.report. emits_go; auto. Qed.
End Shapes.

Lemma emits_keeps {A} (P : event -> Prop) (m : M A) s o s' :
  Obs.emits P m -> m s = (o, s') ->
  Forall P (trace s) -> Forall P (trace s').
Proof.
  intros Hm Hrun Hs. destruct (Hm s) as [d [E1 F]].
  rewrite Hrun in E1. simpl in E1. rewrite E1. apply Forall_app; auto.
Qed.

Lemma filter_none {A} (f : A -> bool) (l : list A) :
  Forall (fun x => f x = false) l -> List.filter f l = [].
Proof.
  induction 1 as [|x l Hx _ IH]; simpl; auto. rewrite Hx. exact IH.
Qed.

Lemma kv_load_ok E cfg s :
  defaults_file E = FileParsed cfg -> KeyVault.load_defaults E s = (Ret cfg, s).
Proof. unfold KeyVault.load_defaults. intros ->. reflexivity. Qed.

Lemma swa_load_ok E cfg s :
  defaults_file E = FileParsed cfg -> Swa.load_defaults E s = (Ret cfg, s).
Proof. unfold Swa.load_defaults. intros ->. reflexivity. Qed.

(** ** The Key Vault script up to the role assignments *)
Section KeyVaultRun.
Import Obs.
Variable E : env.
Variables (lines : list string) (cfg : gmap string string).
Variables (i : KeyVault.settings) (s1 s2 s3 : state).
Variables (lookup : bool * value * value * value).
Variables (client_id client_secret tenant_id object_id : value).
Hypothesis Hfile : defaults_file E = FileParsed cfg.
Hypothesis Hread : KeyVault.read_settings cfg (initial lines) = (Ret i, s1).
Hypothesis Hget : KeyVault.get_sp E (KeyVault.sp_name i) s1 = (Ret lookup, s2).
Hypothesis Hsp :
  KeyVault.reuse_or_create E i lookup s2
  = (Ret (client_id, client_secret, tenant_id, object_id), s3).

Lemma kv_main_from_grant :
  KeyVault.main E (initial lines)
  = (KeyVault.grant_access E i object_id ;;
     KeyVault.report i client_id client_secret tenant_id) s3.
Proof.
  unfold KeyVault.main.
  rewrite (bind_ret _ _ _ _ _ (kv_load_ok E cfg _ Hfile)).
  rewrite (bind_ret _ _ _ _ _ Hread).
  rewrite (bind_ret _ _ _ _ _ Hget).
  rewrite (bind_ret _ _ _ _ _ Hsp).
  reflexivity.
Qed.

Lemma kv_no_assignment_before_grant :
  Forall (fun e => is_role_assignment e = false) (trace s3).
Proof.
  eapply emits_keeps; [|exact Hsp|].
  { apply kv_reuse_or_create_emits; intros; reflexivity. }
  eapply emits_keeps; [|exact Hget|].
  { apply kv_get_sp_emits; intros; reflexivity. }
  eapply emits_keeps; [|exact Hread|].
  { apply kv_read_settings_emits; intros; reflexivity. }
  constructor.
Qed.

Lemma kv_no_listing_before_grant :
  Forall (fun e => is_secret_listing e = false) (trace s3).
Proof.
  eapply emits_keeps; [|exact Hsp|].
  { apply kv_reuse_or_create_emits; intros; reflexivity. }
  eapply emits_keeps; [|exact Hget|].
  { apply kv_get_sp_emits; intros; reflexivity. }
  eapply emits_keeps; [|exact Hread|].
  { apply kv_read_settings_emits; intros; reflexivity. }
  constructor.
Qed.
End KeyVaultRun.

Lemma is_print_quiet (f : event -> bool) (l : list event) :
  (forall line, f (EvPrint line) = false) ->
  Forall (fun e => exists line, e = EvPrint line) l ->
  Forall (fun e => f e = false) l.
Proof.
  intros Hf Hl. eapply Forall_impl; [exact Hl|].
  intros e [line ->]. apply Hf.
Qed.

Lemma shell_assignment_is_assignment oid role scope :
  Obs.is_role_assignment (Obs.shell_assignment oid role scope) = true.
Proof. reflexivity. Qed.

(** The whole-vault branch: one announcement, the assignment at the
    vault's scope, and after it nothing but prints. *)
Lemma kv_whole_vault_grant E i oid cid sec ten s :
  String.eqb (KeyVault.scope_choice i) "2" = false ->
  exists before after,
    trace (snd ((KeyVault.grant_access E i (VStr oid) ;;
                 KeyVault.report i cid sec ten) s))
    = trace s ++ EvPrint before
        :: Obs.shell_assignment oid "Key Vault Secrets User" (KeyVault.vault_scope i)
        :: after
    /\ Forall (fun e => exists line, e = EvPrint line) after.
Proof.
  intros Hchoice. unfold KeyVault.grant_access. rewrite Hchoice.
  unfold KeyVault.assign_rbac, KeyVault.az, join_cmd, KeyVault.report.
  unfold bind, print, os_system, ret, sys_exit, emit. simpl.
  match goal with |- context [negb ?b] => destruct b end; simpl;
    rewrite <- ?app_assoc; simpl;
    eexists; eexists; (split; [reflexivity|]); repeat constructor; eauto.
Qed.

(** What [read_settings] has done when it returns: it read six lines (a
    seventh for the secret prefix when the choice is 2), and it showed the
    prefix prompt only when the choice is 2. *)
Lemma kv_read_settings_inv cfg s i s' :
  KeyVault.read_settings cfg s = (Ret i, s') ->
  exists l1 l2 l3 l4 l5 l6 rest added,
    stdin s = l1 :: l2 :: l3 :: l4 :: l5 :: l6 :: rest
    /\ KeyVault.tenant_id i
       = Obs.answer l2 (default "" (cfg !! "azure_tenant_id"))
    /\ KeyVault.scope_choice i = Obs.answer l6 "1"
    /\ trace s' = trace s ++ added
    /\ (KeyVault.scope_choice i <> "2" ->
        KeyVault.secret_prefix i = None
        /\ Forall (fun e => Obs.is_prefix_prompt e = false) added)
    /\ (KeyVault.scope_choice i = "2" ->
        exists l7, head rest = Some l7
                   /\ KeyVault.secret_prefix i
                      = Some (Obs.answer l7 (KeyVault.repo_name i +:+ "-"))).
Proof.
  unfold KeyVault.read_settings.
  generalize (default "pfx" (cfg !! "org_prefix")) as org.
  generalize (default "" (cfg !! "azure_tenant_id")) as ten.
  generalize (default "" (cfg !! "azure_subscription_id")) as sub.
  generalize (default "" (cfg !! "azure_resource_group")) as rg.
  generalize (default "" (cfg !! "azure_keyvault_name")) as kv.
  intros kv rg sub ten org.
  destruct s as [ls tr].
  destruct ls as [|l1 [|l2 [|l3 [|l4 [|l5 [|l6 rest]]]]]];
    try (intros H; discriminate H).
  unfold KeyVault.prompt, bind, input, print, ret, emit. simpl.
  fold (Obs.answer l1 (org +:+ "-repo")). fold (Obs.answer l2 ten).
  fold (Obs.answer l6 "1").
  destruct (String.eqb (Obs.answer l6 "1") "2") eqn:Hchoice.
  - destruct rest as [|l7 rest]; [intros H; discriminate H|].
    intros H. inversion H; subst; clear H. simpl.
    apply String.eqb_eq in Hchoice.
    exists l1, l2, l3, l4, l5, l6, (l7 :: rest). eexists.
    repeat split; try reflexivity.
    + rewrite <- !app_assoc. simpl. reflexivity.
    + congruence.
    + congruence.
    + intros _. exists l7. split; reflexivity.
  - intros H. inversion H; subst; clear H. simpl.
    apply String.eqb_neq in Hchoice.
    exists l1, l2, l3, l4, l5, l6, rest. eexists.
    repeat split; try reflexivity.
    + rewrite <- !app_assoc. simpl. reflexivity.
    + repeat constructor.
    + congruence.
Qed.

(** ** Whole-vault scoping *)

(** C7.  In a run of the Key Vault script that gets as far as the role
    assignments with a scope choice other than 2 (whole-vault scoping) and
    a textual object id, the role-assignment calls of the whole run are
    exactly one, at the scope of the vault, and the vault's secrets are
    never listed: the tool's answers play no part in it. *)
Theorem whole_vault_one_assignment (E : env) (lines : list string)
    (cfg : gmap string string) (i : KeyVault.settings) (s1 s2 s3 : state)
    (lookup : bool * value * value * value)
    (client_id client_secret tenant_id : value) (object_id : string) :
  defaults_file E = FileParsed cfg ->
  KeyVault.read_settings cfg (initial lines) = (Ret i, s1) ->
  KeyVault.get_sp E (KeyVault.sp_name i) s1 = (Ret lookup, s2) ->
  KeyVault.reuse_or_create E i lookup s2
    = (Ret (client_id, client_secret, tenant_id, VStr object_id), s3) ->
  KeyVault.scope_choice i <> "2" ->
  let done := trace (snd (KeyVault.main E (initial lines))) in
  List.filter Obs.is_role_assignment done
    = [EvSystem (Obs.cmdline (Obs.assignment_argv object_id
         "Key Vault Secrets User"
         ("/subscriptions/" +:+ KeyVault.subscription_id i
            +:+ "/resourceGroups/" +:+ KeyVault.resource_group i
            +:+ "/providers/Microsoft.KeyVault/vaults/"
            +:+ KeyVault.keyvault_name i)))]
  /\ List.filter Obs.is_secret_listing done = [].
Proof.
  intros Hfile Hread Hget Hsp Hchoice. cbv zeta.
  rewrite (kv_main_from_grant E lines cfg i s1 s2 s3 lookup _ _ _ _
             Hfile Hread Hget Hsp).
  apply String.eqb_neq in Hchoice.
  destruct (kv_whole_vault_grant E i object_id client_id client_secret
              tenant_id s3 Hchoice) as [before [after [Htrace Hafter]]].
  rewrite Htrace. split.
  - rewrite List.filter_app. simpl.
    rewrite (filter_none _ _ (kv_no_assignment_before_grant E lines cfg i
               s1 s2 s3 lookup _ _ _ _ Hread Hget Hsp)).
    rewrite (filter_none Obs.is_role_assignment after); [reflexivity|].
    apply is_print_quiet; auto.
  - rewrite List.filter_app. simpl.
    rewrite (filter_none _ _ (kv_no_listing_before_grant E lines cfg i
               s1 s2 s3 lookup _ _ _ _ Hread Hget Hsp)).
    rewrite (filter_none Obs.is_secret_listing after); [reflexivity|].
    apply is_print_quiet; auto.
Qed.

(** C10.  In a run of the Key Vault script that gets as far as the role
    assignments, a scope choice other than the text 2 (the operator's sixth
    answer as [prompt] returns it: trimmed, and 1 when left empty) takes
    the whole-vault path: no secret prefix is held, the prompt for one is
    never shown, and the role-assignment calls of the run are exactly one,
    at the scope of the vault. *)
Theorem other_choice_is_whole_vault (E : env) (lines : list string)
    (cfg : gmap string string) (i : KeyVault.settings) (s1 s2 s3 : state)
    (lookup : bool * value * value * value)
    (client_id client_secret tenant_id : value) (object_id : string) :
  defaults_file E = FileParsed cfg ->
  KeyVault.read_settings cfg (initial lines) = (Ret i, s1) ->
  KeyVault.get_sp E (KeyVault.sp_name i) s1 = (Ret lookup, s2) ->
  KeyVault.reuse_or_create E i lookup s2
    = (Ret (client_id, client_secret, tenant_id, VStr object_id), s3) ->
  KeyVault.scope_choice i <> "2" ->
  let done := trace (snd (KeyVault.main E (initial lines))) in
  (exists answer6, lines !! 5%nat = Some answer6
                   /\ KeyVault.scope_choice i = Obs.answer answer6 "1")
  /\ KeyVault.secret_prefix i = None
  /\ List.filter Obs.is_prefix_prompt done = []
  /\ List.filter Obs.is_role_assignment done
     = [Obs.shell_assignment object_id "Key Vault Secrets User"
          (KeyVault.vault_scope i)].
Proof.
  intros Hfile Hread Hget Hsp Hchoice. cbv zeta.
  destruct (kv_read_settings_inv _ _ _ _ Hread)
    as (l1 & l2 & l3 & l4 & l5 & l6 & rest & added
        & Hlines & _ & Hsix & Htrace & Hother & _).
  destruct (Hother Hchoice) as [Hprefix Hadded]. simpl in Hlines, Htrace.
  split; [|split; [exact Hprefix|]].
  { exists l6. rewrite Hlines. split; [reflexivity|exact Hsix]. }
  assert (Hquiet : Forall (fun e => Obs.is_prefix_prompt e = false) (trace s3)).
  { eapply emits_keeps; [|exact Hsp|].
    { apply kv_reuse_or_create_emits; intros; reflexivity. }
    eapply emits_keeps; [|exact Hget|].
    { apply kv_get_sp_emits; intros; reflexivity. }
    rewrite Htrace. exact Hadded. }
  rewrite (kv_main_from_grant E lines cfg i s1 s2 s3 lookup _ _ _ _
             Hfile Hread Hget Hsp).
  apply String.eqb_neq in Hchoice.
  destruct (kv_whole_vault_grant E i object_id client_id client_secret
              tenant_id s3 Hchoice) as [before [after [Hdone Hafter]]].
  rewrite Hdone. split.
  - rewrite List.filter_app. simpl.
    rewrite (filter_none _ _ Hquiet).
    rewrite (filter_none Obs.is_prefix_prompt after); [reflexivity|].
    apply is_print_quiet; auto.
  - rewrite List.filter_app. simpl.
    rewrite (filter_none _ _ (kv_no_assignment_before_grant E lines cfg i
               s1 s2 s3 lookup _ _ _ _ Hread Hget Hsp)).
    rewrite (filter_none Obs.is_role_assignment after); [reflexivity|].
    apply is_print_quiet; auto.
Qed.

(** ** Secret-prefix scoping *)

Lemma kv_assign_rbac_run E object_id role scope s :
  KeyVault.assign_rbac E (VStr object_id) role scope s
  = (if system_answer E (trace s)
          (Obs.cmdline (Obs.assignment_argv object_id role scope)) =? 0
     then Ret tt else Exit 1,
     emit (Obs.shell_assignment object_id role scope) s).
Proof.
  unfold Obs.shell_assignment, Obs.cmdline, Obs.assignment_argv.
  cbv beta iota zeta fix delta [KeyVault.assign_rbac KeyVault.az join_cmd
    bind os_system ret sys_exit strs].
  match goal with |- context [?a =? 0] => destruct (a =? 0) end; reflexivity.
Qed.

Section PrefixScope.
Import Obs.
Variable E : env.
Variable i : KeyVault.settings.
Variable object_id : string.

Let per_secret (name : string) : event :=
  shell_assignment object_id "Key Vault Secrets User"
    (KeyVault.secret_scope i name).

Let body (name : string) : M unit :=
  print [Text ("🔐 Assigning access to secret: " +:+ name)] ;;
  KeyVault.assign_rbac E (VStr object_id) "Key Vault Secrets User"
    (KeyVault.secret_scope i name).

Let all_succeed (names : list string) : Prop :=
  forall history name,
    In name names ->
    system_answer E history
      (cmdline (assignment_argv object_id "Key Vault Secrets User"
                  (KeyVault.secret_scope i name))) = 0.

(** The loop over the matched secrets issues the assignments in order
    and stops at the first that fails. *)
Lemma kv_assign_loop names s :
  exists k,
    (k <= length names)%nat
    /\ (names <> [] -> (1 <= k)%nat)
    /\ List.filter is_role_assignment (trace (snd (for_each names body s)))
       = List.filter is_role_assignment (trace s)
         ++ map per_secret (take k names)
    /\ (fst (for_each names body s) = Ret tt
        \/ fst (for_each names body s) = Exit 1)
    /\ (fst (for_each names body s) = Ret tt -> k = length names)
    /\ (all_succeed names -> fst (for_each names body s) = Ret tt).
Proof.
  revert s. induction names as [|name names IH]; intros s.
  - exists 0%nat. simpl. rewrite app_nil_r.
    repeat split; auto. congruence.
  - set (announce := EvPrint [Text ("🔐 Assigning access to secret: " +:+ name)]).
    set (s2 := emit (per_secret name) (emit announce s)).
    assert (Hstep : for_each (name :: names) body s
      = if system_answer E (trace (emit announce s))
             (cmdline (assignment_argv object_id "Key Vault Secrets User"
                         (KeyVault.secret_scope i name))) =? 0
        then for_each names body s2 else (Exit 1, s2)).
    { assert (Hbody : body name s
        = KeyVault.assign_rbac E (VStr object_id) "Key Vault Secrets User"
            (KeyVault.secret_scope i name) (emit announce s))
        by reflexivity.
      simpl for_each. unfold bind at 1. rewrite Hbody, kv_assign_rbac_run.
      match goal with |- context [?a =? 0] => destruct (a =? 0) end;
        reflexivity. }
    assert (Hs2 : List.filter is_role_assignment (trace s2)
                  = List.filter is_role_assignment (trace s) ++ [per_secret name]).
    { unfold s2, emit. simpl. rewrite !List.filter_app. simpl.
      rewrite app_nil_r. reflexivity. }
    rewrite Hstep.
    match goal with |- context [?a =? 0] => destruct (a =? 0) eqn:Hok end.
    + destruct (IH s2) as (k & Hk & _ & Hf & Hout & Hall & Hgood).
      exists (S k). rewrite Hf, Hs2, <- app_assoc. simpl.
      repeat split; auto; try lia.
      intros Hs. apply Hgood. intros h n Hn. apply Hs. right. exact Hn.
    + exists 1%nat. cbn [fst snd]. rewrite Hs2. simpl.
      repeat split; auto; try lia; try discriminate.
      intros Hs. apply Z.eqb_neq in Hok. exfalso. apply Hok. apply Hs.
      left. reflexivity.
Qed.
End PrefixScope.

Lemma bind_assoc {A B C} (m : M A) (k : A -> M B) (k' : B -> M C) s :
  bind (bind m k) k' s = bind m (fun a => bind (k a) k') s.
Proof. unfold bind. destruct (m s) as [[a|c|e] s']; reflexivity. Qed.

(** C2.  In a run of the Key Vault script with scope choice 2 that gets as
    far as listing the vault with a textual object id: when the listing
    yields no name, the process exits with status 1 and the run holds no
    role-assignment call; when it yields [names], the role-assignment calls
    of the run are those for the first [k] names for some [1 <= k], each at
    the scope that ends in [/secrets/<name>], in the order of the listing,
    and when every assignment command exits with status 0 they are exactly
    one per name and the run completes. *)
Theorem prefix_scope_one_assignment_per_secret (E : env)
    (lines : list string) (cfg : gmap string string)
    (i : KeyVault.settings) (s1 s2 s3 s4 : state)
    (lookup : bool * value * value * value)
    (client_id client_secret tenant_id : value) (object_id : string)
    (names : list string) :
  defaults_file E = FileParsed cfg ->
  KeyVault.read_settings cfg (initial lines) = (Ret i, s1) ->
  KeyVault.get_sp E (KeyVault.sp_name i) s1 = (Ret lookup, s2) ->
  KeyVault.reuse_or_create E i lookup s2
    = (Ret (client_id, client_secret, tenant_id, VStr object_id), s3) ->
  KeyVault.scope_choice i = "2" ->
  KeyVault.get_secret_names E (KeyVault.keyvault_name i)
    (KeyVault.secret_prefix i) s3 = (Ret names, s4) ->
  let run := KeyVault.main E (initial lines) in
  let issued := List.filter Obs.is_role_assignment (trace (snd run)) in
  let command := fun name =>
    Obs.cmdline (Obs.assignment_argv object_id "Key Vault Secrets User"
                   (KeyVault.vault_scope i +:+ "/secrets/" +:+ name)) in
  match names with
  | [] => fst run = Exit 1 /\ issued = []
  | _ :: _ =>
      (exists k, (1 <= k <= length names)%nat
                 /\ issued = map (fun name => EvSystem (command name))
                               (take k names))
      /\ ((forall history name,
              In name names -> system_answer E history (command name) = 0) ->
          fst run = Ret tt
          /\ issued = map (fun name => EvSystem (command name)) names)
  end.
Proof.
  intros Hfile Hread Hget Hsp Hchoice Hlist. cbv zeta.
  rewrite (kv_main_from_grant E lines cfg i s1 s2 s3 lookup _ _ _ _
             Hfile Hread Hget Hsp).
  pose proof (kv_no_assignment_before_grant E lines cfg i s1 s2 s3 lookup
                _ _ _ _ Hread Hget Hsp) as Hquiet3.
  assert (Hquiet : List.filter Obs.is_role_assignment (trace s4) = []).
  { apply filter_none. eapply emits_keeps; [|exact Hlist|exact Hquiet3].
    apply kv_get_secret_names_emits; intros; reflexivity. }
  set (run := (KeyVault.grant_access E i (VStr object_id) ;;
               KeyVault.report i client_id client_secret tenant_id) s3).
  assert (Hrun : run
    = ((match names with
        | [] =>
            print [Text ("❌ No secrets found in Key Vault '"
                           +:+ KeyVault.keyvault_name i
                           +:+ "' with prefix '"
                           +:+ KeyVault.fmt (KeyVault.secret_prefix i)
                           +:+ "'")] ;;
            sys_exit 1
        | _ :: _ =>
            for_each names (fun name =>
              print [Text ("🔐 Assigning access to secret: " +:+ name)] ;;
              KeyVault.assign_rbac E (VStr object_id) "Key Vault Secrets User"
                (KeyVault.secret_scope i name)) ;;
            print [Text ("✅ Assigned access to secrets with prefix '"
                           +:+ KeyVault.fmt (KeyVault.secret_prefix i) +:+ "'")]
        end) ;;
       KeyVault.report i client_id client_secret tenant_id) s4).
  { unfold run, KeyVault.grant_access. rewrite Hchoice.
    change (String.eqb "2" "2") with true. cbv iota.
    unfold bind at 1. unfold bind at 1. rewrite Hlist. reflexivity. }
  clearbody run. subst run.
  destruct names as [|name names].
  - cbn [fst snd bind print sys_exit emit trace].
    rewrite List.filter_app, Hquiet. auto.
  - destruct (kv_assign_loop E i object_id (name :: names) s4)
      as (k & Hk & Hk1 & Hf & Hout & Hall & Hgood).
    rewrite Hquiet in Hf. simpl app in Hf.
    match type of Hf with
    | context [for_each ?xs ?b ?s] =>
        destruct (for_each xs b s) as [[[]|c|e] s5] eqn:Hloop
    end; cbn [fst snd] in Hf, Hout, Hall, Hgood;
      rewrite bind_assoc;
      [ rewrite (bind_ret _ _ _ _ _ Hloop)
      | rewrite (bind_exit _ _ _ _ _ Hloop)
      | destruct Hout; discriminate ].
    + assert (Hrest : forall r,
        r = (print [Text ("✅ Assigned access to secrets with prefix '"
                            +:+ KeyVault.fmt (KeyVault.secret_prefix i) +:+ "'")] ;;
             KeyVault.report i client_id client_secret tenant_id) s5 ->
        fst r = Ret tt
        /\ List.filter Obs.is_role_assignment (trace (snd r))
           = List.filter Obs.is_role_assignment (trace s5)).
      { intros r ->. unfold KeyVault.report, bind, print, emit. simpl.
        rewrite <- !app_assoc. rewrite List.filter_app. simpl.
        rewrite app_nil_r. auto. }
      destruct (Hrest _ eq_refl) as [Hret Hsame].
      rewrite Hret, Hsame, Hf, (Hall eq_refl). rewrite firstn_all.
      split; [|auto].
      exists (length (name :: names)). rewrite firstn_all.
      split; [simpl; lia|reflexivity].
    + cbn [fst snd]. rewrite Hf. split.
      * exists k. split; [|reflexivity]. split; [apply Hk1; discriminate|exact Hk].
      * intros Hs. specialize (Hgood Hs). discriminate Hgood.
Qed.

(** ** Runs in which the lookup finds the principal *)

Lemma emits_then_nil {A} P (m : M A) : Obs.emits P m -> Obs.emits_then [] P m.
Proof. exact (fun H => H). Qed.

Lemma emits_then_print {A} first P line (k : unit -> M A) :
  Obs.emits_then first P (k tt) ->
  Obs.emits_then (EvPrint line :: first) P (bind (print line) k).
Proof.
  intros Hk s. destruct (Hk (emit (EvPrint line) s)) as [d [Hd F]].
  exists d. split; [|exact F].
  change (bind (print line) k s) with (k tt (emit (EvPrint line) s)).
  rewrite Hd. simpl. rewrite <- app_assoc. reflexivity.
Qed.

Lemma emits_then_run {A} E first P full_cmd argv (k : completed -> M A) :
  strs full_cmd = Some argv ->
  (forall result, Obs.emits_then first P (k result)) ->
  Obs.emits_then (EvRun argv :: first) P (bind (subprocess_run E full_cmd) k).
Proof.
  intros Hargv Hk s.
  destruct (Hk (run_answer E (trace s) argv) (emit (EvRun argv) s))
    as [d [Hd F]].
  exists d. split; [|exact F].
  unfold bind, subprocess_run. rewrite Hargv. rewrite Hd. simpl.
  rewrite <- app_assoc. reflexivity.
Qed.

Lemma emits_then_assoc {A B C} first P (m : M A) (k : A -> M B) (k' : B -> M C) :
  Obs.emits_then first P (bind m (fun a => bind (k a) k')) ->
  Obs.emits_then first P (bind (bind m k) k').
Proof. intros H s. rewrite bind_assoc. apply H. Qed.

Lemma emits_assoc {A B C} P (m : M A) (k : A -> M B) (k' : B -> M C) :
  Obs.emits P (bind m (fun a => bind (k a) k')) ->
  Obs.emits P (bind (bind m k) k').
Proof. intros H s. rewrite bind_assoc. apply H. Qed.

Lemma emits_exit_bind {A B} P c (k : A -> M B) :
  Obs.emits P (bind (sys_exit c) k).
Proof. intros s. exists []. simpl. rewrite app_nil_r. auto. Qed.

Lemma emits_raise_bind {A B} P e (k : A -> M B) :
  Obs.emits P (bind (raise e) k).
Proof. intros s. exists []. simpl. rewrite app_nil_r. auto. Qed.

(** Like [emits_step], but follows a returned value into what comes
    next. *)
Ltac emits_follow :=
  lazymatch goal with
  | |- Obs.emits ?P (bind (ret ?a) ?k) =>
      change (Obs.emits P (k a)); cbv beta iota
  | |- Obs.emits _ (bind (sys_exit _) _) => apply emits_exit_bind
  | |- Obs.emits _ (bind (raise _) _) => apply emits_raise_bind
  | |- Obs.emits _ (bind (bind _ _) _) => apply emits_assoc
  | |- Obs.emits _ (bind (if ?b then _ else _) _) => destruct b
  | |- Obs.emits _ (bind (match ?x with _ => _ end) _) => destruct x
  | |- _ => emits_step
  end.

Section Found.
Import Obs.
Variable E : env.
Variable P : event -> Prop.
Hypothesis Htext : forall t, P (EvPrint [Text t]).
Hypothesis Hinput : forall t, P (EvInput t).
Hypothesis Hlist :
  forall tail, P (EvRun ("az" :: "keyvault" :: "secret" :: "list" :: tail)).
Hypothesis Hrole :
  forall tail, P (EvRun ("az" :: "role" :: "assignment" :: "create" :: tail)).
Hypothesis Hswa :
  forall tail, P (EvRun ("az" :: "staticwebapp" :: "create" :: tail)).
Hypothesis Hsystem : forall c, P (EvSystem c).

(** The Key Vault script from the point where [get_sp] has returned a
    principal: the announcement, the credential reset, and then nothing but
    what [P] allows. *)
Lemma kv_found_then (i : KeyVault.settings) (c : string) (oid t : value) :
  (forall secret,
      P (EvPrint [Dumps (KeyVault.credentials i (VStr c) secret
                           (if Str.is_empty (KeyVault.tenant_id i) then t
                            else VStr (KeyVault.tenant_id i))) 2])) ->
  Obs.emits_then
    [EvPrint [Text ("✅ Service Principal '" +:+ KeyVault.sp_name i
                      +:+ "' exists. Reusing it.")];
     EvRun (reset_argv c)] P
    (sp <- KeyVault.reuse_or_create E i (true, VStr c, oid, t) ;;
     let '(client_id, client_secret, tenant_id, object_id) := sp in
     KeyVault.grant_access E i object_id ;;
     KeyVault.report i client_id client_secret tenant_id).
Proof.
  intros Hdumps.
  unfold KeyVault.reuse_or_create, KeyVault.reset_sp_secret, KeyVault.az.
  cbv iota beta.
  apply emits_then_assoc, emits_then_print.
  apply emits_then_assoc, emits_then_assoc.
  apply emits_then_run; [reflexivity|].
  intros result. apply emits_then_nil.
  repeat first [ apply kv_grant_access_emits | apply kv_report_emits
               | emits_follow ]; auto.
Qed.

(** The same for the Static Web App script. *)
Lemma swa_found_then (i : Swa.settings) (c : string) (oid t : value) :
  (forall secret,
      P (EvPrint [Dumps (Swa.credentials i (VStr c) secret
                           (if Str.is_empty (Swa.tenant_id i) then t
                            else VStr (Swa.tenant_id i))) 2])) ->
  Obs.emits_then
    [EvPrint [Text ("✅ Service Principal '" +:+ Swa.sp_name i
                      +:+ "' already exists. Reusing it.")];
     EvRun (reset_argv c)] P
    (sp <- Swa.reuse_or_create E i (true, VStr c, oid, t) ;;
     let '(client_id, client_secret, tenant_id, object_id) := sp in
     Swa.grant_access E i object_id ;;
     Swa.offer_swa E i ;;
     Swa.report i client_id client_secret tenant_id).
Proof.
  intros Hdumps.
  unfold Swa.reuse_or_create, Swa.reset_sp_secret, Swa.az.
  cbv iota beta.
  apply emits_then_assoc, emits_then_print.
  apply emits_then_assoc, emits_then_assoc.
  apply emits_then_run; [reflexivity|].
  intros result. apply emits_then_nil.
  repeat first [ apply swa_grant_access_emits | apply swa_offer_swa_emits
               | apply swa_report_emits | emits_follow ]; auto.
Qed.
End Found.

(** Case analysis on every test a run went through. *)
Ltac split_run H :=
  repeat (simpl in H;
          match type of H with
          | context [match ?x with _ => _ end] =>
              lazymatch x with
              | context [match _ with _ => _ end] => fail
              | _ => let Hx := fresh "Hx" in
                     destruct x eqn:Hx; try discriminate H
              end
          end).

(** A lookup that finds the principal ran the lookup and the tenant query,
    and the client id it returns is text. *)
Lemma kv_get_sp_found E name s cid oid t s' :
  KeyVault.get_sp E name s = (Ret (true, cid, oid, t), s') ->
  exists c, cid = VStr c
            /\ trace s' = trace s ++ [EvRun (Obs.lookup_argv name);
                                      EvRun (Obs.tenant_query_argv c)].
Proof.
  unfold KeyVault.get_sp, try_except, KeyVault.az, bind, subprocess_run,
    loads, subscript, join_cmd, print, ret, sys_exit, raise,
    KeyVault.not_found.
  intros H. split_run H; inversion H; subst; clear H.
  all: eexists; split; [reflexivity|].
  all: unfold emit; simpl; rewrite <- app_assoc; reflexivity.
Qed.

Lemma swa_get_sp_found E name s cid oid t s' :
  Swa.get_sp E name s = (Ret (true, cid, oid, t), s') ->
  exists c, cid = VStr c
            /\ trace s' = trace s ++ [EvRun (Obs.lookup_argv ("http://" +:+ name));
                                      EvRun (Obs.tenant_query_argv c)].
Proof.
  unfold Swa.get_sp, Swa.az, bind, subprocess_run,
    loads, subscript, join_cmd, print, ret, sys_exit, raise, Swa.not_found.
  intros H. split_run H; inversion H; subst; clear H.
  all: eexists; split; [reflexivity|].
  all: unfold emit; simpl; rewrite <- app_assoc; reflexivity.
Qed.

Lemma swa_create_sp_returned E name s cid secret tenant oid s' :
  Swa.create_sp E name s = (Ret (cid, secret, tenant, oid), s') ->
  exists c, cid = VStr c
            /\ trace s' = trace s ++ [EvRun (Obs.creation_argv name);
                                      EvRun (Obs.object_id_query_argv c)].
Proof.
  unfold Swa.create_sp, Swa.az, bind, subprocess_run,
    loads, subscript, join_cmd, print, ret, sys_exit, raise.
  intros H. split_run H; inversion H; subst; clear H.
  all: eexists; split; [reflexivity|].
  all: unfold emit; simpl; rewrite <- app_assoc; reflexivity.
Qed.

Lemma swa_read_settings_inv cfg s i s' :
  Swa.read_settings cfg s = (Ret i, s') ->
  exists l1 l2 rest,
    stdin s = l1 :: l2 :: rest
    /\ Swa.tenant_id i = Obs.answer l2 (default "" (cfg !! "azure_tenant_id")).
Proof.
  unfold Swa.read_settings.
  generalize (default "pfx" (cfg !! "org_prefix")) as org.
  generalize (default "" (cfg !! "azure_tenant_id")) as ten.
  generalize (default "" (cfg !! "azure_subscription_id")) as sub.
  intros sub ten org.
  destruct s as [ls tr].
  destruct ls as [|l1 [|l2 [|l3 [|l4 rest]]]]; try (intros H; discriminate H).
  unfold Swa.prompt, bind, input, print, ret, emit. simpl.
  intros H. inversion H; subst; clear H. simpl.
  exists l1, l2, (l3 :: l4 :: rest). split; reflexivity.
Qed.

Lemma answer_empty line : Str.strip line = "" -> Obs.answer line "" = "".
Proof. unfold Obs.answer. intros ->. reflexivity. Qed.

Lemma printed_json_in items tr :
  In items (Obs.printed_json tr) ->
  exists e, In e tr /\ Obs.json_of e = Some items.
Proof.
  induction tr as [|e tr IH]; simpl; [tauto|].
  destruct (Obs.json_of e) as [found|] eqn:He.
  - intros [<-|H]; [eauto|]. destruct (IH H) as [e' [? ?]]. eauto.
  - intros H. destruct (IH H) as [e' [? ?]]. eauto.
Qed.

(** A trace made of calm events around one announced credential reset. *)
Lemma reset_once_summary (Q : list (string * value) -> Prop) c before line after :
  Forall (Obs.calm Q) before -> Forall (Obs.calm Q) after ->
  let done := before ++ [EvPrint [Text line]; EvRun (Obs.reset_argv c)] ++ after in
  List.filter Obs.is_credential_reset done = [EvRun (Obs.reset_argv c)]
  /\ List.filter Obs.is_creation done = []
  /\ forall items, In items (Obs.printed_json done) -> Q items.
Proof.
  intros Hb Ha done. unfold done.
  assert (Hres : forall l, Forall (Obs.calm Q) l ->
            Forall (fun e => Obs.is_credential_reset e = false) l).
  { intros l Hl. eapply Forall_impl; [exact Hl|]. intros e He. apply He. }
  assert (Hcre : forall l, Forall (Obs.calm Q) l ->
            Forall (fun e => Obs.is_creation e = false) l).
  { intros l Hl. eapply Forall_impl; [exact Hl|]. intros e He. apply He. }
  split; [|split].
  - rewrite !List.filter_app, (filter_none _ _ (Hres _ Hb)),
      (filter_none _ _ (Hres _ Ha)). reflexivity.
  - rewrite !List.filter_app, (filter_none _ _ (Hcre _ Hb)),
      (filter_none _ _ (Hcre _ Ha)). reflexivity.
  - intros items Hin. apply printed_json_in in Hin.
    destruct Hin as [e [Hin He]].
    apply in_app_or in Hin. destruct Hin as [Hin|Hin].
    + rewrite Forall_forall in Hb. apply list_elem_of_In in Hin.
      apply (Hb e Hin). exact He.
    + apply in_app_or in Hin. destruct Hin as [Hin|Hin].
      * simpl in Hin. destruct Hin as [<-|[<-|[]]]; discriminate He.
      * rewrite Forall_forall in Ha. apply list_elem_of_In in Hin.
        apply (Ha e Hin). exact He.
Qed.

Section FoundRuns.
Import Obs.
Variable E : env.
Variables (lines : list string) (cfg : gmap string string).
Hypothesis Hfile : defaults_file E = FileParsed cfg.

(** The Key Vault script, when its lookup finds the principal. *)
Lemma kv_found_run (Q : list (string * value) -> Prop)
    (i : KeyVault.settings) (s1 s2 : state) (cid oid t : value) :
  KeyVault.read_settings cfg (initial lines) = (Ret i, s1) ->
  KeyVault.get_sp E (KeyVault.sp_name i) s1 = (Ret (true, cid, oid, t), s2) ->
  (forall secret,
      Q [("clientId", cid); ("clientSecret", secret);
         ("tenantId", if Str.is_empty (KeyVault.tenant_id i) then t
                      else VStr (KeyVault.tenant_id i));
         ("subscriptionId", VStr (KeyVault.subscription_id i))]) ->
  let done := trace (snd (KeyVault.main E (initial lines))) in
  exists c, cid = VStr c
    /\ List.filter is_credential_reset done = [EvRun (reset_argv c)]
    /\ List.filter is_creation done = []
    /\ forall items, In items (printed_json done) -> Q items.
Proof.
  intros Hread Hget HQ done.
  destruct (kv_get_sp_found _ _ _ _ _ _ _ Hget) as [c [-> _]].
  exists c. split; [reflexivity|].
  assert (Hbefore : Forall (calm Q) (trace s2)).
  { eapply emits_keeps; [|exact Hget|].
    { apply kv_get_sp_emits; intros; repeat split; discriminate. }
    eapply emits_keeps; [|exact Hread|].
    { apply kv_read_settings_emits; intros; repeat split; discriminate. }
    constructor. }
  destruct (kv_found_then E (calm Q)) with (i := i) (c := c) (oid := oid)
    (t := t) (s := s2) as [after [Hdone Hafter]].
  all: try (intros; repeat split; discriminate).
  { intros secret. repeat split. intros items Hitems.
    inversion Hitems; subst. apply HQ. }
  unfold done, KeyVault.main.
  rewrite (bind_ret _ _ _ _ _ (kv_load_ok E cfg _ Hfile)).
  rewrite (bind_ret _ _ _ _ _ Hread).
  rewrite (bind_ret _ _ _ _ _ Hget).
  rewrite Hdone. apply reset_once_summary; assumption.
Qed.

(** The Static Web App script, when its lookup finds the principal. *)
Lemma swa_found_run (Q : list (string * value) -> Prop)
    (i : Swa.settings) (s1 s2 : state) (cid oid t : value) :
  Swa.read_settings cfg (initial lines) = (Ret i, s1) ->
  Swa.get_sp E (Swa.sp_name i) s1 = (Ret (true, cid, oid, t), s2) ->
  (forall secret,
      Q [("clientId", cid); ("clientSecret", secret);
         ("tenantId", if Str.is_empty (Swa.tenant_id i) then t
                      else VStr (Swa.tenant_id i));
         ("subscriptionId", VStr (Swa.subscription_id i))]) ->
  let done := trace (snd (Swa.main E (initial lines))) in
  exists c, cid = VStr c
    /\ List.filter is_credential_reset done = [EvRun (reset_argv c)]
    /\ List.filter is_creation done = []
    /\ forall items, In items (printed_json done) -> Q items.
Proof.
  intros Hread Hget HQ done.
  destruct (swa_get_sp_found _ _ _ _ _ _ _ Hget) as [c [-> _]].
  exists c. split; [reflexivity|].
  assert (Hbefore : Forall (calm Q) (trace s2)).
  { eapply emits_keeps; [|exact Hget|].
    { apply swa_get_sp_emits; intros; repeat split; discriminate. }
    eapply emits_keeps; [|exact Hread|].
    { apply swa_read_settings_emits; intros; repeat split; discriminate. }
    constructor. }
  destruct (swa_found_then E (calm Q)) with (i := i) (c := c) (oid := oid)
    (t := t) (s := s2) as [after [Hdone Hafter]].
  all: try (intros; repeat split; discriminate).
  { intros secret. repeat split. intros items Hitems.
    inversion Hitems; subst. apply HQ. }
  unfold done, Swa.main.
  rewrite (bind_ret _ _ _ _ _ (swa_load_ok E cfg _ Hfile)).
  rewrite (bind_ret _ _ _ _ _ Hread).
  rewrite (bind_ret _ _ _ _ _ Hget).
  rewrite Hdone. apply reset_once_summary; assumption.
Qed.
End FoundRuns.

(** C5.  In a run of either script whose lookup finds the principal, the
    client id that the lookup returned is text, the run issues exactly one
    credential-reset call, for that client id, and no creation call, and
    every credential dictionary the run prints carries that client id
    unchanged. *)
Theorem found_principal_reset_once (E : env) (lines : list string)
    (cfg : gmap string string) :
  defaults_file E = FileParsed cfg ->
  (forall (i : KeyVault.settings) (s1 s2 : state) (cid oid t : value),
      KeyVault.read_settings cfg (initial lines) = (Ret i, s1) ->
      KeyVault.get_sp E (KeyVault.sp_name i) s1 = (Ret (true, cid, oid, t), s2) ->
      let done := trace (snd (KeyVault.main E (initial lines))) in
      exists c, cid = VStr c
        /\ List.filter Obs.is_credential_reset done = [EvRun (Obs.reset_argv c)]
        /\ List.filter Obs.is_creation done = []
        /\ forall items, In items (Obs.printed_json done) ->
                         lookup_item "clientId" items = Some cid)
  /\ (forall (i : Swa.settings) (s1 s2 : state) (cid oid t : value),
      Swa.read_settings cfg (initial lines) = (Ret i, s1) ->
      Swa.get_sp E (Swa.sp_name i) s1 = (Ret (true, cid, oid, t), s2) ->
      let done := trace (snd (Swa.main E (initial lines))) in
      exists c, cid = VStr c
        /\ List.filter Obs.is_credential_reset done = [EvRun (Obs.reset_argv c)]
        /\ List.filter Obs.is_creation done = []
        /\ forall items, In items (Obs.printed_json done) ->
                         lookup_item "clientId" items = Some cid).
Proof.
  intros Hfile. split.
  - intros i s1 s2 cid oid t Hread Hget.
    apply (kv_found_run E lines cfg Hfile
             (fun items => lookup_item "clientId" items = Some cid)
             i s1 s2 cid oid t Hread Hget).
    intros secret. reflexivity.
  - intros i s1 s2 cid oid t Hread Hget.
    apply (swa_found_run E lines cfg Hfile
             (fun items => lookup_item "clientId" items = Some cid)
             i s1 s2 cid oid t Hread Hget).
    intros secret. reflexivity.
Qed.

(** C4, as the code has it.  In a run of either script in which the
    defaults give no tenant id (none, or an empty one), the operator leaves
    the tenant-id prompt (the second) empty and the lookup finds the
    principal with tenant id [t], every credential dictionary the run prints
    has [t] as its [tenantId]. *)
Theorem empty_tenant_backfilled_from_lookup (E : env)
    (answer1 answer2 : string) (rest : list string)
    (cfg : gmap string string) :
  defaults_file E = FileParsed cfg ->
  default "" (cfg !! "azure_tenant_id") = "" ->
  Str.strip answer2 = "" ->
  let lines := answer1 :: answer2 :: rest in
  (forall (i : KeyVault.settings) (s1 s2 : state) (cid oid t : value),
      KeyVault.read_settings cfg (initial lines) = (Ret i, s1) ->
      KeyVault.get_sp E (KeyVault.sp_name i) s1 = (Ret (true, cid, oid, t), s2) ->
      forall items,
        In items (Obs.printed_json (trace (snd (KeyVault.main E (initial lines))))) ->
        lookup_item "tenantId" items = Some t)
  /\ (forall (i : Swa.settings) (s1 s2 : state) (cid oid t : value),
      Swa.read_settings cfg (initial lines) = (Ret i, s1) ->
      Swa.get_sp E (Swa.sp_name i) s1 = (Ret (true, cid, oid, t), s2) ->
      forall items,
        In items (Obs.printed_json (trace (snd (Swa.main E (initial lines))))) ->
        lookup_item "tenantId" items = Some t).
Proof.
  intros Hfile Hdefault Hempty lines. split.
  - intros i s1 s2 cid oid t Hread Hget.
    destruct (kv_read_settings_inv _ _ _ _ Hread)
      as (l1 & l2 & l3 & l4 & l5 & l6 & more & added & Hlines & Hten & _).
    simpl in Hlines. inversion Hlines; subst l1 l2.
    rewrite Hdefault, (answer_empty _ Hempty) in Hten.
    destruct (kv_found_run E lines cfg Hfile
                (fun items => lookup_item "tenantId" items = Some t)
                i s1 s2 cid oid t Hread Hget) as (c & _ & _ & _ & Hjson).
    { intros secret. rewrite Hten. reflexivity. }
    exact Hjson.
  - intros i s1 s2 cid oid t Hread Hget.
    destruct (swa_read_settings_inv _ _ _ _ Hread)
      as (l1 & l2 & more & Hlines & Hten).
    simpl in Hlines. inversion Hlines; subst l1 l2.
    rewrite Hdefault, (answer_empty _ Hempty) in Hten.
    destruct (swa_found_run E lines cfg Hfile
                (fun items => lookup_item "tenantId" items = Some t)
                i s1 s2 cid oid t Hread Hget) as (c & _ & _ & _ & Hjson).
    { intros secret. rewrite Hten. reflexivity. }
    exact Hjson.
Qed.

(** ** The identifiers of the Static Web App script *)

Lemma http_prefix_differs name : "http://" +:+ name <> name.
Proof.
  intros H. apply (f_equal String.length) in H. simpl in H.
  change ("" +:+ name) with name in H. lia.
Qed.

(** C9.  In the Static Web App script the existence lookup asks for the
    identifier [http://] followed by the service-principal name, the
    creation call names the principal by the bare name, and the two
    identifiers differ.  The lookups that follow, the tenant query of a
    successful [get_sp] and the object-id query of a successful
    [create_sp], use the client id as the tool returned it. *)
Theorem swa_lookup_and_creation_identifiers (E : env) (name : string)
    (s : state) :
  (exists more,
      trace (snd (Swa.get_sp E name s))
      = trace s ++ EvRun ["az"; "ad"; "sp"; "show"; "--id"; "http://" +:+ name]
                  :: more)
  /\ (exists more,
      trace (snd (Swa.create_sp E name s))
      = trace s ++ EvRun ["az"; "ad"; "sp"; "create-for-rbac"; "--name"; name;
                          "--skip-assignment"; "--query";
                          "{clientId: appId, clientSecret: password, tenantId: tenant}";
                          "-o"; "json"]
                  :: more)
  /\ "http://" +:+ name <> name
  /\ (forall cid oid t s',
        Swa.get_sp E name s = (Ret (true, cid, oid, t), s') ->
        exists c, cid = VStr c
          /\ trace s' = trace s
               ++ [EvRun ["az"; "ad"; "sp"; "show"; "--id"; "http://" +:+ name];
                   EvRun ["az"; "ad"; "sp"; "show"; "--id"; c; "--query";
                          "appOwnerOrganizationId"; "-o"; "tsv"]])
  /\ (forall cid secret tenant oid s',
        Swa.create_sp E name s = (Ret (cid, secret, tenant, oid), s') ->
        exists c, cid = VStr c
          /\ trace s' = trace s
               ++ [EvRun (Obs.creation_argv name);
                   EvRun ["az"; "ad"; "sp"; "show"; "--id"; c; "--query"; "id";
                          "-o"; "tsv"]]).
Proof.
  split; [|split; [|split; [|split]]].
  - assert (H : Obs.emits_then
                  [EvRun ["az"; "ad"; "sp"; "show"; "--id"; "http://" +:+ name]]
                  (fun _ => True) (Swa.get_sp E name)).
    { unfold Swa.get_sp, Swa.az. apply emits_then_assoc.
      apply emits_then_run; [reflexivity|].
      intros result. apply emits_then_nil.
      repeat first [ apply swa_az_emits | emits_step ]; auto. }
    destruct (H s) as [more [Hmore _]]. exists more. exact Hmore.
  - assert (H : Obs.emits_then [EvRun (Obs.creation_argv name)]
                  (fun _ => True) (Swa.create_sp E name)).
    { unfold Swa.create_sp, Swa.az. apply emits_then_assoc.
      apply emits_then_run; [reflexivity|].
      intros result. apply emits_then_nil.
      repeat first [ apply swa_az_emits | emits_step ]; auto. }
    destruct (H s) as [more [Hmore _]]. exists more. exact Hmore.
  - apply http_prefix_differs.
  - intros cid oid t s' H. exact (swa_get_sp_found _ _ _ _ _ _ _ H).
  - intros cid secret tenant oid s' H.
    exact (swa_create_sp_returned _ _ _ _ _ _ _ _ H).
Qed.

(** ** Runs in which the lookup returns its not-found tuple *)

(** When [get_sp] has returned not-found and the creation goes through,
    the run has announced the creation, issued the creation call and then
    exactly one object-id lookup for the client id that the creation
    returned, and holds that client id from then on. *)
Lemma kv_not_found_creates E i a b c s cid secret tenant oid s' :
  KeyVault.reuse_or_create E i (false, a, b, c) s
    = (Ret (cid, secret, tenant, oid), s') ->
  exists created, cid = VStr created
    /\ trace s' = trace s
         ++ [EvPrint [Text ("==> Creating Service Principal: " +:+ KeyVault.sp_name i)];
             EvRun (Obs.creation_argv (KeyVault.sp_name i));
             EvRun (Obs.object_id_query_argv created);
             EvPrint [Text "✅ Service Principal created: "; Show cid]].
Proof.
  unfold KeyVault.reuse_or_create, KeyVault.create_sp, KeyVault.az, bind,
    subprocess_run, loads, subscript, join_cmd, print, ret, sys_exit, raise.
  intros H. split_run H; inversion H; subst; clear H.
  all: eexists; split; [reflexivity|].
  all: unfold emit; simpl; rewrite <- !app_assoc; reflexivity.
Qed.

Lemma swa_not_found_creates E i a b c s cid secret tenant oid s' :
  Swa.reuse_or_create E i (false, a, b, c) s
    = (Ret (cid, secret, tenant, oid), s') ->
  exists created, cid = VStr created
    /\ trace s' = trace s
         ++ [EvPrint [Text ("==> Creating SP '" +:+ Swa.sp_name i +:+ "'")];
             EvRun (Obs.creation_argv (Swa.sp_name i));
             EvRun (Obs.object_id_query_argv created);
             EvPrint [Text "✅ SP created: "; Show cid]].
Proof.
  unfold Swa.reuse_or_create, Swa.create_sp, Swa.az, bind,
    subprocess_run, loads, subscript, join_cmd, print, ret, sys_exit, raise.
  intros H. split_run H; inversion H; subst; clear H.
  all: eexists; split; [reflexivity|].
  all: unfold emit; simpl; rewrite <- !app_assoc; reflexivity.
Qed.

(** The lookup of the Static Web App script never ends the process on a
    failing lookup command: with an empty output it returns not-found
    whatever the exit status. *)
Lemma swa_get_sp_miss E name s :
  stdout (run_answer E (trace s) (Obs.lookup_argv ("http://" +:+ name))) = "" ->
  Swa.get_sp E name s
  = (Ret Swa.not_found, emit (EvRun (Obs.lookup_argv ("http://" +:+ name))) s).
Proof.
  intros Hout.
  unfold Swa.get_sp, Swa.az, bind, subprocess_run. simpl.
  unfold Obs.lookup_argv in Hout. rewrite Hout. reflexivity.
Qed.

(** ** The sample sessions *)

Lemma whole_vault_one_assignment_witness :
  List.filter Obs.is_role_assignment
    (trace (snd (KeyVault.main (Sample.world true (FileParsed Sample.acme))
                   (initial Sample.accept_all))))
  = [EvSystem "az role assignment create --assignee obj-1 --role Key Vault Secrets User --scope /subscriptions/sub-1/resourceGroups/rg-1/providers/Microsoft.KeyVault/vaults/kv-1"].
Proof.
  set (E := Sample.world true (FileParsed Sample.acme)).
  set (s1 := snd (KeyVault.read_settings Sample.acme (initial Sample.accept_all))).
  set (s2 := snd (KeyVault.get_sp E "acme-repo-sp" s1)).
  set (s3 := snd (KeyVault.reuse_or_create E Sample.kv_accepted
                    Sample.known_principal s2)).
  refine (proj1 (whole_vault_one_assignment E Sample.accept_all Sample.acme
    Sample.kv_accepted s1 s2 s3 Sample.known_principal
    (VStr "app-1") (VStr "pw-1") (VStr "11111111-aaaa") "obj-1" _ _ _ _ _)).
  - reflexivity.
  - vm_compute. reflexivity.
  - vm_compute. reflexivity.
  - vm_compute. reflexivity.
  - vm_compute. discriminate.
Defined.

Lemma other_choice_is_whole_vault_witness :
  KeyVault.secret_prefix Sample.kv_three = None
  /\ List.filter Obs.is_prefix_prompt
       (trace (snd (KeyVault.main (Sample.world true (FileParsed Sample.acme))
                      (initial Sample.pick_three)))) = []
  /\ List.filter Obs.is_role_assignment
       (trace (snd (KeyVault.main (Sample.world true (FileParsed Sample.acme))
                      (initial Sample.pick_three))))
     = [EvSystem "az role assignment create --assignee obj-1 --role Key Vault Secrets User --scope /subscriptions/sub-1/resourceGroups/rg-1/providers/Microsoft.KeyVault/vaults/kv-1"].
Proof.
  set (E := Sample.world true (FileParsed Sample.acme)).
  set (s1 := snd (KeyVault.read_settings Sample.acme (initial Sample.pick_three))).
  set (s2 := snd (KeyVault.get_sp E "acme-repo-sp" s1)).
  set (s3 := snd (KeyVault.reuse_or_create E Sample.kv_three
                    Sample.known_principal s2)).
  refine (proj2 (other_choice_is_whole_vault E Sample.pick_three Sample.acme
    Sample.kv_three s1 s2 s3 Sample.known_principal
    (VStr "app-1") (VStr "pw-1") (VStr "11111111-aaaa") "obj-1" _ _ _ _ _)).
  - reflexivity.
  - vm_compute. reflexivity.
  - vm_compute. reflexivity.
  - vm_compute. reflexivity.
  - vm_compute. discriminate.
Defined.

Lemma prefix_scope_one_assignment_per_secret_witness :
  fst (KeyVault.main (Sample.world true (FileParsed Sample.acme))
         (initial Sample.pick_prefix)) = Ret tt
  /\ List.filter Obs.is_role_assignment
       (trace (snd (KeyVault.main (Sample.world true (FileParsed Sample.acme))
                      (initial Sample.pick_prefix))))
     = [EvSystem "az role assignment create --assignee obj-1 --role Key Vault Secrets User --scope /subscriptions/sub-1/resourceGroups/rg-1/providers/Microsoft.KeyVault/vaults/kv-1/secrets/dev-a";
        EvSystem "az role assignment create --assignee obj-1 --role Key Vault Secrets User --scope /subscriptions/sub-1/resourceGroups/rg-1/providers/Microsoft.KeyVault/vaults/kv-1/secrets/dev-b"].
Proof.
  set (E := Sample.world true (FileParsed Sample.acme)).
  set (s1 := snd (KeyVault.read_settings Sample.acme (initial Sample.pick_prefix))).
  set (s2 := snd (KeyVault.get_sp E "acme-repo-sp" s1)).
  set (s3 := snd (KeyVault.reuse_or_create E Sample.kv_prefixed
                    Sample.known_principal s2)).
  set (s4 := snd (KeyVault.get_secret_names E "kv-1" (Some "dev-") s3)).
  refine (proj2 (prefix_scope_one_assignment_per_secret E Sample.pick_prefix
    Sample.acme Sample.kv_prefixed s1 s2 s3 s4 Sample.known_principal
    (VStr "app-1") (VStr "pw-1") (VStr "11111111-aaaa") "obj-1"
    ["dev-a"; "dev-b"] _ _ _ _ _ _) _).
  - reflexivity.
  - vm_compute. reflexivity.
  - vm_compute. reflexivity.
  - vm_compute. reflexivity.
  - reflexivity.
  - vm_compute. reflexivity.
  - intros history name Hname. reflexivity.
Defined.

(** C10, as stated, fails for the operator's input as typed: the choice is
    compared after [prompt] has trimmed it, so the answer [ 2 ] between
    blanks, which is not the text [2], shows the prompt for the prefix and
    gives one assignment per matched secret. *)
Lemma padded_two_is_prefix_scope :
  ~ (forall (E : env) (lines : list string) (cfg : gmap string string)
            (i : KeyVault.settings) (s1 s2 s3 : state)
            (lookup : bool * value * value * value)
            (client_id client_secret tenant_id : value)
            (object_id answer6 : string),
        defaults_file E = FileParsed cfg ->
        KeyVault.read_settings cfg (initial lines) = (Ret i, s1) ->
        KeyVault.get_sp E (KeyVault.sp_name i) s1 = (Ret lookup, s2) ->
        KeyVault.reuse_or_create E i lookup s2
          = (Ret (client_id, client_secret, tenant_id, VStr object_id), s3) ->
        lines !! 5%nat = Some answer6 ->
        answer6 <> "2" ->
        List.filter Obs.is_prefix_prompt
          (trace (snd (KeyVault.main E (initial lines)))) = []
        /\ List.filter Obs.is_role_assignment
             (trace (snd (KeyVault.main E (initial lines))))
           = [Obs.shell_assignment object_id "Key Vault Secrets User"
                (KeyVault.vault_scope i)]).
Proof.
  intros H.
  set (E := Sample.world true (FileParsed Sample.acme)).
  set (s1 := snd (KeyVault.read_settings Sample.acme
                    (initial Sample.pick_padded_two))).
  set (s2 := snd (KeyVault.get_sp E "acme-repo-sp" s1)).
  set (s3 := snd (KeyVault.reuse_or_create E Sample.kv_prefixed
                    Sample.known_principal s2)).
  destruct (H E Sample.pick_padded_two Sample.acme Sample.kv_prefixed
              s1 s2 s3 Sample.known_principal
              (VStr "app-1") (VStr "pw-1") (VStr "11111111-aaaa")
              "obj-1" " 2 ") as [Hprompt _].
  - reflexivity.
  - vm_compute. reflexivity.
  - vm_compute. reflexivity.
  - vm_compute. reflexivity.
  - reflexivity.
  - discriminate.
  - vm_compute in Hprompt. discriminate Hprompt.
Qed.

(** C2, as stated, fails: the loop over the matched secrets ends at the
    first assignment command that exits non-zero.  With two matched secrets
    and a shell in which every command fails, the run issues one
    role-assignment call, not two. *)
Lemma prefix_scope_not_always_one_per_secret :
  ~ (forall (E : env) (lines : list string) (cfg : gmap string string)
            (i : KeyVault.settings) (s1 s2 s3 s4 : state)
            (lookup : bool * value * value * value)
            (client_id client_secret tenant_id : value) (object_id : string)
            (names : list string),
        defaults_file E = FileParsed cfg ->
        KeyVault.read_settings cfg (initial lines) = (Ret i, s1) ->
        KeyVault.get_sp E (KeyVault.sp_name i) s1 = (Ret lookup, s2) ->
        KeyVault.reuse_or_create E i lookup s2
          = (Ret (client_id, client_secret, tenant_id, VStr object_id), s3) ->
        KeyVault.scope_choice i = "2" ->
        KeyVault.get_secret_names E (KeyVault.keyvault_name i)
          (KeyVault.secret_prefix i) s3 = (Ret names, s4) ->
        names <> [] ->
        List.filter Obs.is_role_assignment
          (trace (snd (KeyVault.main E (initial lines))))
        = map (fun name =>
                 EvSystem (Obs.cmdline
                   (Obs.assignment_argv object_id "Key Vault Secrets User"
                      (KeyVault.vault_scope i +:+ "/secrets/" +:+ name))))
            names).
Proof.
  intros H.
  set (E := Sample.world_shell_down true (FileParsed Sample.acme)).
  set (s1 := snd (KeyVault.read_settings Sample.acme (initial Sample.pick_prefix))).
  set (s2 := snd (KeyVault.get_sp E "acme-repo-sp" s1)).
  set (s3 := snd (KeyVault.reuse_or_create E Sample.kv_prefixed
                    Sample.known_principal s2)).
  set (s4 := snd (KeyVault.get_secret_names E "kv-1" (Some "dev-") s3)).
  assert (Hall := H E Sample.pick_prefix Sample.acme Sample.kv_prefixed
                    s1 s2 s3 s4 Sample.known_principal
                    (VStr "app-1") (VStr "pw-1") (VStr "11111111-aaaa")
                    "obj-1" ["dev-a"; "dev-b"]).
  assert (Htwo : length (List.filter Obs.is_role_assignment
                   (trace (snd (KeyVault.main E (initial Sample.pick_prefix)))))
                 = 2%nat).
  { rewrite Hall; [reflexivity|reflexivity| | | |reflexivity| |discriminate];
      vm_compute; reflexivity. }
  vm_compute in Htwo. discriminate Htwo.
Qed.

Lemma found_principal_reset_once_witness :
  (exists c, VStr "app-1" = VStr c
     /\ List.filter Obs.is_credential_reset
          (trace (snd (KeyVault.main (Sample.world true (FileParsed Sample.acme))
                         (initial Sample.accept_all))))
        = [EvRun (Obs.reset_argv c)]
     /\ List.filter Obs.is_creation
          (trace (snd (KeyVault.main (Sample.world true (FileParsed Sample.acme))
                         (initial Sample.accept_all)))) = []
     /\ forall items,
          In items (Obs.printed_json
            (trace (snd (KeyVault.main (Sample.world true (FileParsed Sample.acme))
                           (initial Sample.accept_all))))) ->
          lookup_item "clientId" items = Some (VStr "app-1"))
  /\ (exists c, VStr "app-1" = VStr c
     /\ List.filter Obs.is_credential_reset
          (trace (snd (Swa.main (Sample.world true (FileParsed Sample.acme))
                         (initial Sample.accept_all))))
        = [EvRun (Obs.reset_argv c)]
     /\ List.filter Obs.is_creation
          (trace (snd (Swa.main (Sample.world true (FileParsed Sample.acme))
                         (initial Sample.accept_all)))) = []
     /\ forall items,
          In items (Obs.printed_json
            (trace (snd (Swa.main (Sample.world true (FileParsed Sample.acme))
                           (initial Sample.accept_all))))) ->
          lookup_item "clientId" items = Some (VStr "app-1")).
Proof.
  set (E := Sample.world true (FileParsed Sample.acme)).
  pose proof (found_principal_reset_once E Sample.accept_all Sample.acme
                eq_refl) as [Hkv Hswa].
  split.
  - refine (Hkv Sample.kv_accepted
      (snd (KeyVault.read_settings Sample.acme (initial Sample.accept_all)))
      (snd (KeyVault.get_sp E "acme-repo-sp"
              (snd (KeyVault.read_settings Sample.acme
                      (initial Sample.accept_all)))))
      (VStr "app-1") (VStr "obj-1") (VStr "11111111-aaaa") _ _).
    + vm_compute. reflexivity.
    + vm_compute. reflexivity.
  - refine (Hswa Sample.swa_accepted
      (snd (Swa.read_settings Sample.acme (initial Sample.accept_all)))
      (snd (Swa.get_sp E "acme-swa-deployer-sp"
              (snd (Swa.read_settings Sample.acme
                      (initial Sample.accept_all)))))
      (VStr "app-1") (VStr "obj-1") (VStr "11111111-aaaa") _ _).
    + vm_compute. reflexivity.
    + vm_compute. reflexivity.
Defined.

Lemma empty_tenant_backfilled_from_lookup_witness :
  lookup_item "tenantId" (Sample.reused "11111111-aaaa")
  = Some (VStr "11111111-aaaa")
  /\ (forall items,
        In items (Obs.printed_json
          (trace (snd (Swa.main (Sample.world true (FileParsed Sample.acme))
                         (initial Sample.accept_all))))) ->
        lookup_item "tenantId" items = Some (VStr "11111111-aaaa")).
Proof.
  set (E := Sample.world true (FileParsed Sample.acme)).
  assert (Hfile : defaults_file E = FileParsed Sample.acme) by reflexivity.
  assert (Hdefault : default "" (Sample.acme !! "azure_tenant_id") = "")
    by (vm_compute; reflexivity).
  assert (Hempty : Str.strip "" = "") by reflexivity.
  split.
  - refine (proj1 (empty_tenant_backfilled_from_lookup E "" ""
        [""; ""; ""; ""; ""; ""; ""] Sample.acme Hfile Hdefault Hempty)
      Sample.kv_accepted
      (snd (KeyVault.read_settings Sample.acme (initial Sample.accept_all)))
      (snd (KeyVault.get_sp E "acme-repo-sp"
              (snd (KeyVault.read_settings Sample.acme
                      (initial Sample.accept_all)))))
      (VStr "app-1") (VStr "obj-1") (VStr "11111111-aaaa") _ _
      (Sample.reused "11111111-aaaa") _).
    + vm_compute. reflexivity.
    + vm_compute. reflexivity.
    + vm_compute. left. reflexivity.
  - refine (proj2 (empty_tenant_backfilled_from_lookup E "" ""
        [""; ""; ""; ""; ""; ""; ""] Sample.acme Hfile Hdefault Hempty)
      Sample.swa_accepted
      (snd (Swa.read_settings Sample.acme (initial Sample.accept_all)))
      (snd (Swa.get_sp E "acme-swa-deployer-sp"
              (snd (Swa.read_settings Sample.acme
                      (initial Sample.accept_all)))))
      (VStr "app-1") (VStr "obj-1") (VStr "11111111-aaaa") _ _).
    + vm_compute. reflexivity.
    + vm_compute. reflexivity.
Defined.

(** C4, as stated, fails: with a tenant id in the defaults, an operator who
    leaves the tenant-id prompt empty gets the default, and the printed
    [tenantId] is that default, not the tenant id the lookup returned. *)
Lemma tenant_backfill_not_unconditional :
  ~ (forall (E : env) (answer1 answer2 : string) (rest : list string)
            (cfg : gmap string string) (i : KeyVault.settings)
            (s1 s2 : state) (cid oid t : value),
        defaults_file E = FileParsed cfg ->
        Str.strip answer2 = "" ->
        KeyVault.read_settings cfg (initial (answer1 :: answer2 :: rest))
          = (Ret i, s1) ->
        KeyVault.get_sp E (KeyVault.sp_name i) s1
          = (Ret (true, cid, oid, t), s2) ->
        forall items,
          In items (Obs.printed_json
            (trace (snd (KeyVault.main E (initial (answer1 :: answer2 :: rest)))))) ->
          lookup_item "tenantId" items = Some t).
Proof.
  intros H.
  set (E := Sample.world true (FileParsed Sample.acme_with_tenant)).
  assert (Hx : lookup_item "tenantId" (Sample.reused "tenant-0")
               = Some (VStr "11111111-aaaa")).
  { refine (H E "" "" [""; ""; ""; ""; ""; ""; ""] Sample.acme_with_tenant
      Sample.kv_with_tenant
      (snd (KeyVault.read_settings Sample.acme_with_tenant
              (initial Sample.accept_all)))
      (snd (KeyVault.get_sp E "acme-repo-sp"
              (snd (KeyVault.read_settings Sample.acme_with_tenant
                      (initial Sample.accept_all)))))
      (VStr "app-1") (VStr "obj-1") (VStr "11111111-aaaa") _ _ _ _
      (Sample.reused "tenant-0") _).
    - reflexivity.
    - reflexivity.
    - vm_compute. reflexivity.
    - vm_compute. reflexivity.
    - vm_compute. left. reflexivity. }
  vm_compute in Hx. discriminate Hx.
Qed.

Lemma swa_lookup_and_creation_identifiers_witness :
  (exists c, VStr "app-1" = VStr c
     /\ trace (snd (Swa.get_sp (Sample.world true (FileParsed Sample.acme))
                      "acme-swa-deployer-sp" (initial [])))
        = trace (initial [])
            ++ [EvRun ["az"; "ad"; "sp"; "show"; "--id";
                       "http://" +:+ "acme-swa-deployer-sp"];
                EvRun ["az"; "ad"; "sp"; "show"; "--id"; c; "--query";
                       "appOwnerOrganizationId"; "-o"; "tsv"]])
  /\ (exists c, VStr "app-2" = VStr c
     /\ trace (snd (Swa.create_sp (Sample.world true (FileParsed Sample.acme))
                      "acme-swa-deployer-sp" (initial [])))
        = trace (initial [])
            ++ [EvRun (Obs.creation_argv "acme-swa-deployer-sp");
                EvRun ["az"; "ad"; "sp"; "show"; "--id"; c; "--query"; "id";
                       "-o"; "tsv"]]).
Proof.
  set (E := Sample.world true (FileParsed Sample.acme)).
  pose proof (swa_lookup_and_creation_identifiers E "acme-swa-deployer-sp"
                (initial [])) as (_ & _ & _ & Hget & Hcreate).
  split.
  - refine (Hget (VStr "app-1") (VStr "obj-1") (VStr "11111111-aaaa")
              (snd (Swa.get_sp E "acme-swa-deployer-sp" (initial []))) _).
    vm_compute. reflexivity.
  - refine (Hcreate (VStr "app-2") (VStr "pw-2") (VStr "tenant-2") (VStr "obj-2")
              (snd (Swa.create_sp E "acme-swa-deployer-sp" (initial []))) _).
    vm_compute. reflexivity.
Defined.

(** The loop stops at the first assignment that fails: with two matching
    secrets and a shell in which every command fails, one assignment is
    issued and the process exits with status 1. *)
Example prefix_scope_stops_at_first_failure :
  let run := KeyVault.main (Sample.world_shell_down true (FileParsed Sample.acme))
               (initial Sample.pick_prefix) in
  fst run = Exit 1
  /\ List.filter Obs.is_role_assignment (trace (snd run))
     = [EvSystem "az role assignment create --assignee obj-1 --role Key Vault Secrets User --scope /subscriptions/sub-1/resourceGroups/rg-1/providers/Microsoft.KeyVault/vaults/kv-1/secrets/dev-a"].
Proof. vm_compute. split; reflexivity. Qed.

(** No secret matches the prefix: the process exits with status 1 after
    the listing and issues no role assignment. *)
Example prefix_scope_without_match :
  let run := KeyVault.main (Sample.world_empty_vault (FileParsed Sample.acme))
               (initial Sample.pick_prefix) in
  fst run = Exit 1
  /\ List.filter Obs.is_role_assignment (trace (snd run)) = []
  /\ List.filter Obs.is_secret_listing (trace (snd run))
     = [EvRun ["az"; "keyvault"; "secret"; "list"; "--vault-name"; "kv-1";
               "--query"; "[?starts_with(name, 'dev-')].name"; "-o"; "tsv"]].
Proof. vm_compute. repeat split. Qed.

(** The reuse path end to end: the principal is found, the operator
    leaves every prompt empty, and the run prints the tenant id that the
    lookup returned. *)
Example reuse_prints_lookup_tenant :
  Obs.printed_json
    (trace (snd (Swa.main (Sample.world true (FileParsed Sample.acme))
                   (initial Sample.accept_all))))
  = [Sample.reused "11111111-aaaa"]
  /\ Obs.printed_json
       (trace (snd (KeyVault.main (Sample.world true (FileParsed Sample.acme))
                      (initial Sample.accept_all))))
     = [Sample.reused "11111111-aaaa"].
Proof. vm_compute. split; reflexivity. Qed.

(** The creation path end to end in the Static Web App script: one
    creation call, one object-id lookup, one role assignment at the scope of
    the resource group, and the created client id in the printed
    dictionary. *)
Example swa_creation_run :
  let run := Swa.main (Sample.world false (FileParsed Sample.acme))
               (initial Sample.accept_all) in
  fst run = Ret tt
  /\ List.filter Obs.is_creation (trace (snd run))
     = [EvRun (Obs.creation_argv "acme-swa-deployer-sp")]
  /\ List.filter (Obs.is_run_of ["ad"; "sp"; "show"; "--id"; "app-2"]) (trace (snd run))
     = [EvRun (Obs.object_id_query_argv "app-2")]
  /\ List.filter Obs.is_role_assignment (trace (snd run))
     = [EvRun (Obs.assignment_argv "obj-2" "Contributor"
                 "/subscriptions/sub-1/resourceGroups/rg-core")]
  /\ Obs.printed_json (trace (snd run))
     = [[("clientId", VStr "app-2"); ("clientSecret", VStr "pw-2");
         ("tenantId", VStr "tenant-2"); ("subscriptionId", VStr "sub-1")]].
Proof. vm_compute. repeat split. Qed.

(** * Further properties of the scripts *)

(** ** The exit status *)
Section ExitStatus.
Import Obs.

Lemma exits_ret {A} (a : A) : exits_with_one (ret a).
Proof. intros s c s' H. discriminate H. Qed.

Lemma exits_raise {A} e : exits_with_one (@raise A e).
Proof. intros s c s' H. discriminate H. Qed.

Lemma exits_sys_exit {A} : exits_with_one (@sys_exit A 1).
Proof. intros s c s' H. inversion H. reflexivity. Qed.

Lemma exits_bind {A B} (m : M A) (k : A -> M B) :
  exits_with_one m -> (forall a, exits_with_one (k a)) ->
  exits_with_one (bind m k).
Proof.
  intros Hm Hk s c s'. unfold bind.
  destruct (m s) as [[a|c0|e] s0] eqn:Hms; intros H.
  - exact (Hk a s0 c s' H).
  - inversion H; subst. exact (Hm s c s' Hms).
  - discriminate H.
Qed.

Lemma exits_try_except {A} (body handler : M A) :
  exits_with_one body -> exits_with_one handler ->
  exits_with_one (try_except body handler).
Proof.
  intros Hb Hh s c s'. unfold try_except.
  destruct (body s) as [[a|c0|e] s0] eqn:Hbs; intros H.
  - discriminate H.
  - inversion H; subst. exact (Hb s c s' Hbs).
  - exact (Hh s0 c s' H).
Qed.

Lemma exits_print line : exits_with_one (print line).
Proof. intros s c s' H. discriminate H. Qed.

Lemma exits_input shown : exits_with_one (input shown).
Proof. intros s c s'. unfold input. destruct (stdin s); discriminate. Qed.

Lemma exits_subprocess_run E cmd : exits_with_one (subprocess_run E cmd).
Proof.
  intros s c s'. unfold subprocess_run. destruct (strs cmd); discriminate.
Qed.

Lemma exits_os_system E cmdline : exits_with_one (os_system E cmdline).
Proof. intros s c s' H. discriminate H. Qed.

Lemma exits_loads E text : exits_with_one (loads E text).
Proof.
  intros s c s'. unfold loads. destruct (json_loads E text); discriminate.
Qed.

Lemma exits_subscript d key : exits_with_one (subscript d key).
Proof.
  intros s c s'. unfold subscript.
  destruct d; try discriminate. destruct (lookup_item key items); discriminate.
Qed.

Lemma exits_join_cmd cmd : exits_with_one (join_cmd cmd).
Proof.
  intros s c s'. unfold join_cmd. destruct (strs cmd); discriminate.
Qed.

Lemma exits_for_each {A} (xs : list A) (body : A -> M unit) :
  (forall x, exits_with_one (body x)) -> exits_with_one (for_each xs body).
Proof.
  intros H. induction xs as [|x xs IH]; simpl.
  - apply exits_ret.
  - apply exits_bind; auto.
Qed.
End ExitStatus.

(** Decomposes a goal [exits_with_one m] along the structure of [m]. *)
Ltac exits_step :=
  lazymatch goal with
  | |- Obs.exits_with_one (bind _ _) => apply exits_bind; [|intros ?]
  | |- Obs.exits_with_one (ret _) => apply exits_ret
  | |- Obs.exits_with_one (sys_exit 1) => apply exits_sys_exit
  | |- Obs.exits_with_one (raise _) => apply exits_raise
  | |- Obs.exits_with_one (loads _ _) => apply exits_loads
  | |- Obs.exits_with_one (subscript _ _) => apply exits_subscript
  | |- Obs.exits_with_one (join_cmd _) => apply exits_join_cmd
  | |- Obs.exits_with_one (print _) => apply exits_print
  | |- Obs.exits_with_one (input _) => apply exits_input
  | |- Obs.exits_with_one (os_system _ _) => apply exits_os_system
  | |- Obs.exits_with_one (subprocess_run _ _) => apply exits_subprocess_run
  | |- Obs.exits_with_one (try_except _ _) => apply exits_try_except
  | |- Obs.exits_with_one (for_each _ _) => apply exits_for_each; intros ?
  | |- Obs.exits_with_one (if ?b then _ else _) => destruct b
  | |- Obs.exits_with_one (match ?x with _ => _ end) => destruct x
  | |- Obs.exits_with_one (let '(_, _) := ?x in _) => destruct x
  end.
Ltac exits_go := repeat exits_step.

Lemma kv_main_exits_with_one E : Obs.exits_with_one (KeyVault.main E).
Proof.
  unfold KeyVault.main, KeyVault.load_defaults, KeyVault.read_settings,
    KeyVault.get_sp, KeyVault.reuse_or_create, KeyVault.grant_access,
    KeyVault.report, KeyVault.create_sp, KeyVault.reset_sp_secret,
    KeyVault.get_secret_names, KeyVault.assign_rbac, KeyVault.prompt,
    KeyVault.az.
  exits_go.
Qed.

Lemma swa_main_exits_with_one E : Obs.exits_with_one (Swa.main E).
Proof.
  unfold Swa.main, Swa.load_defaults, Swa.read_settings,
    Swa.get_sp, Swa.reuse_or_create, Swa.grant_access, Swa.offer_swa,
    Swa.report, Swa.create_sp, Swa.reset_sp_secret, Swa.create_swa_app,
    Swa.assign_rbac, Swa.prompt, Swa.az.
  exits_go.
Qed.

(** X1.  Whatever the defaults file, the operator and the tool do, each
    script as a program ends with exit status 0 or 1, and with status 0
    exactly when [main] returns: every [sys.exit] in it passes 1, and an
    uncaught exception gives status 1. *)
Theorem exit_status_zero_or_one (E : env) (s : state) :
  (exit_code (fst (KeyVault.script E s)) = 0
   \/ exit_code (fst (KeyVault.script E s)) = 1)
  /\ (exit_code (fst (KeyVault.script E s)) = 0
      <-> fst (KeyVault.script E s) = Ret tt)
  /\ (exit_code (fst (Swa.script E s)) = 0
      \/ exit_code (fst (Swa.script E s)) = 1)
  /\ (exit_code (fst (Swa.script E s)) = 0
      <-> fst (Swa.script E s) = Ret tt).
Proof.
  assert (Hkv : Obs.exits_with_one (KeyVault.script E)).
  { unfold KeyVault.script. destruct (toml_installed E).
    - apply kv_main_exits_with_one.
    - exits_go. }
  assert (Hswa : Obs.exits_with_one (Swa.script E)).
  { unfold Swa.script. destruct (toml_installed E).
    - apply swa_main_exits_with_one.
    - exits_go. }
  specialize (Hkv s). specialize (Hswa s).
  destruct (KeyVault.script E s) as [[[]|c|e] s1];
    destruct (Swa.script E s) as [[[]|c'|e'] s2]; simpl;
    try rewrite (Hkv _ _ eq_refl); try rewrite (Hswa _ _ eq_refl);
    repeat split; auto; try discriminate.
Qed.

(** ** The printed credentials *)

Lemma printed_json_app a b :
  Obs.printed_json (a ++ b) = Obs.printed_json a ++ Obs.printed_json b.
Proof.
  induction a as [|e a IH]; simpl; [reflexivity|].
  destruct (Obs.json_of e); simpl; rewrite IH; reflexivity.
Qed.

Lemma printed_json_none l :
  Forall (fun e => Obs.json_of e = None) l -> Obs.printed_json l = [].
Proof.
  induction 1 as [|e l He _ IH]; simpl; [reflexivity|]. rewrite He. exact IH.
Qed.

Lemma reports_nothing_emits {A} (m : M A) :
  Obs.emits (fun e => Obs.json_of e = None) m -> Obs.reports_nothing m.
Proof.
  intros Hm s Hs. destruct (Hm s) as [added [Htr Hadded]].
  rewrite Htr, printed_json_app, Hs, (printed_json_none _ Hadded). reflexivity.
Qed.

Lemma reports_bind {A B} (m : M A) (k : A -> M B) :
  Obs.reports_nothing m -> (forall a, Obs.reports_on_return (k a)) ->
  Obs.reports_on_return (bind m k).
Proof.
  intros Hm Hk s Hs. specialize (Hm s Hs). unfold bind.
  destruct (m s) as [[a|c|e] s']; simpl in *; auto.
  apply Hk. exact Hm.
Qed.

Lemma kv_report_reports i cid secret tenant :
  Obs.reports_on_return (KeyVault.report i cid secret tenant).
Proof.
  intros s Hs. simpl. exists cid, secret, tenant, (KeyVault.subscription_id i).
  rewrite <- !app_assoc, printed_json_app, Hs. reflexivity.
Qed.

Lemma swa_report_reports i cid secret tenant :
  Obs.reports_on_return (Swa.report i cid secret tenant).
Proof.
  intros s Hs. simpl. exists cid, secret, tenant, (Swa.subscription_id i).
  rewrite <- !app_assoc, printed_json_app, Hs. reflexivity.
Qed.

Lemma kv_main_reports E : Obs.reports_on_return (KeyVault.main E).
Proof.
  unfold KeyVault.main.
  apply reports_bind; [|intros defaults].
  { apply reports_nothing_emits, kv_load_defaults_emits; reflexivity. }
  apply reports_bind; [|intros i].
  { apply reports_nothing_emits, kv_read_settings_emits; reflexivity. }
  apply reports_bind; [|intros lookup].
  { apply reports_nothing_emits, kv_get_sp_emits; reflexivity. }
  apply reports_bind; [|intros [[[cid secret] tenant] oid]].
  { apply reports_nothing_emits, kv_reuse_or_create_emits; reflexivity. }
  apply reports_bind; [|intros _; apply kv_report_reports].
  apply reports_nothing_emits, kv_grant_access_emits; reflexivity.
Qed.

Lemma swa_main_reports E : Obs.reports_on_return (Swa.main E).
Proof.
  unfold Swa.main.
  apply reports_bind; [|intros defaults].
  { apply reports_nothing_emits, swa_load_defaults_emits; reflexivity. }
  apply reports_bind; [|intros i].
  { apply reports_nothing_emits, swa_read_settings_emits; reflexivity. }
  apply reports_bind; [|intros lookup].
  { apply reports_nothing_emits, swa_get_sp_emits; reflexivity. }
  apply reports_bind; [|intros [[[cid secret] tenant] oid]].
  { apply reports_nothing_emits, swa_reuse_or_create_emits; reflexivity. }
  apply reports_bind; [|intros _].
  { apply reports_nothing_emits, swa_grant_access_emits; reflexivity. }
  apply reports_bind; [|intros _; apply swa_report_reports].
  apply reports_nothing_emits, swa_offer_swa_emits; reflexivity.
Qed.

(** X2.  A run of either script prints the credentials through
    [json.dumps] exactly when [main] returns, and then once, as a
    dictionary with the keys [clientId], [clientSecret], [tenantId] and
    [subscriptionId] in this order; a run that ends in [sys.exit] or an
    exception prints no dictionary at all. *)
Theorem credentials_printed_only_on_completion (E : env)
    (lines : list string) :
  match fst (KeyVault.main E (initial lines)) with
  | Ret _ =>
      exists cid secret tenant sub,
        Obs.printed_json (trace (snd (KeyVault.main E (initial lines))))
        = [[("clientId", cid); ("clientSecret", secret);
            ("tenantId", tenant); ("subscriptionId", VStr sub)]]
  | _ => Obs.printed_json (trace (snd (KeyVault.main E (initial lines)))) = []
  end
  /\ match fst (Swa.main E (initial lines)) with
     | Ret _ =>
         exists cid secret tenant sub,
           Obs.printed_json (trace (snd (Swa.main E (initial lines))))
           = [[("clientId", cid); ("clientSecret", secret);
               ("tenantId", tenant); ("subscriptionId", VStr sub)]]
     | _ => Obs.printed_json (trace (snd (Swa.main E (initial lines)))) = []
     end.
Proof.
  split.
  - exact (kv_main_reports E (initial lines) eq_refl).
  - exact (swa_main_reports E (initial lines) eq_refl).
Qed.

(** ** What the scripts run *)

Lemma kv_assign_rbac_permitted E object_id scope :
  Obs.emits Obs.kv_permitted
    (KeyVault.assign_rbac E object_id "Key Vault Secrets User" scope).
Proof.
  unfold KeyVault.assign_rbac, KeyVault.az, join_cmd.
  destruct object_id; simpl; repeat emits_follow.
  simpl. eexists _, _. reflexivity.
Qed.

Ltac permitted := intros; simpl; first [exact I | eexists; reflexivity].

Lemma kv_grant_access_permitted E i object_id :
  Obs.emits Obs.kv_permitted (KeyVault.grant_access E i object_id).
Proof.
  unfold KeyVault.grant_access.
  repeat lazymatch goal with
         | |- Obs.emits _ (KeyVault.get_secret_names _ _ _) =>
             apply kv_get_secret_names_emits
         | |- Obs.emits _ (KeyVault.assign_rbac _ _ _ _) =>
             apply kv_assign_rbac_permitted
         | |- _ => emits_step
         end; permitted.
Qed.

Lemma kv_main_permitted E : Obs.emits Obs.kv_permitted (KeyVault.main E).
Proof.
  unfold KeyVault.main.
  repeat lazymatch goal with
         | |- Obs.emits _ (KeyVault.load_defaults _) =>
             apply kv_load_defaults_emits
         | |- Obs.emits _ (KeyVault.read_settings _) =>
             apply kv_read_settings_emits
         | |- Obs.emits _ (KeyVault.get_sp _ _) => apply kv_get_sp_emits
         | |- Obs.emits _ (KeyVault.reuse_or_create _ _ _) =>
             apply kv_reuse_or_create_emits
         | |- Obs.emits _ (KeyVault.grant_access _ _ _) =>
             apply kv_grant_access_permitted
         | |- Obs.emits _ (KeyVault.report _ _ _ _) => apply kv_report_emits
         | |- _ => emits_step
         end; permitted.
Qed.

Lemma swa_main_allowed E :
  Obs.emits (fun e => Obs.swa_allowed e = true) (Swa.main E).
Proof.
  unfold Swa.main.
  repeat first [ apply swa_load_defaults_emits | apply swa_read_settings_emits
               | apply swa_get_sp_emits | apply swa_reuse_or_create_emits
               | apply swa_grant_access_emits | apply swa_offer_swa_emits
               | apply swa_report_emits | emits_step ]; reflexivity.
Qed.

(** X3.  Every [subprocess.run] call of either script passes an argument
    vector whose first word is [az].  The Static Web App script never calls
    [os.system].  The Key Vault script calls it for role assignments only,
    each time with the line
    [az role assignment create --assignee <id> --role Key Vault Secrets User --scope <scope>],
    the ten words joined by single spaces for some texts [<id>] and
    [<scope>].  (The line is not quoted, and what the shell starts for it is
    not part of this statement.) *)
Theorem external_calls_shape (E : env) (lines : list string) :
  Forall Obs.kv_permitted (trace (snd (KeyVault.script E (initial lines))))
  /\ Forall (fun e => Obs.swa_allowed e = true)
       (trace (snd (Swa.script E (initial lines))))
  /\ List.filter Obs.is_shell (trace (snd (Swa.script E (initial lines)))) = [].
Proof.
  assert (Hkv : Obs.emits Obs.kv_permitted (KeyVault.script E)).
  { unfold KeyVault.script. destruct (toml_installed E).
    - apply kv_main_permitted.
    - emits_go; exact I. }
  assert (Hswa : Obs.emits (fun e => Obs.swa_allowed e = true) (Swa.script E)).
  { unfold Swa.script. destruct (toml_installed E).
    - apply swa_main_allowed.
    - emits_go; reflexivity. }
  destruct (Hkv (initial lines)) as [kv [-> Hk]].
  destruct (Hswa (initial lines)) as [swa [-> Hs]].
  simpl. repeat split; auto.
  apply filter_none. eapply Forall_impl; [exact Hs|].
  intros [l|t|argv|c]; simpl; auto; discriminate.
Qed.

(** ** Input that ends too early *)

Lemma kv_read_settings_eof cfg lines :
  (length lines < 6)%nat ->
  exists s', KeyVault.read_settings cfg (initial lines) = (Raise EOFError, s')
             /\ List.filter Obs.is_external (trace s') = []
             /\ length (List.filter (fun e => match e with EvInput _ => true | _ => false end)
                          (trace s')) = S (length lines).
Proof.
  unfold KeyVault.read_settings.
  generalize (default "pfx" (cfg !! "org_prefix")) as org.
  generalize (default "" (cfg !! "azure_tenant_id")) as ten.
  generalize (default "" (cfg !! "azure_subscription_id")) as sub.
  generalize (default "" (cfg !! "azure_resource_group")) as rg.
  generalize (default "" (cfg !! "azure_keyvault_name")) as kv.
  intros kv rg sub ten org Hlen.
  destruct lines as [|l1 [|l2 [|l3 [|l4 [|l5 [|l6 rest]]]]]];
    simpl in Hlen; try lia;
    eexists; (split; [reflexivity|]); split; reflexivity.
Qed.

Lemma swa_read_settings_eof cfg lines :
  (length lines < 4)%nat ->
  exists s', Swa.read_settings cfg (initial lines) = (Raise EOFError, s')
             /\ List.filter Obs.is_external (trace s') = []
             /\ length (List.filter (fun e => match e with EvInput _ => true | _ => false end)
                          (trace s')) = S (length lines).
Proof.
  unfold Swa.read_settings.
  generalize (default "pfx" (cfg !! "org_prefix")) as org.
  generalize (default "" (cfg !! "azure_tenant_id")) as ten.
  generalize (default "" (cfg !! "azure_subscription_id")) as sub.
  intros sub ten org Hlen.
  destruct lines as [|l1 [|l2 [|l3 [|l4 rest]]]];
    simpl in Hlen; try lia;
    eexists; (split; [reflexivity|]); split; reflexivity.
Qed.

(** X4.  When the operator's input ends before the settings are complete
    (fewer than six lines for the Key Vault script, fewer than four for the
    Static Web App script), the run ends in the [EOFError] of [input]: it
    has shown one prompt more than there were lines, and it has started no
    external command. *)
Theorem input_ends_before_any_command (E : env) (cfg : gmap string string)
    (lines : list string) :
  defaults_file E = FileParsed cfg ->
  let prompts := fun tr =>
    length (List.filter (fun e => match e with EvInput _ => true | _ => false end) tr) in
  ((length lines < 6)%nat ->
     fst (KeyVault.main E (initial lines)) = Raise EOFError
     /\ List.filter Obs.is_external
          (trace (snd (KeyVault.main E (initial lines)))) = []
     /\ prompts (trace (snd (KeyVault.main E (initial lines)))) = S (length lines))
  /\ ((length lines < 4)%nat ->
     fst (Swa.main E (initial lines)) = Raise EOFError
     /\ List.filter Obs.is_external
          (trace (snd (Swa.main E (initial lines)))) = []
     /\ prompts (trace (snd (Swa.main E (initial lines)))) = S (length lines)).
Proof.
  intros Hfile prompts. split; intros Hlen.
  - destruct (kv_read_settings_eof cfg lines Hlen) as (s' & Hread & Hext & Hin).
    unfold KeyVault.main.
    rewrite (bind_ret _ _ _ _ _ (kv_load_ok E cfg _ Hfile)).
    rewrite (bind_raise _ _ _ _ _ Hread). simpl. auto.
  - destruct (swa_read_settings_eof cfg lines Hlen) as (s' & Hread & Hext & Hin).
    unfold Swa.main.
    rewrite (bind_ret _ _ _ _ _ (swa_load_ok E cfg _ Hfile)).
    rewrite (bind_raise _ _ _ _ _ Hread). simpl. auto.
Qed.

Lemma input_ends_before_any_command_witness :
  fst (KeyVault.main (Sample.world true (FileParsed Sample.acme))
         (initial ["repo"; ""; ""])) = Raise EOFError
  /\ fst (Swa.main (Sample.world true (FileParsed Sample.acme))
            (initial ["repo"; ""; ""])) = Raise EOFError.
Proof.
  pose proof (input_ends_before_any_command
                (Sample.world true (FileParsed Sample.acme)) Sample.acme
                ["repo"; ""; ""] eq_refl) as [Hkv Hswa].
  split.
  - apply Hkv. simpl. lia.
  - apply Hswa. simpl. lia.
Defined.

(** ** How the lookups end *)

(** Case analysis on every test in the goal, innermost first. *)
Ltac split_goal :=
  repeat (simpl;
          match goal with
          | |- context [match ?x with _ => _ end] =>
              lazymatch x with
              | context [match _ with _ => _ end] => fail
              | _ => let Hx := fresh "Hx" in destruct x eqn:Hx
              end
          end).

(** X5.  The lookup of the Key Vault script never lets an exception out:
    it returns or ends the process with status 1.  When it reports found,
    the client id and the tenant id it returns are text; when it reports
    not found, the three ids are [None]. *)
Theorem kv_get_sp_outcome (E : env) (name : string) (s : state) :
  match fst (KeyVault.get_sp E name s) with
  | Ret (found, client_id, object_id, tenant_id) =>
      if found then
        (exists c, client_id = VStr c) /\ (exists t, tenant_id = VStr t)
      else (client_id, object_id, tenant_id) = (VNone, VNone, VNone)
  | Exit code => code = 1
  | Raise _ => False
  end.
Proof.
  unfold KeyVault.get_sp, try_except, KeyVault.az, bind, subprocess_run,
    loads, subscript, join_cmd, print, ret, sys_exit, raise,
    KeyVault.not_found.
  split_goal; simpl; eauto.
Qed.

(** X6.  A lookup command that succeeds with output that is not a JSON
    document, or is a dictionary without [appId], makes the Key Vault
    script's lookup report not found after that one call, whereas the
    Static Web App script's lookup, which has no handler, ends in the
    decoder's exception or in [KeyError]. *)
Theorem lookup_output_not_a_principal (E : env) (name : string) (s : state) :
  let unusable := fun text =>
    json_loads E text = None
    \/ exists items, json_loads E text = Some (VDict items)
                     /\ lookup_item "appId" items = None in
  (forall r, r = run_answer E (trace s) (Obs.lookup_argv name) ->
     returncode r = 0 ->
     Str.strip (stdout r) <> "" ->
     unusable (Str.strip (stdout r)) ->
     KeyVault.get_sp E name s
     = (Ret KeyVault.not_found, emit (EvRun (Obs.lookup_argv name)) s))
  /\ (forall r,
     r = run_answer E (trace s) (Obs.lookup_argv ("http://" +:+ name)) ->
     Str.strip (stdout r) <> "" ->
     unusable (Str.strip (stdout r)) ->
     Swa.get_sp E name s
     = (Raise (match json_loads E (Str.strip (stdout r)) with
               | None => JSONDecodeError
               | Some _ => KeyError
               end),
        emit (EvRun (Obs.lookup_argv ("http://" +:+ name))) s)).
Proof.
  intros unusable. split.
  - intros r -> Hrc Htext Hbad.
    unfold KeyVault.get_sp, try_except, KeyVault.az, bind, subprocess_run.
    simpl. unfold Obs.lookup_argv in *. rewrite Hrc. simpl.
    destruct (Str.strip _) as [|ch text] eqn:Hstrip; [congruence|].
    unfold loads, subscript. simpl.
    destruct Hbad as [Hbad|[items [Hbad Hkey]]]; rewrite Hbad; simpl.
    + reflexivity.
    + rewrite Hkey. reflexivity.
  - intros r -> Htext Hbad.
    unfold Swa.get_sp, Swa.az, bind, subprocess_run.
    simpl. unfold Obs.lookup_argv in *.
    destruct (stdout _) as [|c0 out] eqn:Hout; [exfalso; apply Htext; reflexivity|].
    simpl Str.is_empty. cbv iota.
    destruct (Str.strip (String c0 out)) as [|ch text] eqn:Hstrip; [congruence|].
    unfold loads, subscript. simpl.
    destruct Hbad as [Hbad|[items [Hbad Hkey]]]; rewrite Hbad; simpl.
    + reflexivity.
    + rewrite Hkey. reflexivity.
Qed.

Lemma lookup_output_not_a_principal_witness :
  KeyVault.get_sp (Sample.world_garbled (FileParsed Sample.acme))
    "acme-repo-sp" (initial [])
  = (Ret KeyVault.not_found,
     emit (EvRun (Obs.lookup_argv "acme-repo-sp")) (initial []))
  /\ Swa.get_sp (Sample.world_garbled (FileParsed Sample.acme))
       "acme-repo-sp" (initial [])
     = (Raise JSONDecodeError,
        emit (EvRun (Obs.lookup_argv ("http://" +:+ "acme-repo-sp"))) (initial [])).
Proof.
  pose proof (lookup_output_not_a_principal
                (Sample.world_garbled (FileParsed Sample.acme))
                "acme-repo-sp" (initial [])) as [Hkv Hswa].
  split.
  - apply (Hkv _ eq_refl).
    + reflexivity.
    + vm_compute. discriminate.
    + left. vm_compute. reflexivity.
  - apply (Hswa _ eq_refl).
    + vm_compute. discriminate.
    + left. vm_compute. reflexivity.
Defined.

(** ** Commands that succeed without output *)

(** X7.  A creation call that exits with status 0 and prints nothing
    (or whitespace only) makes [create_sp] of either script print its
    failure message and end the process with status 1; the object-id lookup
    is not attempted. *)
Theorem creation_without_output_is_fatal (E : env) (name : string)
    (s : state) (r : completed) :
  r = run_answer E (trace s) (Obs.creation_argv name) ->
  returncode r = 0 ->
  Str.strip (stdout r) = "" ->
  KeyVault.create_sp E name s
  = (Exit 1,
     {| stdin := stdin s;
        trace := trace s ++ [EvRun (Obs.creation_argv name);
                             EvPrint [Text "❌ Failed to create Service Principal"]] |})
  /\ Swa.create_sp E name s
     = (Exit 1,
        {| stdin := stdin s;
           trace := trace s ++ [EvRun (Obs.creation_argv name);
                                EvPrint [Text "❌ No output returned by az command"]] |}).
Proof.
  intros -> Hrc Hstrip. unfold Obs.creation_argv in *.
  unfold KeyVault.create_sp, Swa.create_sp, KeyVault.az, Swa.az, bind,
    subprocess_run. simpl. rewrite Hrc, Hstrip. simpl.
  split.
  - unfold emit. simpl. rewrite <- app_assoc. reflexivity.
  - destruct (stdout _); simpl; unfold emit; simpl;
      rewrite <- app_assoc; reflexivity.
Qed.

Lemma creation_without_output_is_fatal_witness :
  fst (KeyVault.create_sp (Sample.world_garbled (FileParsed Sample.acme))
         "acme-repo-sp" (initial [])) = Exit 1
  /\ fst (Swa.create_sp (Sample.world_garbled (FileParsed Sample.acme))
            "acme-repo-sp" (initial [])) = Exit 1.
Proof.
  destruct (creation_without_output_is_fatal
              (Sample.world_garbled (FileParsed Sample.acme))
              "acme-repo-sp" (initial []) _ eq_refl) as [Hkv Hswa].
  - reflexivity.
  - vm_compute. reflexivity.
  - rewrite Hkv, Hswa. split; reflexivity.
Defined.

(** X8.  When the principal exists and the credential reset exits with
    status 0 without printing a secret, the Key Vault script prints its
    failure message and ends the process with status 1 before any role
    assignment, whereas the Static Web App script has no such test and goes
    on with an empty secret ([None] when nothing at all was printed). *)
Theorem reset_without_secret (E : env) (c : string) (oid t : value)
    (s : state) :
  (forall (i : KeyVault.settings) r,
      let announce :=
        EvPrint [Text ("✅ Service Principal '" +:+ KeyVault.sp_name i
                         +:+ "' exists. Reusing it.")] in
      r = run_answer E (trace s ++ [announce]) (Obs.reset_argv c) ->
      returncode r = 0 ->
      Str.strip (stdout r) = "" ->
      KeyVault.reuse_or_create E i (true, VStr c, oid, t) s
      = (Exit 1,
         {| stdin := stdin s;
            trace := trace s ++ [announce; EvRun (Obs.reset_argv c);
                                 EvPrint [Text "❌ Failed to reset SP secret"]] |}))
  /\ (forall (i : Swa.settings) r,
      let announce :=
        EvPrint [Text ("✅ Service Principal '" +:+ Swa.sp_name i
                         +:+ "' already exists. Reusing it.")] in
      r = run_answer E (trace s ++ [announce]) (Obs.reset_argv c) ->
      returncode r = 0 ->
      Str.strip (stdout r) = "" ->
      Swa.reuse_or_create E i (true, VStr c, oid, t) s
      = (Ret (VStr c,
              (if Str.is_empty (stdout r) then VNone else VStr ""),
              (if Str.is_empty (Swa.tenant_id i) then t
               else VStr (Swa.tenant_id i)),
              oid),
         {| stdin := stdin s;
            trace := trace s ++ [announce; EvRun (Obs.reset_argv c)] |})).
Proof.
  split.
  - intros i r announce Hr Hrc Hstrip. unfold announce in *. clear announce.
    subst r. unfold Obs.reset_argv in *.
    unfold KeyVault.reuse_or_create, KeyVault.reset_sp_secret, KeyVault.az,
      bind, subprocess_run, print. simpl. rewrite Hrc, Hstrip. simpl.
    unfold emit. simpl. rewrite <- !app_assoc. reflexivity.
  - intros i r announce Hr Hrc Hstrip. unfold announce in *. clear announce.
    subst r. unfold Obs.reset_argv in *.
    unfold Swa.reuse_or_create, Swa.reset_sp_secret, Swa.az,
      bind, subprocess_run, print. simpl. rewrite Hrc, Hstrip. simpl.
    destruct (stdout _); simpl; unfold emit; simpl;
      rewrite <- !app_assoc; reflexivity.
Qed.

Lemma reset_without_secret_witness :
  fst (KeyVault.reuse_or_create (Sample.world_silent_reset (FileParsed Sample.acme))
         Sample.kv_accepted Sample.known_principal (initial [])) = Exit 1
  /\ fst (Swa.reuse_or_create (Sample.world_silent_reset (FileParsed Sample.acme))
            Sample.swa_accepted Sample.known_principal (initial []))
     = Ret (VStr "app-1", VStr "", VStr "11111111-aaaa", VStr "obj-1").
Proof.
  destruct (reset_without_secret
              (Sample.world_silent_reset (FileParsed Sample.acme))
              "app-1" (VStr "obj-1") (VStr "11111111-aaaa") (initial []))
    as [Hkv Hswa].
  unfold Sample.known_principal. split.
  - rewrite (Hkv Sample.kv_accepted _ eq_refl); [reflexivity|reflexivity|].
    vm_compute. reflexivity.
  - rewrite (Hswa Sample.swa_accepted _ eq_refl); [reflexivity|reflexivity|].
    vm_compute. reflexivity.
Defined.

(** ** The command line handed to the shell *)

Lemma append_assoc (a b c : string) : (a +:+ b) +:+ c = a +:+ b +:+ c.
Proof.
  induction a as [|x a IH]; [reflexivity|].
  change (String x ((a +:+ b) +:+ c) = String x (a +:+ b +:+ c)).
  f_equal. exact IH.
Qed.

Lemma join_cons sep p q rest :
  Str.join sep (p :: q :: rest) = p +:+ sep +:+ Str.join sep (q :: rest).
Proof. reflexivity. Qed.

(** Joining with spaces does not tell an argument that holds a space from
    two arguments. *)
Lemma join_glue pre a b post :
  Str.join " " (pre ++ (a +:+ " " +:+ b) :: post)
  = Str.join " " (pre ++ a :: b :: post).
Proof.
  induction pre as [|p pre IH].
  - destruct post as [|q post].
    + reflexivity.
    + simpl app. rewrite !join_cons, !append_assoc. reflexivity.
  - destruct pre as [|p' pre].
    + simpl app in *.
      rewrite (join_cons " " p (a +:+ " " +:+ b) post),
        (join_cons " " p a (b :: post)), IH. reflexivity.
    + simpl app in *.
      rewrite (join_cons " " p p' (pre ++ (a +:+ " " +:+ b) :: post)),
        (join_cons " " p p' (pre ++ a :: b :: post)), IH. reflexivity.
Qed.

Lemma strs_map_str l : strs (map VStr l) = Some l.
Proof. induction l as [|x l IH]; simpl; [|rewrite IH]; reflexivity. Qed.

(** X9.  The Key Vault script's invoker in non-capturing mode joins the
    arguments with single spaces and hands the result to the shell without
    quoting: an argument that holds a space gives the same command, and so
    the same run, as the two arguments on either side of that space.  The
    role name of the script, [Key Vault Secrets User], therefore reaches the
    shell as four words. *)
Theorem shell_command_is_not_quoted (E : env) (pre post : list string)
    (a b : string) (s : state) :
  KeyVault.az E (map VStr (pre ++ (a +:+ " " +:+ b) :: post)) false s
  = KeyVault.az E (map VStr (pre ++ a :: b :: post)) false s
  /\ forall object_id scope,
       KeyVault.assign_rbac E (VStr object_id) "Key Vault Secrets User" scope s
       = (KeyVault.az E (map VStr ["role"; "assignment"; "create"; "--assignee";
                                   object_id; "--role"; "Key"; "Vault"; "Secrets";
                                   "User"; "--scope"; scope]) false ;;
          ret tt) s.
Proof.
  assert (Hgen : forall pre post a b,
    KeyVault.az E (map VStr (pre ++ (a +:+ " " +:+ b) :: post)) false s
    = KeyVault.az E (map VStr (pre ++ a :: b :: post)) false s).
  { clear. intros pre post a b.
    unfold KeyVault.az, join_cmd.
    change (VStr "az" :: map VStr ?l) with (map VStr ("az" :: l)).
    rewrite !strs_map_str.
    change ("az" :: pre ++ (a +:+ " " +:+ b) :: post)
      with (("az" :: pre) ++ (a +:+ " " +:+ b) :: post).
    change ("az" :: pre ++ a :: b :: post) with (("az" :: pre) ++ a :: b :: post).
    unfold bind, ret. rewrite join_glue. reflexivity. }
  split; [apply Hgen|].
  intros object_id scope.
  set (head := ["role"; "assignment"; "create"; "--assignee"; object_id; "--role"]).
  assert (Haz :
    KeyVault.az E (map VStr (head ++ ["Key Vault Secrets User"; "--scope"; scope]))
      false s
    = KeyVault.az E (map VStr (head ++ ["Key"; "Vault"; "Secrets"; "User";
                                        "--scope"; scope])) false s).
  { eapply eq_trans;
      [exact (Hgen head ["--scope"; scope] "Key" "Vault Secrets User")|].
    eapply eq_trans;
      [exact (Hgen (head ++ ["Key"]) ["--scope"; scope] "Vault" "Secrets User")|].
    exact (Hgen (head ++ ["Key"; "Vault"]) ["--scope"; scope] "Secrets" "User"). }
  change (bind (KeyVault.az E
                  (map VStr (head ++ ["Key Vault Secrets User"; "--scope"; scope]))
                  false) (fun _ => ret tt) s
          = bind (KeyVault.az E
                    (map VStr (head ++ ["Key"; "Vault"; "Secrets"; "User";
                                        "--scope"; scope])) false)
              (fun _ => ret tt) s).
  unfold bind. rewrite Haz. reflexivity.
Qed.

(** ** Where the printed credentials come from *)

Section AfterPrincipal.
Import Obs.
Variable E : env.
Variables (lines : list string) (cfg : gmap string string).
Variables (lookup : bool * value * value * value).
Variables (client_id client_secret tenant_id object_id : value).
Hypothesis Hfile : defaults_file E = FileParsed cfg.

(** Once the principal is resolved, the Key Vault script prints no other
    dictionary than the one made of the values it holds then. *)
Lemma kv_printed_after_principal (i : KeyVault.settings) (s1 s2 s3 : state) :
  KeyVault.read_settings cfg (initial lines) = (Ret i, s1) ->
  KeyVault.get_sp E (KeyVault.sp_name i) s1 = (Ret lookup, s2) ->
  KeyVault.reuse_or_create E i lookup s2
    = (Ret (client_id, client_secret, tenant_id, object_id), s3) ->
  forall items,
    In items (printed_json (trace (snd (KeyVault.main E (initial lines))))) ->
    items = credential_items client_id client_secret tenant_id
              (KeyVault.subscription_id i).
Proof.
  intros Hread Hget Hsp items Hin.
  rewrite (kv_main_from_grant E lines cfg i s1 s2 s3 lookup _ _ _ _
             Hfile Hread Hget Hsp) in Hin.
  set (P := fun e => forall found, json_of e = Some found ->
              found = credential_items client_id client_secret tenant_id
                        (KeyVault.subscription_id i)).
  assert (Hbefore : Forall P (trace s3)).
  { eapply emits_keeps; [|exact Hsp|].
    { apply kv_reuse_or_create_emits; intros; intros found; discriminate. }
    eapply emits_keeps; [|exact Hget|].
    { apply kv_get_sp_emits; intros; intros found; discriminate. }
    eapply emits_keeps; [|exact Hread|].
    { apply kv_read_settings_emits; intros; intros found; discriminate. }
    constructor. }
  assert (Hrest : emits P (KeyVault.grant_access E i object_id ;;
                           KeyVault.report i client_id client_secret tenant_id)).
  { apply emits_bind; [|intros _].
    - apply kv_grant_access_emits; intros; intros found; discriminate.
    - apply kv_report_emits.
      + intros t found; discriminate.
      + intros found Hfound. inversion Hfound. reflexivity. }
  destruct (Hrest s3) as [added [Htrace Hadded]].
  rewrite Htrace in Hin. apply printed_json_in in Hin.
  destruct Hin as [e [Hin He]].
  assert (Hall : Forall P (trace s3 ++ added)) by (apply Forall_app; auto).
  rewrite Forall_forall in Hall. apply list_elem_of_In in Hin.
  exact (Hall e Hin items He).
Qed.

Lemma swa_main_from_grant (i : Swa.settings) (s1 s2 s3 : state) :
  Swa.read_settings cfg (initial lines) = (Ret i, s1) ->
  Swa.get_sp E (Swa.sp_name i) s1 = (Ret lookup, s2) ->
  Swa.reuse_or_create E i lookup s2
    = (Ret (client_id, client_secret, tenant_id, object_id), s3) ->
  Swa.main E (initial lines)
  = (Swa.grant_access E i object_id ;;
     Swa.offer_swa E i ;;
     Swa.report i client_id client_secret tenant_id) s3.
Proof.
  intros Hread Hget Hsp. unfold Swa.main.
  rewrite (bind_ret _ _ _ _ _ (swa_load_ok E cfg _ Hfile)).
  rewrite (bind_ret _ _ _ _ _ Hread).
  rewrite (bind_ret _ _ _ _ _ Hget).
  rewrite (bind_ret _ _ _ _ _ Hsp).
  reflexivity.
Qed.

Lemma swa_printed_after_principal (i : Swa.settings) (s1 s2 s3 : state) :
  Swa.read_settings cfg (initial lines) = (Ret i, s1) ->
  Swa.get_sp E (Swa.sp_name i) s1 = (Ret lookup, s2) ->
  Swa.reuse_or_create E i lookup s2
    = (Ret (client_id, client_secret, tenant_id, object_id), s3) ->
  forall items,
    In items (printed_json (trace (snd (Swa.main E (initial lines))))) ->
    items = credential_items client_id client_secret tenant_id
              (Swa.subscription_id i).
Proof.
  intros Hread Hget Hsp items Hin.
  rewrite (swa_main_from_grant i s1 s2 s3 Hread Hget Hsp) in Hin.
  set (P := fun e => forall found, json_of e = Some found ->
              found = credential_items client_id client_secret tenant_id
                        (Swa.subscription_id i)).
  assert (Hbefore : Forall P (trace s3)).
  { eapply emits_keeps; [|exact Hsp|].
    { apply swa_reuse_or_create_emits; intros; intros found; discriminate. }
    eapply emits_keeps; [|exact Hget|].
    { apply swa_get_sp_emits; intros; intros found; discriminate. }
    eapply emits_keeps; [|exact Hread|].
    { apply swa_read_settings_emits; intros; intros found; discriminate. }
    constructor. }
  assert (Hrest : emits P (Swa.grant_access E i object_id ;;
                           Swa.offer_swa E i ;;
                           Swa.report i client_id client_secret tenant_id)).
  { apply emits_bind; [|intros _].
    { apply swa_grant_access_emits; intros; intros found; discriminate. }
    apply emits_bind; [|intros _].
    { apply swa_offer_swa_emits; intros; intros found; discriminate. }
    apply swa_report_emits.
    - intros t found; discriminate.
    - intros found Hfound. inversion Hfound. reflexivity. }
  destruct (Hrest s3) as [added [Htrace Hadded]].
  rewrite Htrace in Hin. apply printed_json_in in Hin.
  destruct Hin as [e [Hin He]].
  assert (Hall : Forall P (trace s3 ++ added)) by (apply Forall_app; auto).
  rewrite Forall_forall in Hall. apply list_elem_of_In in Hin.
  exact (Hall e Hin items He).
Qed.
End AfterPrincipal.

(** What a returning [create_sp] read from the creation output. *)
Lemma kv_create_sp_fields E name s cid secret tenant oid s' :
  KeyVault.create_sp E name s = (Ret (cid, secret, tenant, oid), s') ->
  exists created,
    json_loads E (Str.strip (stdout (run_answer E (trace s)
                                       (Obs.creation_argv name))))
    = Some (VDict created)
    /\ lookup_item "clientId" created = Some cid
    /\ lookup_item "clientSecret" created = Some secret
    /\ lookup_item "tenantId" created = Some tenant.
Proof.
  unfold KeyVault.create_sp, KeyVault.az, bind, subprocess_run,
    loads, subscript, join_cmd, print, ret, sys_exit, raise,
    Obs.creation_argv.
  simpl.
  destruct (negb _); [intros H; discriminate H|]. simpl.
  destruct (Str.strip _) as [|ch text]; [intros H; discriminate H|].
  destruct (json_loads E (String ch text)) as [[| | | | |l|created]|];
    simpl; try (intros H; discriminate H).
  destruct (lookup_item "clientId" created) as [v1|] eqn:H1; simpl;
    [|intros H; discriminate H].
  destruct (lookup_item "clientSecret" created) as [v2|] eqn:H2; simpl;
    [|intros H; discriminate H].
  destruct (lookup_item "tenantId" created) as [v3|] eqn:H3; simpl;
    [|intros H; discriminate H].
  intros H. split_run H; inversion H; subst.
  all: exists created; auto.
Qed.

Lemma swa_create_sp_fields E name s cid secret tenant oid s' :
  Swa.create_sp E name s = (Ret (cid, secret, tenant, oid), s') ->
  exists created,
    json_loads E (Str.strip (stdout (run_answer E (trace s)
                                       (Obs.creation_argv name))))
    = Some (VDict created)
    /\ lookup_item "clientId" created = Some cid
    /\ lookup_item "clientSecret" created = Some secret
    /\ lookup_item "tenantId" created = Some tenant.
Proof.
  unfold Swa.create_sp, Swa.az, bind, subprocess_run,
    loads, subscript, join_cmd, print, ret, sys_exit, raise,
    Obs.creation_argv.
  simpl.
  destruct (negb _); [intros H; discriminate H|]. simpl.
  destruct (Str.is_empty _); [intros H; discriminate H|].
  destruct (Str.strip _) as [|ch text]; [intros H; discriminate H|].
  destruct (json_loads E (String ch text)) as [[| | | | |l|created]|];
    simpl; try (intros H; discriminate H).
  destruct (lookup_item "clientId" created) as [v1|] eqn:H1; simpl;
    [|intros H; discriminate H].
  destruct (lookup_item "clientSecret" created) as [v2|] eqn:H2; simpl;
    [|intros H; discriminate H].
  destruct (lookup_item "tenantId" created) as [v3|] eqn:H3; simpl;
    [|intros H; discriminate H].
  intros H. split_run H; inversion H; subst.
  all: exists created; auto.
Qed.

Lemma kv_reuse_not_found_inv E i a b c s r s' :
  KeyVault.reuse_or_create E i (false, a, b, c) s = (Ret r, s') ->
  exists s0,
    KeyVault.create_sp E (KeyVault.sp_name i)
      (emit (EvPrint [Text ("==> Creating Service Principal: "
                              +:+ KeyVault.sp_name i)]) s)
    = (Ret r, s0).
Proof.
  unfold KeyVault.reuse_or_create. cbv iota beta.
  change (bind (print ?l) ?k s) with (k tt (emit (EvPrint l) s)). cbv beta.
  unfold bind at 1.
  destruct (KeyVault.create_sp E _ _) as [[[[[cid sec] ten] oid]|code|e] s0];
    simpl; intros H; inversion H; subst. eauto.
Qed.

Lemma swa_reuse_not_found_inv E i a b c s r s' :
  Swa.reuse_or_create E i (false, a, b, c) s = (Ret r, s') ->
  exists s0,
    Swa.create_sp E (Swa.sp_name i)
      (emit (EvPrint [Text ("==> Creating SP '" +:+ Swa.sp_name i +:+ "'")]) s)
    = (Ret r, s0).
Proof.
  unfold Swa.reuse_or_create. cbv iota beta.
  change (bind (print ?l) ?k s) with (k tt (emit (EvPrint l) s)). cbv beta.
  unfold bind at 1.
  destruct (Swa.create_sp E _ _) as [[[[[cid sec] ten] oid]|code|e] s0];
    simpl; intros H; inversion H; subst. eauto.
Qed.

(** X10.  In a run of either script whose lookup finds the principal, a
    tenant id that the settings hold (the operator's answer, or the default
    when the answer was empty) is the [tenantId] of every dictionary the run
    prints: the tenant id that the lookup returned is not used. *)
Theorem given_tenant_is_kept_on_reuse (E : env) (lines : list string)
    (cfg : gmap string string) :
  defaults_file E = FileParsed cfg ->
  (forall (i : KeyVault.settings) (s1 s2 : state) (cid oid t : value),
      KeyVault.read_settings cfg (initial lines) = (Ret i, s1) ->
      KeyVault.get_sp E (KeyVault.sp_name i) s1 = (Ret (true, cid, oid, t), s2) ->
      KeyVault.tenant_id i <> "" ->
      forall items,
        In items (Obs.printed_json (trace (snd (KeyVault.main E (initial lines))))) ->
        lookup_item "tenantId" items = Some (VStr (KeyVault.tenant_id i)))
  /\ (forall (i : Swa.settings) (s1 s2 : state) (cid oid t : value),
      Swa.read_settings cfg (initial lines) = (Ret i, s1) ->
      Swa.get_sp E (Swa.sp_name i) s1 = (Ret (true, cid, oid, t), s2) ->
      Swa.tenant_id i <> "" ->
      forall items,
        In items (Obs.printed_json (trace (snd (Swa.main E (initial lines))))) ->
        lookup_item "tenantId" items = Some (VStr (Swa.tenant_id i))).
Proof.
  intros Hfile. split.
  - intros i s1 s2 cid oid t Hread Hget Hten.
    destruct (kv_found_run E lines cfg Hfile
                (fun items => lookup_item "tenantId" items
                              = Some (VStr (KeyVault.tenant_id i)))
                i s1 s2 cid oid t Hread Hget) as (c & _ & _ & _ & Hjson).
    { intros secret. destruct (KeyVault.tenant_id i); [congruence|reflexivity]. }
    exact Hjson.
  - intros i s1 s2 cid oid t Hread Hget Hten.
    destruct (swa_found_run E lines cfg Hfile
                (fun items => lookup_item "tenantId" items
                              = Some (VStr (Swa.tenant_id i)))
                i s1 s2 cid oid t Hread Hget) as (c & _ & _ & _ & Hjson).
    { intros secret. destruct (Swa.tenant_id i); [congruence|reflexivity]. }
    exact Hjson.
Qed.

Lemma given_tenant_is_kept_on_reuse_witness :
  lookup_item "tenantId" (Sample.reused "tenant-0") = Some (VStr "tenant-0")
  /\ (Swa.tenant_id
        (Swa.Settings "acme" "acme-swa-deployer-sp" "tenant-0" "sub-1" "rg-core")
      <> ""
      /\ lookup_item "tenantId" (Sample.reused "tenant-0")
         = Some (VStr "tenant-0")).
Proof.
  set (E := Sample.world true (FileParsed Sample.acme_with_tenant)).
  split.
  - refine (proj1 (given_tenant_is_kept_on_reuse E Sample.accept_all
                     Sample.acme_with_tenant eq_refl)
      Sample.kv_with_tenant
      (snd (KeyVault.read_settings Sample.acme_with_tenant
              (initial Sample.accept_all)))
      (snd (KeyVault.get_sp E "acme-repo-sp"
              (snd (KeyVault.read_settings Sample.acme_with_tenant
                      (initial Sample.accept_all)))))
      (VStr "app-1") (VStr "obj-1") (VStr "11111111-aaaa") _ _ _
      (Sample.reused "tenant-0") _).
    + vm_compute. reflexivity.
    + vm_compute. reflexivity.
    + vm_compute. discriminate.
    + vm_compute. left. reflexivity.
  - split; [vm_compute; discriminate|].
    refine (proj2 (given_tenant_is_kept_on_reuse E Sample.accept_all
                     Sample.acme_with_tenant eq_refl)
      (Swa.Settings "acme" "acme-swa-deployer-sp" "tenant-0" "sub-1" "rg-core")
      (snd (Swa.read_settings Sample.acme_with_tenant
              (initial Sample.accept_all)))
      (snd (Swa.get_sp E "acme-swa-deployer-sp"
              (snd (Swa.read_settings Sample.acme_with_tenant
                      (initial Sample.accept_all)))))
      (VStr "app-1") (VStr "obj-1") (VStr "11111111-aaaa") _ _ _
      (Sample.reused "tenant-0") _).
    + vm_compute. reflexivity.
    + vm_compute. reflexivity.
    + vm_compute. discriminate.
    + vm_compute. left. reflexivity.
Defined.

(** X11.  In a run of either script whose lookup reports not found, every
    dictionary the run prints takes its [clientId], [clientSecret] and
    [tenantId] from the decoded output of the creation call, and its
    [subscriptionId] from the settings: the tenant id that the operator gave
    is not used on this path. *)
Theorem created_principal_credentials (E : env) (lines : list string)
    (cfg : gmap string string) :
  defaults_file E = FileParsed cfg ->
  (forall (i : KeyVault.settings) (s1 s2 : state) (a b c : value),
      KeyVault.read_settings cfg (initial lines) = (Ret i, s1) ->
      KeyVault.get_sp E (KeyVault.sp_name i) s1 = (Ret (false, a, b, c), s2) ->
      forall items,
        In items (Obs.printed_json (trace (snd (KeyVault.main E (initial lines))))) ->
        exists created,
          json_loads E
            (Str.strip (stdout (run_answer E
               (trace s2 ++ [EvPrint [Text ("==> Creating Service Principal: "
                                              +:+ KeyVault.sp_name i)]])
               (Obs.creation_argv (KeyVault.sp_name i)))))
          = Some (VDict created)
          /\ lookup_item "clientId" items = lookup_item "clientId" created
          /\ lookup_item "clientSecret" items = lookup_item "clientSecret" created
          /\ lookup_item "tenantId" items = lookup_item "tenantId" created
          /\ lookup_item "subscriptionId" items
             = Some (VStr (KeyVault.subscription_id i)))
  /\ (forall (i : Swa.settings) (s1 s2 : state) (a b c : value),
      Swa.read_settings cfg (initial lines) = (Ret i, s1) ->
      Swa.get_sp E (Swa.sp_name i) s1 = (Ret (false, a, b, c), s2) ->
      forall items,
        In items (Obs.printed_json (trace (snd (Swa.main E (initial lines))))) ->
        exists created,
          json_loads E
            (Str.strip (stdout (run_answer E
               (trace s2 ++ [EvPrint [Text ("==> Creating SP '"
                                              +:+ Swa.sp_name i +:+ "'")]])
               (Obs.creation_argv (Swa.sp_name i)))))
          = Some (VDict created)
          /\ lookup_item "clientId" items = lookup_item "clientId" created
          /\ lookup_item "clientSecret" items = lookup_item "clientSecret" created
          /\ lookup_item "tenantId" items = lookup_item "tenantId" created
          /\ lookup_item "subscriptionId" items
             = Some (VStr (Swa.subscription_id i))).
Proof.
  intros Hfile. split.
  - intros i s1 s2 a b c Hread Hget items Hin.
    destruct (KeyVault.reuse_or_create E i (false, a, b, c) s2)
      as [[[[[cid sec] ten] oid]|code|e] s3] eqn:Hsp.
    + rewrite (kv_printed_after_principal E lines cfg _ _ _ _ _ Hfile
                 i s1 s2 s3 Hread Hget Hsp items Hin).
      destruct (kv_reuse_not_found_inv _ _ _ _ _ _ _ _ Hsp) as [s0 Hcreate].
      destruct (kv_create_sp_fields _ _ _ _ _ _ _ _ Hcreate)
        as (created & Hjson & H1 & H2 & H3).
      exists created. simpl in Hjson. rewrite Hjson, H1, H2, H3.
      repeat split; reflexivity.
    + exfalso. revert Hin. unfold KeyVault.main.
      rewrite (bind_ret _ _ _ _ _ (kv_load_ok E cfg _ Hfile)).
      rewrite (bind_ret _ _ _ _ _ Hread).
      rewrite (bind_ret _ _ _ _ _ Hget).
      rewrite (bind_exit _ _ _ _ _ Hsp). simpl.
      rewrite printed_json_none; [tauto|].
      eapply emits_keeps; [|exact Hsp|].
      { apply kv_reuse_or_create_emits; reflexivity. }
      eapply emits_keeps; [|exact Hget|].
      { apply kv_get_sp_emits; reflexivity. }
      eapply emits_keeps; [|exact Hread|].
      { apply kv_read_settings_emits; reflexivity. }
      constructor.
    + exfalso. revert Hin. unfold KeyVault.main.
      rewrite (bind_ret _ _ _ _ _ (kv_load_ok E cfg _ Hfile)).
      rewrite (bind_ret _ _ _ _ _ Hread).
      rewrite (bind_ret _ _ _ _ _ Hget).
      rewrite (bind_raise _ _ _ _ _ Hsp). simpl.
      rewrite printed_json_none; [tauto|].
      eapply emits_keeps; [|exact Hsp|].
      { apply kv_reuse_or_create_emits; reflexivity. }
      eapply emits_keeps; [|exact Hget|].
      { apply kv_get_sp_emits; reflexivity. }
      eapply emits_keeps; [|exact Hread|].
      { apply kv_read_settings_emits; reflexivity. }
      constructor.
  - intros i s1 s2 a b c Hread Hget items Hin.
    destruct (Swa.reuse_or_create E i (false, a, b, c) s2)
      as [[[[[cid sec] ten] oid]|code|e] s3] eqn:Hsp.
    + rewrite (swa_printed_after_principal E lines cfg _ _ _ _ _ Hfile
                 i s1 s2 s3 Hread Hget Hsp items Hin).
      destruct (swa_reuse_not_found_inv _ _ _ _ _ _ _ _ Hsp) as [s0 Hcreate].
      destruct (swa_create_sp_fields _ _ _ _ _ _ _ _ Hcreate)
        as (created & Hjson & H1 & H2 & H3).
      exists created. simpl in Hjson. rewrite Hjson, H1, H2, H3.
      repeat split; reflexivity.
    + exfalso. revert Hin. unfold Swa.main.
      rewrite (bind_ret _ _ _ _ _ (swa_load_ok E cfg _ Hfile)).
      rewrite (bind_ret _ _ _ _ _ Hread).
      rewrite (bind_ret _ _ _ _ _ Hget).
      rewrite (bind_exit _ _ _ _ _ Hsp). simpl.
      rewrite printed_json_none; [tauto|].
      eapply emits_keeps; [|exact Hsp|].
      { apply swa_reuse_or_create_emits; reflexivity. }
      eapply emits_keeps; [|exact Hget|].
      { apply swa_get_sp_emits; reflexivity. }
      eapply emits_keeps; [|exact Hread|].
      { apply swa_read_settings_emits; reflexivity. }
      constructor.
    + exfalso. revert Hin. unfold Swa.main.
      rewrite (bind_ret _ _ _ _ _ (swa_load_ok E cfg _ Hfile)).
      rewrite (bind_ret _ _ _ _ _ Hread).
      rewrite (bind_ret _ _ _ _ _ Hget).
      rewrite (bind_raise _ _ _ _ _ Hsp). simpl.
      rewrite printed_json_none; [tauto|].
      eapply emits_keeps; [|exact Hsp|].
      { apply swa_reuse_or_create_emits; reflexivity. }
      eapply emits_keeps; [|exact Hget|].
      { apply swa_get_sp_emits; reflexivity. }
      eapply emits_keeps; [|exact Hread|].
      { apply swa_read_settings_emits; reflexivity. }
      constructor.
Qed.

Lemma created_principal_credentials_witness :
  lookup_item "tenantId" Sample.fresh = Some (VStr "tenant-2")
  /\ lookup_item "clientSecret" Sample.fresh = Some (VStr "pw-2").
Proof.
  set (E := Sample.world_blank_lookup (FileParsed Sample.acme_with_tenant)).
  pose proof (created_principal_credentials E Sample.accept_all
                Sample.acme_with_tenant eq_refl) as [Hkv Hswa].
  split.
  - destruct (Hkv Sample.kv_with_tenant
      (snd (KeyVault.read_settings Sample.acme_with_tenant
              (initial Sample.accept_all)))
      (snd (KeyVault.get_sp E "acme-repo-sp"
              (snd (KeyVault.read_settings Sample.acme_with_tenant
                      (initial Sample.accept_all)))))
      VNone VNone VNone) with (items := Sample.fresh)
      as (created & Hjson & _ & _ & Hten & _).
    + vm_compute. reflexivity.
    + vm_compute. reflexivity.
    + vm_compute. left. reflexivity.
    + vm_compute in Hjson. inversion Hjson; subst created. exact Hten.
  - destruct (Hswa
      (Swa.Settings "acme" "acme-swa-deployer-sp" "tenant-0" "sub-1" "rg-core")
      (snd (Swa.read_settings Sample.acme_with_tenant
              (initial Sample.accept_all)))
      (snd (Swa.get_sp E "acme-swa-deployer-sp"
              (snd (Swa.read_settings Sample.acme_with_tenant
                      (initial Sample.accept_all)))))
      VNone VNone VNone) with (items := Sample.fresh)
      as (created & Hjson & _ & Hsec & _ & _).
    + vm_compute. reflexivity.
    + vm_compute. reflexivity.
    + vm_compute. left. reflexivity.
    + vm_compute in Hjson. inversion Hjson; subst created. exact Hsec.
Defined.

(** ** The role assignment of the Static Web App script *)

Lemma swa_grant_then E (P : event -> Prop) (i : Swa.settings) (oid : string)
    (cid secret tenant : value) :
  (forall t, P (EvPrint [Text t])) ->
  (forall t, P (EvInput t)) ->
  (forall tail, P (EvRun ("az" :: "staticwebapp" :: "create" :: tail))) ->
  P (EvPrint [Dumps (Swa.credentials i cid secret tenant) 2]) ->
  Obs.emits_then
    [EvPrint [Text ("🔐 Assigning role 'Contributor' to SP at scope: "
                      +:+ Swa.scope i)];
     EvRun (Obs.assignment_argv oid "Contributor" (Swa.scope i))] P
    (Swa.grant_access E i (VStr oid) ;;
     Swa.offer_swa E i ;;
     Swa.report i cid secret tenant).
Proof.
  intros Htext Hinput Hswa Hdumps.
  unfold Swa.grant_access, Swa.assign_rbac, Swa.az.
  apply emits_then_assoc, emits_then_print.
  apply emits_then_assoc, emits_then_assoc.
  apply emits_then_run; [reflexivity|].
  intros result. apply emits_then_nil.
  repeat first [ apply swa_offer_swa_emits | apply swa_report_emits
               | emits_follow ]; auto.
Qed.

(** X12.  In a run of the Static Web App script that gets as far as the
    role assignment with a textual object id, the role-assignment calls of
    the whole run are exactly one: role [Contributor] for that object id at
    the scope of the resource group,
    [/subscriptions/<subscription>/resourceGroups/<group>], passed to
    [subprocess.run] as a vector. *)
Theorem swa_one_resource_group_assignment (E : env) (lines : list string)
    (cfg : gmap string string) (i : Swa.settings) (s1 s2 s3 : state)
    (lookup : bool * value * value * value)
    (client_id client_secret tenant_id : value) (object_id : string) :
  defaults_file E = FileParsed cfg ->
  Swa.read_settings cfg (initial lines) = (Ret i, s1) ->
  Swa.get_sp E (Swa.sp_name i) s1 = (Ret lookup, s2) ->
  Swa.reuse_or_create E i lookup s2
    = (Ret (client_id, client_secret, tenant_id, VStr object_id), s3) ->
  List.filter Obs.is_role_assignment (trace (snd (Swa.main E (initial lines))))
  = [EvRun ["az"; "role"; "assignment"; "create"; "--assignee"; object_id;
            "--role"; "Contributor"; "--scope";
            "/subscriptions/" +:+ Swa.subscription_id i
              +:+ "/resourceGroups/" +:+ Swa.rg_name i]].
Proof.
  intros Hfile Hread Hget Hsp.
  rewrite (swa_main_from_grant E lines cfg lookup _ _ _ _ Hfile i s1 s2 s3
             Hread Hget Hsp).
  assert (Hbefore : Forall (fun e => Obs.is_role_assignment e = false) (trace s3)).
  { eapply emits_keeps; [|exact Hsp|].
    { apply swa_reuse_or_create_emits; intros; reflexivity. }
    eapply emits_keeps; [|exact Hget|].
    { apply swa_get_sp_emits; intros; reflexivity. }
    eapply emits_keeps; [|exact Hread|].
    { apply swa_read_settings_emits; intros; reflexivity. }
    constructor. }
  destruct (swa_grant_then E (fun e => Obs.is_role_assignment e = false)
              i object_id client_id client_secret tenant_id) with (s := s3)
    as [after [Hdone Hafter]]; try (intros; reflexivity).
  rewrite Hdone, !List.filter_app, (filter_none _ _ Hbefore),
    (filter_none _ _ Hafter).
  reflexivity.
Qed.

Lemma swa_one_resource_group_assignment_witness :
  List.filter Obs.is_role_assignment
    (trace (snd (Swa.main (Sample.world true (FileParsed Sample.acme))
                   (initial Sample.accept_all))))
  = [EvRun ["az"; "role"; "assignment"; "create"; "--assignee"; "obj-1";
            "--role"; "Contributor"; "--scope";
            "/subscriptions/sub-1/resourceGroups/rg-core"]].
Proof.
  set (E := Sample.world true (FileParsed Sample.acme)).
  set (s1 := snd (Swa.read_settings Sample.acme (initial Sample.accept_all))).
  set (s2 := snd (Swa.get_sp E "acme-swa-deployer-sp" s1)).
  set (s3 := snd (Swa.reuse_or_create E Sample.swa_accepted
                    Sample.known_principal s2)).
  refine (swa_one_resource_group_assignment E Sample.accept_all Sample.acme
    Sample.swa_accepted s1 s2 s3 Sample.known_principal
    (VStr "app-1") (VStr "pw-1") (VStr "11111111-aaaa") "obj-1" _ _ _ _).
  - reflexivity.
  - vm_compute. reflexivity.
  - vm_compute. reflexivity.
  - vm_compute. reflexivity.
Defined.

(** ** The optional Static Web App *)

Lemma swa_creation_then E (P : event -> Prop) (i : Swa.settings)
    (name location : string) (cid secret tenant : value) :
  (forall t, P (EvPrint [Text t])) ->
  P (EvPrint [Dumps (Swa.credentials i cid secret tenant) 2]) ->
  Obs.emits_then
    [EvPrint [Text ("🚀 Creating Static Web App '" +:+ name +:+ "' in RG '"
                      +:+ Swa.rg_name i +:+ "'...")];
     EvRun ["az"; "staticwebapp"; "create"; "--name"; name;
            "--resource-group"; Swa.rg_name i; "--location"; location;
            "--sku"; "Free"; "--source"; "."]] P
    ((Swa.create_swa_app E name (Swa.rg_name i) location ;;
      print [Text (Str.nl +:+ "✅ Static Web App created: " +:+ name)] ;;
      print [Text ("SWA_NAME=" +:+ name)] ;;
      print [Text ("SWA_RESOURCE_GROUP=" +:+ Swa.rg_name i)] ;;
      print [Text ("SWA_LOCATION=" +:+ location)]) ;;
     Swa.report i cid secret tenant).
Proof.
  intros Htext Hdumps.
  unfold Swa.create_swa_app, Swa.az.
  do 2 apply emits_then_assoc. apply emits_then_print.
  do 2 apply emits_then_assoc.
  apply emits_then_run; [reflexivity|].
  intros result. apply emits_then_nil.
  repeat lazymatch goal with
         | |- Obs.emits _ (Swa.report _ _ _ _) => apply swa_report_emits
         | |- _ => emits_follow
         end; auto.
Qed.

Lemma swa_prompt_line msg dflt line rest tr :
  Swa.prompt msg dflt {| stdin := line :: rest; trace := tr |}
  = (Ret (Obs.answer line dflt),
     {| stdin := rest;
        trace := tr ++ [EvInput (msg +:+ " [" +:+ dflt +:+ "]: ")] |}).
Proof. reflexivity. Qed.

Lemma swa_prompt_eof msg dflt tr :
  Swa.prompt msg dflt {| stdin := []; trace := tr |}
  = (Raise EOFError,
     {| stdin := [];
        trace := tr ++ [EvInput (msg +:+ " [" +:+ dflt +:+ "]: ")] |}).
Proof. reflexivity. Qed.

(** X13.  In a run of the Static Web App script that has made its role
    assignment, the next answer decides on the Static Web App: put in lower
    case after trimming (and taken as [yes] when empty), it must be [yes] or
    [y].  If it is, and two more lines follow for the name and the
    location, the run issues exactly one creation call,
    [az staticwebapp create] with that name, the resource group of the role
    assignment, that location, SKU [Free] and source [.]; if the input ends
    instead, the run ends in [EOFError] without a creation call.  With any
    other answer the run issues no creation call, asks nothing more and
    completes. *)
Theorem swa_created_only_on_yes (E : env) (lines : list string)
    (cfg : gmap string string) (i : Swa.settings) (s1 s2 s3 s4 : state)
    (lookup : bool * value * value * value)
    (client_id client_secret tenant_id object_id : value)
    (answer : string) (rest : list string) :
  defaults_file E = FileParsed cfg ->
  Swa.read_settings cfg (initial lines) = (Ret i, s1) ->
  Swa.get_sp E (Swa.sp_name i) s1 = (Ret lookup, s2) ->
  Swa.reuse_or_create E i lookup s2
    = (Ret (client_id, client_secret, tenant_id, object_id), s3) ->
  Swa.grant_access E i object_id s3 = (Ret tt, s4) ->
  stdin s4 = answer :: rest ->
  let run := Swa.main E (initial lines) in
  let choice := Str.lower (Obs.answer answer "yes") in
  let created := List.filter Obs.is_swa_creation (trace (snd run)) in
  if String.eqb choice "yes" || String.eqb choice "y" then
    match rest with
    | name :: location :: _ =>
        created
        = [EvRun ["az"; "staticwebapp"; "create";
                  "--name"; Obs.answer name (Swa.org_prefix i +:+ "-swa");
                  "--resource-group"; Swa.rg_name i;
                  "--location"; Obs.answer location "AustraliaEast";
                  "--sku"; "Free"; "--source"; "."]]
    | _ => created = [] /\ fst run = Raise EOFError
    end
  else created = [] /\ fst run = Ret tt /\ stdin (snd run) = rest.
Proof.
  intros Hfile Hread Hget Hsp Hgrant Hstdin run choice created.
  assert (Hbefore : Forall (fun e => Obs.is_swa_creation e = false) (trace s4)).
  { eapply emits_keeps; [|exact Hgrant|].
    { apply swa_grant_access_emits; intros; reflexivity. }
    eapply emits_keeps; [|exact Hsp|].
    { apply swa_reuse_or_create_emits; intros; reflexivity. }
    eapply emits_keeps; [|exact Hget|].
    { apply swa_get_sp_emits; intros; reflexivity. }
    eapply emits_keeps; [|exact Hread|].
    { apply swa_read_settings_emits; intros; reflexivity. }
    constructor. }
  assert (Hrun : run = (Swa.offer_swa E i ;;
                        Swa.report i client_id client_secret tenant_id) s4).
  { unfold run.
    rewrite (swa_main_from_grant E lines cfg lookup _ _ _ _ Hfile i s1 s2 s3
               Hread Hget Hsp).
    rewrite (bind_ret _ _ _ _ _ Hgrant). reflexivity. }
  unfold created. rewrite Hrun. clear Hrun created run.
  destruct s4 as [input done]. simpl in Hstdin, Hbefore. subst input.
  set (asked := EvInput ("Do you want to create an Azure Static Web App?"
                           +:+ " [" +:+ "yes" +:+ "]: ")).
  unfold Swa.offer_swa.
  rewrite bind_assoc.
  rewrite (bind_ret _ _ _ _ _ (swa_prompt_line _ _ answer rest done)).
  cbv beta zeta. fold choice. fold asked.
  destruct (String.eqb choice "yes" || String.eqb choice "y") eqn:Hchoice.
  - destruct rest as [|name [|location rest]].
    + rewrite bind_assoc.
      rewrite (bind_raise _ _ _ _ _ (swa_prompt_eof _ _ _)).
      cbn [fst snd trace]. rewrite !List.filter_app, (filter_none _ _ Hbefore).
      auto.
    + rewrite bind_assoc.
      rewrite (bind_ret _ _ _ _ _ (swa_prompt_line _ _ name [] _)).
      cbv beta. rewrite bind_assoc.
      rewrite (bind_raise _ _ _ _ _ (swa_prompt_eof _ _ _)).
      cbn [fst snd trace]. rewrite !List.filter_app, (filter_none _ _ Hbefore).
      auto.
    + rewrite bind_assoc.
      rewrite (bind_ret _ _ _ _ _ (swa_prompt_line _ _ name (location :: rest) _)).
      cbv beta. rewrite bind_assoc.
      rewrite (bind_ret _ _ _ _ _ (swa_prompt_line _ _ location rest _)).
      cbv beta.
      pose proof (swa_creation_then E (fun e => Obs.is_swa_creation e = false)
                    i (Obs.answer name (Swa.org_prefix i +:+ "-swa"))
                    (Obs.answer location "AustraliaEast")
                    client_id client_secret tenant_id
                    (fun _ => eq_refl) eq_refl) as Hcreate.
      match goal with
      | |- context [bind ?m ?k ?st] =>
          destruct (Hcreate st) as [after [Hdone Hafter]]
      end.
      rewrite Hdone. cbn [trace].
      rewrite !List.filter_app, (filter_none _ _ Hbefore),
        (filter_none _ _ Hafter). reflexivity.
  - change (bind (ret tt) ?k ?s) with (k tt s). cbv beta.
    unfold Swa.report, bind, print, emit. cbn [fst snd trace stdin].
    rewrite !List.filter_app, (filter_none _ _ Hbefore). auto.
Qed.

Lemma swa_created_only_on_yes_witness :
  List.filter Obs.is_swa_creation
    (trace (snd (Swa.main (Sample.world true (FileParsed Sample.acme))
                   (initial Sample.accept_all))))
  = [EvRun ["az"; "staticwebapp"; "create"; "--name"; "acme-swa";
            "--resource-group"; "rg-core"; "--location"; "AustraliaEast";
            "--sku"; "Free"; "--source"; "."]].
Proof.
  set (E := Sample.world true (FileParsed Sample.acme)).
  set (s1 := snd (Swa.read_settings Sample.acme (initial Sample.accept_all))).
  set (s2 := snd (Swa.get_sp E "acme-swa-deployer-sp" s1)).
  set (s3 := snd (Swa.reuse_or_create E Sample.swa_accepted
                    Sample.known_principal s2)).
  set (s4 := snd (Swa.grant_access E Sample.swa_accepted (VStr "obj-1") s3)).
  refine (swa_created_only_on_yes E Sample.accept_all Sample.acme
    Sample.swa_accepted s1 s2 s3 s4 Sample.known_principal
    (VStr "app-1") (VStr "pw-1") (VStr "11111111-aaaa") (VStr "obj-1")
    "" [""; ""; ""; ""] _ _ _ _ _ _).
  - reflexivity.
  - vm_compute. reflexivity.
  - vm_compute. reflexivity.
  - vm_compute. reflexivity.
  - vm_compute. reflexivity.
  - vm_compute. reflexivity.
Defined.

(** ** The listing of the vault *)
Section Lines.
Import Str.

Lemma break_is_space c :
  is_cr c || islinebreak c = true -> isspace c = true.
Proof.
  destruct c as [[] [] [] [] [] [] [] []]; vm_compute; intros H;
    first [reflexivity | discriminate H].
Qed.

Lemma spaceless_breakless s : spaceless s = true -> breakless s = true.
Proof.
  induction s as [|c s IH]; simpl; [reflexivity|].
  intros H. apply andb_true_iff in H. destruct H as [Hc Hs].
  rewrite (IH Hs), andb_true_r.
  destruct (is_cr c || islinebreak c) eqn:Hb.
  - rewrite (break_is_space c Hb) in Hc. discriminate Hc.
  - apply orb_false_iff in Hb. destruct Hb as [-> ->]. reflexivity.
Qed.

Lemma append_empty_r s : s +:+ "" = s.
Proof.
  induction s as [|c s IH]; [reflexivity|].
  change (String c (s +:+ "") = String c s). f_equal. exact IH.
Qed.

(** A stretch without line boundaries goes to the line being read. *)
Lemma splitlines_from_run line text rest :
  breakless text = true ->
  splitlines_from line (text +:+ rest) = splitlines_from (line +:+ text) rest.
Proof.
  revert line. induction text as [|c text IH]; intros line Hb.
  - rewrite append_empty_r. reflexivity.
  - simpl in Hb. apply andb_true_iff in Hb. destruct Hb as [Hc Hb].
    apply andb_true_iff in Hc. destruct Hc as [Hcr Hlb].
    apply negb_true_iff in Hcr, Hlb.
    change (String c text +:+ rest) with (String c (text +:+ rest)).
    simpl splitlines_from. rewrite Hcr, Hlb.
    rewrite (IH _ Hb), append_assoc. reflexivity.
Qed.

Lemma splitlines_from_nl line rest :
  splitlines_from line (nl +:+ rest) = line :: splitlines_from "" rest.
Proof. reflexivity. Qed.

(** Splitting the lines of names joined by line feeds gives the names
    back. *)
Lemma splitlines_join names :
  Forall (fun n => n <> "" /\ spaceless n = true) names ->
  splitlines (join nl names) = names.
Proof.
  unfold splitlines. induction 1 as [|n names [Hne Hn] Hnames IH].
  - reflexivity.
  - destruct names as [|m names].
    + simpl join. rewrite <- (append_empty_r n) at 1.
      rewrite (splitlines_from_run _ _ _ (spaceless_breakless _ Hn)).
      simpl. destruct n; [congruence|reflexivity].
    + rewrite join_cons.
      rewrite (splitlines_from_run _ _ _ (spaceless_breakless _ Hn)).
      rewrite splitlines_from_nl, IH. reflexivity.
Qed.

Lemma rstrip_all_space s : all_space s = true -> rstrip s = "".
Proof.
  intros H. rewrite <- rstrip_empty in H. destruct (rstrip s); [reflexivity|].
  discriminate H.
Qed.

(** Trailing whitespace is all that [rstrip] removes after a text that
    does not end in whitespace. *)
Lemma rstrip_trailing body trailing :
  body <> "" -> ends_with_space body = false -> all_space trailing = true ->
  rstrip (body +:+ trailing) = body.
Proof.
  intros Hne Hend Htr. induction body as [|c body IH]; [congruence|].
  change (String c body +:+ trailing) with (String c (body +:+ trailing)).
  simpl rstrip. destruct body as [|c' body].
  - change ("" +:+ trailing) with trailing.
    rewrite (rstrip_all_space _ Htr). simpl in Hend. rewrite Hend. reflexivity.
  - rewrite IH; [reflexivity|discriminate|exact Hend].
Qed.

Lemma spaceless_head c s :
  spaceless (String c s) = true -> isspace c = false.
Proof.
  simpl. intros H. apply andb_true_iff in H. destruct H as [H _].
  apply negb_true_iff in H. exact H.
Qed.

Lemma ends_with_space_app a b :
  b <> "" -> ends_with_space (a +:+ b) = ends_with_space b.
Proof.
  intros Hb. induction a as [|c a IH]; [reflexivity|].
  change (String c a +:+ b) with (String c (a +:+ b)).
  destruct (a +:+ b) as [|c' rest] eqn:Hab.
  - destruct a; [change ("" +:+ b) with b in Hab; congruence|discriminate Hab].
  - simpl. exact IH.
Qed.

Lemma spaceless_end s : spaceless s = true -> ends_with_space s = false.
Proof.
  induction s as [|c s IH]; [reflexivity|].
  intros H. pose proof (spaceless_head _ _ H) as Hc.
  simpl in H. apply andb_true_iff in H. destruct H as [_ Hs].
  destruct s; [exact Hc|]. simpl. apply IH. exact Hs.
Qed.

Lemma join_shape names :
  Forall (fun n => n <> "" /\ spaceless n = true) names -> names <> [] ->
  join nl names <> ""
  /\ starts_with_space (join nl names) = false
  /\ ends_with_space (join nl names) = false.
Proof.
  induction 1 as [|n names [Hne Hn] Hnames IH]; [congruence|]. intros _.
  destruct n as [|c n]; [congruence|].
  pose proof (spaceless_head _ _ Hn) as Hc.
  destruct names as [|m names].
  - simpl join. repeat split; [discriminate|exact Hc|].
    apply spaceless_end. exact Hn.
  - rewrite join_cons. destruct IH as (Hj & _ & Hend); [discriminate|].
    repeat split; [discriminate|exact Hc|].
    rewrite ends_with_space_app.
    + rewrite ends_with_space_app; [exact Hend|exact Hj].
    + destruct (join nl (m :: names)); discriminate.
Qed.

Lemma strip_listing names trailing :
  Forall (fun n => n <> "" /\ spaceless n = true) names ->
  all_space trailing = true ->
  strip (join nl names +:+ trailing) = join nl names.
Proof.
  intros Hnames Htr. destruct names as [|n names].
  - simpl join. change ("" +:+ trailing) with trailing.
    assert (H : is_empty (strip trailing) = true)
      by (rewrite strip_empty; exact Htr).
    destruct (strip trailing); [reflexivity|discriminate H].
  - destruct (join_shape _ Hnames) as (Hne & Hstart & Hend); [discriminate|].
    unfold strip.
    assert (Hl : lstrip (join nl (n :: names) +:+ trailing)
                 = join nl (n :: names) +:+ trailing).
    { destruct (join nl (n :: names)) as [|c body]; [congruence|].
      simpl in Hstart.
      change (String c body +:+ trailing) with (String c (body +:+ trailing)).
      simpl. rewrite Hstart. reflexivity. }
    rewrite Hl. apply rstrip_trailing; assumption.
Qed.

Lemma splitlines_from_breakless n :
  forall s line, (String.length s <= n)%nat -> breakless line = true ->
    Forall (fun l => breakless l = true) (splitlines_from line s).
Proof.
  induction n as [|n IH]; intros s line Hlen Hline.
  - destruct s; [|simpl in Hlen; lia]. simpl.
    destruct (is_empty line); auto.
  - destruct s as [|c rest]; [simpl; destruct (is_empty line); auto|].
    simpl in Hlen. simpl splitlines_from.
    destruct (is_cr c) eqn:Hcr.
    + destruct rest as [|c2 rest2]; [auto|].
      destruct (is_lf c2); constructor; auto; apply IH; auto; simpl in *; lia.
    + destruct (islinebreak c) eqn:Hlb.
      * constructor; auto. apply IH; auto. lia.
      * apply IH; [lia|].
        clear IH Hlen. induction line as [|x line IHl].
        -- simpl. rewrite Hcr, Hlb. reflexivity.
        -- simpl in Hline |- *. apply andb_true_iff in Hline.
           destruct Hline as [Hx Hl]. rewrite Hx, (IHl Hl). reflexivity.
Qed.
End Lines.

Lemma filter_nonempty names :
  Forall (fun n => n <> "" /\ Str.spaceless n = true) names ->
  List.filter (fun n => negb (Str.is_empty n)) names = names.
Proof.
  induction 1 as [|n names [Hne _] _ IH]; [reflexivity|].
  simpl. rewrite IH. destruct n; [congruence|reflexivity].
Qed.

Lemma filter_nonempty_breakless names :
  Forall (fun l => Str.breakless l = true) names ->
  Forall (fun n => n <> "" /\ Str.breakless n = true)
    (List.filter (fun n => negb (Str.is_empty n)) names).
Proof.
  induction 1 as [|n names Hn _ IH]; simpl; [constructor|].
  destruct n; simpl; [exact IH|]. constructor; [|exact IH].
  split; [discriminate|exact Hn].
Qed.

Lemma kv_listing_az (E : env) (vault : string) (prefix : option string)
    (s : state) :
  KeyVault.az E
    [VStr "keyvault"; VStr "secret"; VStr "list"; VStr "--vault-name";
     VStr vault; VStr "--query";
     VStr ("[?starts_with(name, '" +:+ KeyVault.fmt prefix +:+ "')].name");
     VStr "-o"; VStr "tsv"] true s
  = let argv := Obs.listing_argv vault prefix in
    let r := run_answer E (trace s) argv in
    if returncode r =? 0
    then (Ret (Some (Str.strip (stdout r))), emit (EvRun argv) s)
    else (Exit 1,
          emit (EvPrint [Text (stderr r)])
            (emit (EvPrint [Text ("Command failed: " +:+ Str.join " " argv)])
               (emit (EvRun argv) s))).
Proof.
  unfold KeyVault.az, bind, subprocess_run, join_cmd, print, sys_exit, ret.
  cbn [strs]. cbv zeta.
  change (run_answer E (trace s) _)
    with (run_answer E (trace s) (Obs.listing_argv vault prefix)).
  destruct (returncode _ =? 0); reflexivity.
Qed.

(** X14.  When the listing command succeeds and prints the names one per
    line, possibly followed by whitespace, and no name is empty or holds a
    whitespace character, [get_secret_names] returns exactly these names,
    in order, after that one call. *)
Theorem listed_names_are_returned (E : env) (vault : string)
    (prefix : option string) (s : state) (names : list string)
    (trailing : string) :
  let r := run_answer E (trace s) (Obs.listing_argv vault prefix) in
  returncode r = 0 ->
  stdout r = Str.join Str.nl names +:+ trailing ->
  Str.all_space trailing = true ->
  Forall (fun n => n <> "" /\ Str.spaceless n = true) names ->
  KeyVault.get_secret_names E vault prefix s
  = (Ret names, emit (EvRun (Obs.listing_argv vault prefix)) s).
Proof.
  intros r Hrc Hout Htr Hnames. unfold r in *. clear r.
  unfold KeyVault.get_secret_names, bind. rewrite kv_listing_az. cbv zeta.
  rewrite Hrc. simpl. rewrite Hout, (strip_listing _ _ Hnames Htr).
  destruct (Str.join Str.nl names) as [|c body] eqn:Hjoin.
  - destruct names as [|n names]; [reflexivity|].
    destruct (join_shape _ Hnames) as [Hne _]; [discriminate|].
    congruence.
  - rewrite <- Hjoin, (splitlines_join _ Hnames), (filter_nonempty _ Hnames).
    reflexivity.
Qed.

Lemma listed_names_are_returned_witness :
  KeyVault.get_secret_names (Sample.world true (FileParsed Sample.acme))
    "kv-1" (Some "dev-") (initial [])
  = (Ret ["dev-a"; "dev-b"],
     emit (EvRun (Obs.listing_argv "kv-1" (Some "dev-"))) (initial [])).
Proof.
  apply (listed_names_are_returned (Sample.world true (FileParsed Sample.acme))
           "kv-1" (Some "dev-") (initial []) ["dev-a"; "dev-b"] Str.nl).
  - reflexivity.
  - reflexivity.
  - reflexivity.
  - repeat constructor; discriminate.
Defined.

(** X15.  Once [subprocess.run] has returned the completed listing
    command, [get_secret_names] has made that one call and nothing else
    outside the process.  If the command's status is not 0, the process
    ends with status 1 after printing the command line and the error
    stream.  If it is 0, the function returns names of which none is empty
    or holds a line boundary, and no name at all when the output is only
    whitespace. *)
Theorem secret_names_outcome (E : env) (vault : string)
    (prefix : option string) (s : state) :
  let argv := Obs.listing_argv vault prefix in
  let r := run_answer E (trace s) argv in
  let run := KeyVault.get_secret_names E vault prefix s in
  (returncode r <> 0 ->
     run = (Exit 1,
            {| stdin := stdin s;
               trace := trace s
                 ++ [EvRun argv;
                     EvPrint [Text ("Command failed: " +:+ Obs.cmdline argv)];
                     EvPrint [Text (stderr r)]] |}))
  /\ (returncode r = 0 ->
      exists names,
        run = (Ret names, emit (EvRun argv) s)
        /\ Forall (fun n => n <> "" /\ Str.breakless n = true) names
        /\ (Str.all_space (stdout r) = true -> names = [])).
Proof.
  intros argv r run. unfold run, r, argv. clear run r argv.
  unfold KeyVault.get_secret_names, bind, ret. rewrite kv_listing_az.
  cbv zeta.
  set (r := run_answer E (trace s) (Obs.listing_argv vault prefix)).
  split; intros Hrc.
  - apply Z.eqb_neq in Hrc. rewrite Hrc. unfold emit. simpl.
    rewrite <- !app_assoc. reflexivity.
  - rewrite Hrc. simpl.
    destruct (Str.strip (stdout r)) as [|c body] eqn:Hstrip.
    + exists []. repeat split; auto.
    + eexists. split; [reflexivity|]. split.
      * apply filter_nonempty_breakless.
        apply (splitlines_from_breakless (String.length (String c body)));
          [lia|reflexivity].
      * intros Hall. rewrite <- strip_empty, Hstrip in Hall.
        discriminate Hall.
Qed.

Lemma secret_names_outcome_witness :
  KeyVault.get_secret_names (Sample.world_locked_vault FileAbsent)
    "kv-1" (Some "dev-") (initial [])
  = (Exit 1,
     {| stdin := [];
        trace := [EvRun (Obs.listing_argv "kv-1" (Some "dev-"));
                  EvPrint [Text "Command failed: az keyvault secret list --vault-name kv-1 --query [?starts_with(name, 'dev-')].name -o tsv"];
                  EvPrint [Text "ERROR: Forbidden"]] |})
  /\ exists names,
       KeyVault.get_secret_names (Sample.world true FileAbsent)
         "kv-1" (Some "dev-") (initial [])
       = (Ret names,
          emit (EvRun (Obs.listing_argv "kv-1" (Some "dev-"))) (initial []))
       /\ Forall (fun n => n <> "" /\ Str.breakless n = true) names
       /\ (Str.all_space (stdout (Sample.tool true []
                                    (Obs.listing_argv "kv-1" (Some "dev-"))))
           = true -> names = []).
Proof.
  split.
  - apply (proj1 (secret_names_outcome (Sample.world_locked_vault FileAbsent)
                    "kv-1" (Some "dev-") (initial []))).
    vm_compute. discriminate.
  - apply (proj2 (secret_names_outcome (Sample.world true FileAbsent)
                    "kv-1" (Some "dev-") (initial []))).
    reflexivity.
Defined.
